(** * yoots: text files, overwrite confirmation and the holiday moratorium

    A shallow embedding of [yoots/textfile.py], [yoots/moratorium.py] and
    [yoots/prompt.py], and the properties of their behaviour.

    Modelling conventions.
    - The builtins and the standard library behave as in CPython 3:
      dictionaries iterate in insertion order, [csv.DictWriter.writerows]
      converts and writes row by row, a file opened for reading in text mode
      has its line ends translated. [raw_input] is the console read that the
      module calls (the tests install it as a module global).
    - Python values are the inductive type [Py.value]; dictionaries are
      association lists kept in insertion order, with unique keys.
    - Strings and file contents are byte strings ([string]): a text is the
      sequence of its bytes, one byte for one ASCII character. [str.lower],
      [str.strip] and [repr] are modelled as they act on ASCII text;
      [is_ascii] and [exact_text] mark the texts and the values on which
      they are exact.
    - Exceptions are the constructors of [Py.exn]; a computation that touches
      the file system or the console lives in the monad [Sys.M], which threads
      the [Sys.world] and ends in [Return], [Raise] or, when a loop has not
      finished within its fuel, [Running].
    - The console input is a function from line numbers to lines, so that it
      can be finite (end of input raises [EOFError]) or endless.
    - Libraries the package calls ([json], [yaml], [configparser],
      [ast.literal_eval]) are operations of the class [PyLibs]; [yaml.load],
      which is called without a loader and may run constructors named in the
      document, is an operation with effects. The [csv] module is modelled
      in [Module csv]. *)

From stdpp Require Import gmap strings list pretty.
From Stdlib Require Import ZArith Ascii String Lia.

Local Open Scope string_scope.
Set Warnings "-register-all".

(** ** Python values and exceptions *)

Module Py.

(** Dictionary keys: the hashable scalars the package meets. [KNone] is the
    [restkey] of [csv.DictReader]. *)
Inductive key : Type :=
| KNone
| KInt (z : Z)
| KStr (s : string).

Inductive value : Type :=
| VNone
| VBool (b : bool)
| VInt (z : Z)
| VStr (s : string)
| VList (l : list value)
| VDict (d : list (key * value)).

Inductive exn : Type :=
| AssertionError (msg : string)
| AttributeError (msg : string)
| ValueError (msg : string)
| SyntaxError (msg : string)
| TypeError (msg : string)
| IndexError (msg : string)
| KeyError (msg : string)
| IOError (msg : string)
| EOFError
| OtherError (cls msg : string).

#[export] Instance key_eq_dec : EqDecision key.
Proof. solve_decision. Defined.

#[export] Instance exn_eq_dec : EqDecision exn.
Proof. solve_decision. Defined.

(** Results of pure operations that may raise. *)
Inductive result (A : Type) : Type :=
| Ok (a : A)
| Err (e : exn).
Arguments Ok {A} a.
Arguments Err {A} e.

(** *** Insertion-ordered dictionaries *)

Section Dict.
Context {V : Type}.

(** [d.get(k)] *)
Fixpoint dict_get (k : key) (d : list (key * V)) : option V :=
  match d with
  | [] => None
  | (k', v) :: d' => if decide (k = k') then Some v else dict_get k d'
  end.

(** [d[k] = v]: an existing key keeps its place, a new one goes last. *)
Fixpoint dict_set (k : key) (v : V) (d : list (key * V)) : list (key * V) :=
  match d with
  | [] => [(k, v)]
  | (k', v') :: d' =>
      if decide (k = k') then (k, v) :: d' else (k', v') :: dict_set k v d'
  end.

(** [dict(pairs)] *)
Definition dict_of (pairs : list (key * V)) : list (key * V) :=
  fold_left (fun d kv => dict_set kv.1 kv.2 d) pairs [].

(** [d.keys()] *)
Definition dict_keys (d : list (key * V)) : list key := map fst d.

(** [k in d] *)
Definition dict_mem (k : key) (d : list (key * V)) : bool :=
  bool_decide (k ∈ dict_keys d).
End Dict.

(** *** [str] and [repr] *)

Definition nl : string := String "010"%char EmptyString.
Definition squote : ascii := "'"%char.
Definition dquote : ascii := "034"%char.
Definition backslash : ascii := "\"%char.

Definition hex_digit (n : N) : ascii :=
  if (n <? 10)%N then ascii_of_N (48 + n) else ascii_of_N (87 + n).

Fixpoint str_mem (c : ascii) (s : string) : bool :=
  match s with
  | EmptyString => false
  | String c' s' => if Ascii.eqb c c' then true else str_mem c s'
  end.

(** One character of a string literal, as [repr] escapes it inside the
    quote character [q]: the escapes of ASCII text; a byte from 128 on is
    written as a hexadecimal escape as well. *)
Definition repr_char (q c : ascii) : string :=
  let n := N_of_ascii c in
  if Ascii.eqb c q || Ascii.eqb c backslash then String backslash (String c EmptyString)
  else if (n =? 9)%N then "\t"
  else if (n =? 10)%N then "\n"
  else if (n =? 13)%N then "\r"
  else if (n <? 32)%N || (127 <=? n)%N then
    String backslash (String "x" (String (hex_digit (n / 16)) (String (hex_digit (n mod 16)) EmptyString)))
  else String c EmptyString.

Fixpoint repr_chars (q : ascii) (s : string) : string :=
  match s with
  | EmptyString => EmptyString
  | String c s' => repr_char q c ++ repr_chars q s'
  end.

(** [repr] of a string: single quotes, unless it holds a single quote and no
    double quote. *)
Definition repr_str (s : string) : string :=
  let q := if str_mem squote s && negb (str_mem dquote s) then dquote else squote in
  String q EmptyString ++ repr_chars q s ++ String q EmptyString.

Definition repr_key (k : key) : string :=
  match k with
  | KNone => "None"
  | KInt z => pretty z
  | KStr s => repr_str s
  end.

Definition str_key (k : key) : string :=
  match k with
  | KNone => "None"
  | KInt z => pretty z
  | KStr s => s
  end.

Fixpoint join (sep : string) (l : list string) : string :=
  match l with
  | [] => EmptyString
  | [x] => x
  | x :: l' => x ++ sep ++ join sep l'
  end.

Fixpoint repr (v : value) : string :=
  match v with
  | VNone => "None"
  | VBool true => "True"
  | VBool false => "False"
  | VInt z => pretty z
  | VStr s => repr_str s
  | VList l => "[" ++ join ", " (map repr l) ++ "]"
  | VDict d =>
      "{" ++ join ", " (map (fun kv => repr_key kv.1 ++ ": " ++ repr kv.2) d) ++ "}"
  end.

(** [str(v)] *)
Definition str (v : value) : string :=
  match v with
  | VStr s => s
  | _ => repr v
  end.

(** [x in (a, b, ...)] on strings *)
Definition in_tuple (x : string) (t : list string) : bool :=
  bool_decide (x ∈ t).

End Py.

Import Py.

(** ** The file system, the console and the monad of effects *)

Module Sys.

(** What a path names: a regular file with its content, or a directory.
    Paths are names in a flat store: any name that is not a directory can
    be opened for writing. *)
Inductive node : Type :=
| File (content : string)
| Dir.

Record world : Type := World {
  files : gmap string node;
  stdin : nat -> option string;   (* line [i] of the console input *)
  stdin_pos : nat;                (* lines read so far *)
  stdout : list string;           (* what was written to standard output *)
  stderr : list string            (* what was written to standard error *)
}.

Inductive outcome (A : Type) : Type :=
| Return (a : A) (w : world)
| Raise (e : exn) (w : world)
| Running.                         (* a loop that has not finished yet *)
Arguments Return {A} a w.
Arguments Raise {A} e w.
Arguments Running {A}.

Definition M (A : Type) : Type := world -> outcome A.

Definition ret {A} (a : A) : M A := fun w => Return a w.

Definition raise {A} (e : exn) : M A := fun w => Raise e w.

Definition bind {A B} (c : M A) (k : A -> M B) : M B :=
  fun w =>
    match c w with
    | Return a w' => k a w'
    | Raise e w' => Raise e w'
    | Running => Running
    end.

(** [assert cond, msg] *)
Definition assert (cond : bool) (msg : string) : M unit :=
  if cond then ret tt else raise (AssertionError msg).

(** A pure operation that may raise, run inside [M]. *)
Definition lift {A} (r : result A) : M A :=
  match r with
  | Ok a => ret a
  | Err e => raise e
  end.

(** [os.path.isfile(fname)] *)
Definition isfile (fname : string) : M bool :=
  fun w =>
    Return (match files w !! fname with Some (File _) => true | _ => false end) w.

(** [os.path.getsize(fname)]; a directory reports one block. *)
Definition getsize (fname : string) : M Z :=
  fun w =>
    match files w !! fname with
    | Some (File c) => Return (Z.of_nat (String.length c)) w
    | Some Dir => Return 4096%Z w
    | None => Raise (OtherError "OSError" ("No such file or directory: " ++ fname)) w
    end.

(** Text mode on input: the line ends CR LF and CR are read as LF. *)
Fixpoint universal_newlines (s : string) : string :=
  match s with
  | EmptyString => EmptyString
  | String c s' =>
      if Ascii.eqb c "013"%char then
        match s' with
        | String c' s'' =>
            if Ascii.eqb c' "010"%char then String "010"%char (universal_newlines s'')
            else String "010"%char (universal_newlines s')
        | EmptyString => String "010"%char EmptyString
        end
      else String c (universal_newlines s')
  end.

(** [open(fname).read()]: the whole content of a regular file. *)
Definition read_file (fname : string) : M string :=
  fun w =>
    match files w !! fname with
    | Some (File c) => Return (universal_newlines c) w
    | Some Dir => Raise (IOError ("Is a directory: " ++ fname)) w
    | None => Raise (IOError ("No such file or directory: " ++ fname)) w
    end.

(** [open(fname, 'w')]: creates the file, or truncates it. *)
Definition open_w (fname : string) : M unit :=
  fun w =>
    match files w !! fname with
    | Some Dir => Raise (IOError ("Is a directory: " ++ fname)) w
    | _ => Return tt (World (<[fname := File EmptyString]> (files w))
                            (stdin w) (stdin_pos w) (stdout w) (stderr w))
    end.

(** [outfile.write(s)] on the file opened at [fname]: appends. *)
Definition write_file (fname : string) (s : string) : M unit :=
  fun w =>
    match files w !! fname with
    | Some (File c) =>
        Return tt (World (<[fname := File (c ++ s)]> (files w))
                         (stdin w) (stdin_pos w) (stdout w) (stderr w))
    | _ => Raise (IOError ("I/O operation on closed file: " ++ fname)) w
    end.

(** [sys.stderr.write(s)] *)
Definition stderr_write (s : string) : M unit :=
  fun w => Return tt (World (files w) (stdin w) (stdin_pos w) (stdout w) (stderr w ++ [s])).

(** [raw_input(msg)]: shows the prompt, then reads one line. *)
Definition raw_input (msg : string) : M string :=
  fun w =>
    let w' := World (files w) (stdin w) (stdin_pos w) (stdout w ++ [msg]) (stderr w) in
    match stdin w (stdin_pos w) with
    | Some line =>
        Return line (World (files w) (stdin w) (S (stdin_pos w)) (stdout w ++ [msg]) (stderr w))
    | None => Raise EOFError w'
    end.

End Sys.

Import Sys.

#[export] Instance M_ret : MRet M := @ret.
#[export] Instance M_bind : MBind M := fun A B k c => bind c k.

(** ** yoots/__init__.py *)

(** Print a message to stderr with a trailing newline. *)
Definition eprint (msg : string) (newline : string) : M unit :=
  stderr_write (msg ++ newline).

(** ** The [csv] module (excel dialect)

    [csv.reader] is the character automaton of the module's parser;
    [csv.writer] quotes a field when it holds the delimiter, the quote
    character or a character of the line terminator. *)

Module csv.

Definition delimiter : ascii := ","%char.
Definition quotechar : ascii := dquote.
Definition field_limit : N := 131072.

Inductive ParserState : Type :=
| START_RECORD
| START_FIELD
| IN_FIELD
| IN_QUOTED_FIELD
| QUOTE_IN_QUOTED_FIELD
| EAT_CRNL.

#[export] Instance ParserState_eq_dec : EqDecision ParserState.
Proof. solve_decision. Defined.

Record Reader : Type := mkReader {
  state : ParserState;
  fields : list string;     (* the fields of the record so far *)
  field : string            (* the field being read *)
}.

Definition Error (msg : string) : exn := OtherError "_csv.Error" msg.

Definition parse_reset : Reader := mkReader START_RECORD [] EmptyString.

Definition parse_save_field (r : Reader) (st : ParserState) : Reader :=
  mkReader st (fields r ++ [field r]) EmptyString.

Definition parse_add_char (r : Reader) (c : ascii) (st : ParserState) : result Reader :=
  if (field_limit <=? N.of_nat (String.length (field r)))%N
  then Err (Error "field larger than field limit (131072)")
  else Ok (mkReader st (fields r) (field r ++ String c EmptyString)).

Definition is_newline (c : ascii) : bool :=
  Ascii.eqb c "010"%char || Ascii.eqb c "013"%char.

(** One step of the automaton; [None] is the end of a line. *)
Definition parse_process_char (r : Reader) (c : option ascii) : result Reader :=
  let start_field (r : Reader) :=
    match c with
    | None => Ok (parse_save_field r START_RECORD)
    | Some ch =>
        if is_newline ch then Ok (parse_save_field r EAT_CRNL)
        else if Ascii.eqb ch quotechar then Ok (mkReader IN_QUOTED_FIELD (fields r) (field r))
        else if Ascii.eqb ch delimiter then Ok (parse_save_field r START_FIELD)
        else parse_add_char r ch IN_FIELD
    end in
  match state r with
  | START_RECORD =>
      match c with
      | None => Ok r
      | Some ch =>
          if is_newline ch then Ok (mkReader EAT_CRNL (fields r) (field r))
          else start_field r
      end
  | START_FIELD => start_field r
  | IN_FIELD =>
      match c with
      | None => Ok (parse_save_field r START_RECORD)
      | Some ch =>
          if is_newline ch then Ok (parse_save_field r EAT_CRNL)
          else if Ascii.eqb ch delimiter then Ok (parse_save_field r START_FIELD)
          else parse_add_char r ch IN_FIELD
      end
  | IN_QUOTED_FIELD =>
      match c with
      | None => Ok r
      | Some ch =>
          if Ascii.eqb ch quotechar then Ok (mkReader QUOTE_IN_QUOTED_FIELD (fields r) (field r))
          else parse_add_char r ch IN_QUOTED_FIELD
      end
  | QUOTE_IN_QUOTED_FIELD =>
      match c with
      | None => Ok (parse_save_field r START_RECORD)
      | Some ch =>
          if Ascii.eqb ch quotechar then parse_add_char r ch IN_QUOTED_FIELD
          else if Ascii.eqb ch delimiter then Ok (parse_save_field r START_FIELD)
          else if is_newline ch then Ok (parse_save_field r EAT_CRNL)
          else parse_add_char r ch IN_FIELD
      end
  | EAT_CRNL =>
      match c with
      | None => Ok (mkReader START_RECORD (fields r) (field r))
      | Some ch =>
          if is_newline ch then Ok r
          else Err (Error  "new-line character seen in unquoted field - do you need to open the file with newline=''?")
      end
  end.

(** The characters of one line, then the end-of-line step. *)
Fixpoint parse_line (r : Reader) (line : string) : result Reader :=
  match line with
  | EmptyString => parse_process_char r None
  | String c line' =>
      if Ascii.eqb c "000"%char then Err (Error "line contains NUL")
      else match parse_process_char r (Some c) with
           | Ok r' => parse_line r' line'
           | Err e => Err e
           end
  end.

(** The lines a file object iterates over: each keeps its newline. *)
Fixpoint splitlines_acc (cur : string) (s : string) : list string :=
  match s with
  | EmptyString => if decide (cur = EmptyString) then [] else [cur]
  | String c s' =>
      if Ascii.eqb c "010"%char then (cur ++ String c EmptyString) :: splitlines_acc EmptyString s'
      else splitlines_acc (cur ++ String c EmptyString) s'
  end.

Definition file_lines (content : string) : list string :=
  splitlines_acc EmptyString content.

(** [list(csv.reader(lines))]: a record ends with the line on which the
    automaton is back in [START_RECORD]. *)
Fixpoint reader_rows (r : Reader) (lines : list string) : result (list (list string)) :=
  match lines with
  | [] =>
      if negb (bool_decide (field r = EmptyString))
         || bool_decide (state r = IN_QUOTED_FIELD)
      then Ok [fields (parse_save_field r START_RECORD)]
      else Ok []
  | line :: lines' =>
      match parse_line r line with
      | Err e => Err e
      | Ok r' =>
          if bool_decide (state r' = START_RECORD) then
            match reader_rows parse_reset lines' with
            | Ok rows => Ok (fields r' :: rows)
            | Err e => Err e
            end
          else reader_rows r' lines'
      end
  end.

Definition reader (content : string) : result (list (list string)) :=
  reader_rows parse_reset (file_lines content).

(** [csv.DictReader(infile)]: the first record names the columns; blank
    records are skipped; a long record keeps its surplus under [None], a
    short one is completed with [None]. *)
Definition DictReader_row (fieldnames row : list string) : list (key * value) :=
  let d := dict_of (zip (map KStr fieldnames) (map VStr row)) in
  let lf := List.length fieldnames in
  let lr := List.length row in
  if (lf <? lr)%nat then dict_set KNone (VList (map VStr (drop lf row))) d
  else if (lr <? lf)%nat then
    fold_left (fun d k => dict_set (KStr k) VNone d) (drop lr fieldnames) d
  else d.

Definition DictReader (content : string) : result (list value) :=
  match reader content with
  | Err e => Err e
  | Ok [] => Ok []
  | Ok (fieldnames :: rows) =>
      Ok (map (fun row => VDict (DictReader_row fieldnames row))
              (filter (fun row => row ≠ []) rows))
  end.

(** *** Writing *)

Definition needs_quote (c : ascii) : bool :=
  Ascii.eqb c delimiter || Ascii.eqb c quotechar || Ascii.eqb c "010"%char.

Fixpoint str_exists (p : ascii -> bool) (s : string) : bool :=
  match s with
  | EmptyString => false
  | String c s' => p c || str_exists p s'
  end.

(** The characters of a field, a quote character doubled. *)
Fixpoint double_quotes (s : string) : string :=
  match s with
  | EmptyString => EmptyString
  | String c s' =>
      if Ascii.eqb c quotechar then String c (String c (double_quotes s'))
      else String c (double_quotes s')
  end.

Definition join_append (s : string) : string :=
  if str_exists needs_quote s
  then String quotechar EmptyString ++ double_quotes s ++ String quotechar EmptyString
  else s.

(** What the writer makes of a cell: [None] is empty, a string is itself,
    anything else goes through [str]. *)
Definition cell_text (v : value) : string :=
  match v with
  | VNone => EmptyString
  | v => str v
  end.

(** [writer.writerow(row)] with [lineterminator='\n']: the text of the line. *)
Definition writerow (row : list value) : string :=
  let line := join (String delimiter EmptyString) (map (fun v => join_append (cell_text v)) row) in
  (if bool_decide (row ≠ []) && bool_decide (line = EmptyString)
   then String quotechar (String quotechar EmptyString) else line) ++ nl.

(** [DictWriter._dict_to_list(rowdict)] with [restval=''] and
    [extrasaction='raise']. *)
Definition dict_to_list (fieldnames : list key) (rowdict : value) : result (list value) :=
  match rowdict with
  | VDict d =>
      let wrong_fields := filter (fun k => k ∉ fieldnames) (dict_keys d) in
      if bool_decide (wrong_fields = []) then
        Ok (map (fun k => default (VStr EmptyString) (dict_get k d)) fieldnames)
      else Err (ValueError ("dict contains fields not in fieldnames: "
                            ++ join ", " (map repr_key wrong_fields)))
  | _ => Err (AttributeError "object has no attribute 'keys'")
  end.

Definition key_value (k : key) : value :=
  match k with
  | KNone => VNone
  | KInt z => VInt z
  | KStr s => VStr s
  end.

(** [writer.writeheader()]: the line of the column names. *)
Definition header_line (fieldnames : list key) : string :=
  writerow (map key_value fieldnames).

End csv.

(** ** The libraries behind the other formats

    What [yoots.textfile] uses of [json], [yaml], [ast] and [configparser].
    Their behaviour is not part of the package: every statement below holds
    for all of them. *)

Class PyLibs : Type := {
  (** [json.load(infile)], on the content of the file *)
  json_load : string -> result value;
  (** [json.dump(fdata, outfile, indent=2)]: the text that reaches the file,
      and the exception that stops the dump, if any *)
  json_dump : value -> string * option exn;
  (** [yaml.load(infile)], on the content of the file: the loader is the
      library's default, which builds the objects that the tags of the
      document name, so that loading may write warnings, change files, raise
      or not come back *)
  yaml_load : string -> M value;
  (** [yaml.dump(fdata, default_flow_style=False)] *)
  yaml_dump : value -> result string;
  (** [ast.literal_eval(value)] *)
  literal_eval : string -> result value;
  (** a [configparser.ConfigParser()] *)
  ConfigParser : Type;
  ConfigParser_new : ConfigParser;
  (** [ini.read(fname)], on the content of the file *)
  ConfigParser_read : ConfigParser -> string -> result ConfigParser;
  ConfigParser_sections : ConfigParser -> list string;
  ConfigParser_items : ConfigParser -> string -> result (list (string * string));
  ConfigParser_add_section : ConfigParser -> key -> result ConfigParser;
  ConfigParser_set : ConfigParser -> key -> key -> string -> result ConfigParser;
  (** [ini.write(outfile)]: the text written *)
  ConfigParser_write : ConfigParser -> string
}.

(** ** yoots/textfile.py *)

Module textfile.

(** *** [os.path.splitext], [str.strip('.')], [str.lower] *)

(** Index of the last [c] in [s], or [-1]. *)
Fixpoint rfind_from (c : ascii) (s : string) (i last : Z) : Z :=
  match s with
  | EmptyString => last
  | String c' s' => rfind_from c s' (i + 1) (if Ascii.eqb c c' then i else last)
  end.

Definition rfind (c : ascii) (s : string) : Z := rfind_from c s 0 (-1).

Definition is_dot (c : ascii) : bool := Ascii.eqb c "."%char.

(** [os.path.splitext(p)]: the extension starts at the last dot of the last
    component, unless that component has only dots before it. *)
Definition splitext (p : string) : string * string :=
  let sepIndex := rfind "/"%char p in
  let dotIndex := rfind "."%char p in
  if (sepIndex <? dotIndex)%Z then
    let filenameIndex := Z.to_nat (sepIndex + 1) in
    let stem := substring filenameIndex (Z.to_nat dotIndex - filenameIndex) p in
    if csv.str_exists (fun c => negb (is_dot c)) stem
    then (substring 0 (Z.to_nat dotIndex) p,
          substring (Z.to_nat dotIndex) (String.length p - Z.to_nat dotIndex) p)
    else (p, EmptyString)
  else (p, EmptyString).

Fixpoint lstrip_dots (s : string) : string :=
  match s with
  | String c s' => if is_dot c then lstrip_dots s' else s
  | EmptyString => EmptyString
  end.

Fixpoint rstrip_dots (s : string) : string :=
  match s with
  | EmptyString => EmptyString
  | String c s' =>
      let t := rstrip_dots s' in
      if is_dot c && bool_decide (t = EmptyString) then EmptyString else String c t
  end.

(** [s.strip('.')] *)
Definition strip_dots (s : string) : string := rstrip_dots (lstrip_dots s).

Definition lower_char (c : ascii) : ascii :=
  let n := N_of_ascii c in
  if (65 <=? n)%N && (n <=? 90)%N then ascii_of_N (n + 32) else c.

(** [s.lower()], on ASCII text: the letters A to Z are lowered, every other
    byte is kept. *)
Fixpoint lower (s : string) : string :=
  match s with
  | EmptyString => EmptyString
  | String c s' => String (lower_char c) (lower s')
  end.

(** *** [class TextFile] *)

Module TextFile.

Record t : Type := mk { fname : string; ftype : string }.

Definition supported : list string :=
  ["csv"; "ini"; "json"; "txt"; EmptyString; "yaml"].

(** [TextFile(fname, ftype)]. The attribute [ftype] is assigned in the
    branch [ftype is None] only; the assertion then reads it. *)
Definition __init__ (fname : string) (ftype : option string) : result t :=
  let self_ftype : option string :=
    match ftype with
    | None => Some (lower (strip_dots (splitext fname).2))
    | Some _ => None
    end in
  match self_ftype with
  | None => Err (AttributeError "'TextFile' object has no attribute 'ftype'")
  | Some ft =>
      if in_tuple ft supported then Ok (mk fname ft)
      else Err (AssertionError ("Unsupported file type: " ++ ft))
  end.

Section WithLibs.
Context `{libs : PyLibs}.

Definition read_csv (fname : string) : M value :=
  content ← read_file fname;
  fdata ← lift (csv.DictReader content);
  mret (VList fdata).

(** The loop over the items of one section: a value that evaluates as a
    literal is replaced, a [SyntaxError] or [ValueError] leaves it as read. *)
Definition interpret (d : list (key * value)) (kv : key * value) : result (list (key * value)) :=
  match kv.2 with
  | VStr s =>
      match literal_eval s with
      | Ok v => Ok (dict_set kv.1 v d)
      | Err (SyntaxError _) | Err (ValueError _) => Ok d
      | Err e => Err e
      end
  | _ => Ok d
  end.

Fixpoint interpret_items (d : list (key * value)) (items : list (key * value))
  : result (list (key * value)) :=
  match items with
  | [] => Ok d
  | kv :: items' =>
      match interpret d kv with
      | Ok d' => interpret_items d' items'
      | Err e => Err e
      end
  end.

Fixpoint read_ini_sections (ini : ConfigParser) (cfg_sections : list string)
    (fdata : list (key * value)) : result (list (key * value)) :=
  match cfg_sections with
  | [] => Ok fdata
  | section :: rest =>
      match ConfigParser_items ini section with
      | Err e => Err e
      | Ok items =>
          let d := dict_of (map (fun kv => (KStr kv.1, VStr kv.2)) items) in
          match interpret_items d d with
          | Err e => Err e
          | Ok d' => read_ini_sections ini rest (dict_set (KStr section) (VDict d') fdata)
          end
      end
  end.

(** [ini.read(fname)] skips a file it cannot open. *)
Definition ini_read (fname : string) : M ConfigParser :=
  fun w =>
    match files w !! fname with
    | Some (File content) =>
        lift (ConfigParser_read ConfigParser_new (universal_newlines content)) w
    | _ => Return ConfigParser_new w
    end.

Definition read_ini (fname : string) : M value :=
  ini ← ini_read fname;
  let cfg_sections := ConfigParser_sections ini in
  fdata ← lift (read_ini_sections ini cfg_sections []);
  mret (VDict fdata).

Definition read_json (fname : string) : M value :=
  content ← read_file fname;
  lift (json_load content).

Definition read_text (fname : string) : M value :=
  content ← read_file fname;
  mret (VStr content).

Definition read_yaml (fname : string) : M value :=
  content ← read_file fname;
  yaml_load content.

Definition read (self : t) : M value :=
  found ← isfile (fname self);
  _ ← assert found ("File not found: " ++ fname self);
  if decide (ftype self = "csv") then read_csv (fname self)
  else if decide (ftype self = "ini") then read_ini (fname self)
  else if decide (ftype self = "json") then read_json (fname self)
  else if in_tuple (ftype self) ["txt"; EmptyString] then read_text (fname self)
  else if decide (ftype self = "yaml") then read_yaml (fname self)
  else mret VNone.

(** [confirm_yn_n(msg)]: get confirmation from the user, default negative.
    Each turn of the [while True] loop takes one unit of [fuel]. *)
Fixpoint confirm_yn_n (fuel : nat) (msg : string) : M bool :=
  match fuel with
  | O => fun _ => Running
  | S fuel' =>
      user_says ← raw_input msg;
      if in_tuple user_says ["y"; "Y"] then mret true
      else if in_tuple user_says ["n"; "N"; EmptyString] then mret false
      else _ ← eprint "Invalid input. Try again." nl; confirm_yn_n fuel' msg
  end.

Definition confirm_msg : string := "File exists! Overwrite? (y/N): ".

(** [writer.writerows(fdata)] *)
Fixpoint writerows (fname : string) (fieldnames : list key) (rowdicts : list value) : M unit :=
  match rowdicts with
  | [] => mret tt
  | rowdict :: rest =>
      row ← lift (csv.dict_to_list fieldnames rowdict);
      _ ← write_file fname (csv.writerow row);
      writerows fname fieldnames rest
  end.

Definition write_csv (fname : string) (fdata : value) : M string :=
  match fdata with
  | VList l =>
      match l with
      | [] => raise (IndexError "list index out of range")
      | VDict first :: _ =>
          let keys := dict_keys first in
          _ ← open_w fname;
          _ ← write_file fname (csv.header_line keys);
          _ ← writerows fname keys l;
          mret fname
      | _ :: _ => raise (AssertionError "Each list element must be a dictionary.")
      end
  | _ => raise (AssertionError "Input data must be a list.")
  end.

(** The inner loop of [write_ini]: [ini.set(section, key, value=str(value))]. *)
Fixpoint write_ini_keys (ini : ConfigParser) (section : key)
    (section_dict : list (key * value)) : result ConfigParser :=
  match section_dict with
  | [] => Ok ini
  | (k, v) :: rest =>
      match ConfigParser_set ini section k (str v) with
      | Ok ini' => write_ini_keys ini' section rest
      | Err e => Err e
      end
  end.

Fixpoint write_ini_sections (ini : ConfigParser) (fdata : list (key * value))
  : result ConfigParser :=
  match fdata with
  | [] => Ok ini
  | (section, section_dict) :: rest =>
      match ConfigParser_add_section ini section with
      | Err e => Err e
      | Ok ini1 =>
          match section_dict with
          | VDict d =>
              match write_ini_keys ini1 section d with
              | Ok ini2 => write_ini_sections ini2 rest
              | Err e => Err e
              end
          | _ => Err (AttributeError "object has no attribute 'items'")
          end
      end
  end.

Definition write_ini (fname : string) (fdata : value) : M string :=
  match fdata with
  | VDict d =>
      ini ← lift (write_ini_sections ConfigParser_new d);
      _ ← open_w fname;
      _ ← write_file fname (ConfigParser_write ini);
      mret fname
  | _ => raise (AssertionError "Input data must be a dictionary.")
  end.

Definition write_json (fname : string) (fdata : value) : M string :=
  _ ← open_w fname;
  _ ← write_file fname (json_dump fdata).1;
  match (json_dump fdata).2 with
  | Some e => raise e
  | None => mret fname
  end.

Definition write_text (fname : string) (fdata : value) : M string :=
  _ ← open_w fname;
  _ ← write_file fname (str fdata);
  mret fname.

Definition write_yaml (fname : string) (fdata : value) : M string :=
  _ ← open_w fname;
  text ← lift (yaml_dump fdata);
  _ ← write_file fname text;
  mret fname.

(** The second half of [write]: the writer of the format, then the size of
    the file. *)
Definition write_dispatch (self : t) (fdata : value) : M Z :=
  _ ← (if decide (ftype self = "csv") then write_csv (fname self) fdata
       else if decide (ftype self = "ini") then write_ini (fname self) fdata
       else if decide (ftype self = "json") then write_json (fname self) fdata
       else if in_tuple (ftype self) ["txt"; EmptyString] then write_text (fname self) fdata
       else if decide (ftype self = "yaml") then write_yaml (fname self) fdata
       else
         _ ← eprint ("Unknown filetype [" ++ ftype self ++ "]; writing as text.") nl;
         write_text (fname self) fdata);
  getsize (fname self).

(** [force] is [None] when the caller leaves it out. *)
Definition truthy (force : option bool) : bool := default false force.

Definition write (fuel : nat) (self : t) (fdata : value) (force : option bool) : M Z :=
  found ← isfile (fname self);
  if found && negb (truthy force) then
    force ← confirm_yn_n fuel confirm_msg;
    if force : bool then
      _ ← eprint ("Overwriting file: " ++ fname self) nl;
      write_dispatch self fdata
    else
      _ ← eprint ("Write cancelled: " ++ fname self) nl;
      mret 0%Z
  else write_dispatch self fdata.

End WithLibs.
End TextFile.

Section WithLibs.
Context `{libs : PyLibs}.

(** File read function for typical use cases. *)
Definition read (fname : string) (ftype : option string) : M value :=
  infile ← lift (TextFile.__init__ fname ftype);
  TextFile.read infile.

(** File write function for typical use cases. *)
Definition write (fuel : nat) (fname : string) (fdata : value)
    (ftype : option string) (force : option bool) : M Z :=
  outfile ← lift (TextFile.__init__ fname ftype);
  TextFile.write fuel outfile fdata force.

End WithLibs.
End textfile.

(** ** yoots/moratorium.py *)

Module moratorium.

Local Open Scope Z_scope.

(** *** The [time] module: calendar dates

    A [struct_time] is kept by its date fields; the module reads no other.
    The values met here come from [time.strptime] and [time.gmtime], and are
    within the ranges [time.strftime] accepts. Ordinals and weekdays are those
    of the proleptic Gregorian calendar, Monday being day 0 of the week; day
    names are those of the C locale. *)

Record struct_time : Type := mk_time {
  tm_year : Z;
  tm_mon : Z;
  tm_mday : Z;
  tm_wday : Z;
  tm_yday : Z
}.

Definition is_leap (year : Z) : bool :=
  (year mod 4 =? 0) && (negb (year mod 100 =? 0) || (year mod 400 =? 0)).

Definition days_before_year (year : Z) : Z :=
  let y := year - 1 in y * 365 + y / 4 - y / 100 + y / 400.

Definition days_in_month (year month : Z) : Z :=
  if month =? 2 then (if is_leap year then 29 else 28)
  else if (month =? 4) || (month =? 6) || (month =? 9) || (month =? 11) then 30
  else 31.

Definition days_before_month (year month : Z) : Z :=
  nth (Z.to_nat (month - 1)) [0; 31; 59; 90; 120; 151; 181; 212; 243; 273; 304; 334] 0
  + (if (2 <? month) && is_leap year then 1 else 0).

Definition ymd2ord (year month day : Z) : Z :=
  days_before_year year + days_before_month year month + day.

(** [time.strptime] on a year, a month and a day written in decimal: the
    year takes four digits, and the date must exist. [None] stands for the
    [ValueError] that the callers catch. *)
Definition strptime (year month day : Z) : option struct_time :=
  if (1000 <=? year) && (year <=? 9999) && (1 <=? month) && (month <=? 12)
     && (1 <=? day) && (day <=? days_in_month year month)
  then Some (mk_time year month day
               ((ymd2ord year month day + 6) mod 7)
               (ymd2ord year month day - ymd2ord year 1 1 + 1))
  else None.

(** [int(time.strftime("%j", dt))] *)
Definition strftime_j (dt : struct_time) : Z := tm_yday dt.

(** [time.strftime("%A", dt)] *)
Definition strftime_A (dt : struct_time) : string :=
  nth (Z.to_nat (tm_wday dt))
      ["Monday"; "Tuesday"; "Wednesday"; "Thursday"; "Friday"; "Saturday"; "Sunday"]%string
      EmptyString.

(** [l[i]], a negative index counting from the end. *)
Definition getitem (l : list Z) (i : Z) : result Z :=
  let len := Z.of_nat (List.length l) in
  let j := if i <? 0 then len + i else i in
  if (0 <=? j) && (j <? len) then Ok (nth (Z.to_nat j) l 0)
  else Err (IndexError "list index out of range").

(** [l[-n:]] *)
Definition last_slice (l : list Z) (n : Z) : list Z :=
  let len := Z.of_nat (List.length l) in
  let start := if -n <? 0 then Z.max (len - n) 0 else Z.min (-n) len in
  drop (Z.to_nat start) l.

(** [range(1, 32)] *)
Definition month_days : list Z := seqZ 1 31.

(** *** The module *)

(** Generate a Julian date integer from a YYYY-MM-DD string. The string is
    given by the three numbers it spells, the year with four digits; the
    parser's [ValueError] for a string that spells no date is raised with one
    message for all its texts. *)
Definition make_day_julian (isodate : Z * Z * Z) : result Z :=
  match strptime isodate.1.1 isodate.1.2 isodate.2 with
  | Some dt => Ok (strftime_j dt)
  | None => Err (ValueError "time data does not match format '%Y-%m-%d'")
  end.

(** Generate a list of Julian date integers within a given month. *)
Definition make_month_julian (year month : Z) : list Z :=
  omap (fun d => strftime_j <$> strptime year month d) month_days.

(** Get Nth occurence of the day named [day_name] in some month. If [n = -1],
    return the last one. *)
Definition get_nth_day (day_name : string) (n year month : Z) : result Z :=
  let days_matched :=
    omap (fun d =>
            match strptime year month d with
            | Some dt =>
                if decide (strftime_A dt = day_name) then Some (strftime_j dt) else None
            | None => None
            end) month_days in
  if n =? -1 then getitem days_matched (-1) else getitem days_matched (n - 1).

(** The table of holidays, computed from [this_year] when the module loads;
    it is built in the order of the source, and the first failing entry
    stops the load. *)
Definition holidays (this_year : Z) : result (list (key * Z)) :=
  let entry (name : string) (r : result Z) (rest : result (list (key * Z))) :=
    match r, rest with
    | Err e, _ => Err e
    | Ok _, Err e => Err e
    | Ok j, Ok tbl => Ok ((KStr name, j) :: tbl)
    end in
  entry "New Year's Day" (make_day_julian (this_year, 1, 1))
  (entry "Martin Luther King Jr Day" (get_nth_day "Monday" 3 this_year 1)
  (entry "Presidents Day" (get_nth_day "Monday" 3 this_year 2)
  (entry "Memorial Day" (get_nth_day "Monday" (-1) this_year 5)
  (entry "Independence Day" (make_day_julian (this_year, 7, 4))
  (entry "Labor Day" (get_nth_day "Monday" 1 this_year 9)
  (entry "Thanksgiving" (get_nth_day "Thursday" 4 this_year 11)
  (entry "Thanksgiving Friday"
     (match get_nth_day "Thursday" 4 this_year 11 with
      | Ok j => Ok (j + 1)
      | Err e => Err e
      end)
  (entry "Christmas" (make_day_julian (this_year, 12, 25))
  (Ok []))))))))).

Section Loaded.
(** The table the module holds once loaded, and the clock of [time.gmtime]. *)
Variable holidays_table : list (key * Z).
Variable gmtime : struct_time.

(** Check if company holiday. *)
Definition is_holiday (dtuple : option struct_time) : bool :=
  let dtuple := default gmtime dtuple in
  let today := strftime_j dtuple in
  if bool_decide (today ∈ map snd holidays_table) then true else false.

(** Check if end-of-month. *)
Definition is_eom (dtuple : option struct_time) (end_days : Z) : bool :=
  let dtuple := default gmtime dtuple in
  let today_julian := strftime_j dtuple in
  let year := tm_year dtuple in
  let month := tm_mon dtuple in
  let jcal := make_month_julian year month in
  if bool_decide (today_julian ∈ last_slice jcal end_days) then true else false.

(** Check if end-of-year (Thanksgiving -> Dec 31). *)
Definition is_eoy (dtuple : option struct_time) : result bool :=
  let dtuple := default gmtime dtuple in
  match dict_get (KStr "Thanksgiving") holidays_table with
  | None => Err (KeyError "Thanksgiving")
  | Some thx =>
      let today := strftime_j dtuple in
      if thx <=? today then Ok true else Ok false
  end.

End Loaded.
End moratorium.


(** ** yoots/prompt.py

    The prompts that read the console: [confirm_yn], [ask_string],
    [ask_string_confirm], [pick_one] and [pick_many]. Every [while] loop takes
    one unit of [fuel] for each turn. [confirm_countdown] (the clock),
    [confirm_rnd] (the random generator) and [ask_string_secret] (the
    terminal of [getpass]) depend on devices that the world does not hold
    and are left out. *)

Module prompt.

(** *** [str.strip], [s[0]], [in] on strings, [str.split] *)

Definition tab : string := String "009"%char EmptyString.

(** The white space that [str.strip()] removes from ASCII text: the
    characters 9 to 13, 28 to 31 and the space. *)
Definition is_space (c : ascii) : bool :=
  let n := N_of_ascii c in
  ((9 <=? n) && (n <=? 13) || (28 <=? n) && (n <=? 32))%N.

Fixpoint lstrip (s : string) : string :=
  match s with
  | String c s' => if is_space c then lstrip s' else s
  | EmptyString => EmptyString
  end.

Fixpoint rstrip (s : string) : string :=
  match s with
  | EmptyString => EmptyString
  | String c s' =>
      let t := rstrip s' in
      if is_space c && bool_decide (t = EmptyString) then EmptyString else String c t
  end.

(** [s.strip()] *)
Definition strip (s : string) : string := rstrip (lstrip s).

(** [s[0]] *)
Definition getitem0 (s : string) : result string :=
  match s with
  | EmptyString => Err (IndexError "string index out of range")
  | String c _ => Ok (String c EmptyString)
  end.

(** [sub in s] *)
Fixpoint contains (sub s : string) : bool :=
  if String.prefix sub s then true
  else match s with
       | EmptyString => false
       | String _ s' => contains sub s'
       end.

(** [s.split(sep)] for a separator of one character: every occurrence
    splits, so that two separators in a row give an empty piece. *)
Fixpoint split (sep : ascii) (s : string) : list string :=
  match s with
  | EmptyString => [EmptyString]
  | String c s' =>
      if Ascii.eqb c sep then EmptyString :: split sep s'
      else match split sep s' with
           | piece :: pieces => String c piece :: pieces
           | [] => [String c EmptyString]
           end
  end.

(** [not v] *)
Definition falsy (v : value) : bool :=
  match v with
  | VNone => true
  | VBool b => negb b
  | VInt z => (z =? 0)%Z
  | VStr s => bool_decide (s = EmptyString)
  | VList l => bool_decide (l = [])
  | VDict d => bool_decide (d = [])
  end.

Definition value_of_key (k : key) : value :=
  match k with
  | KNone => VNone
  | KInt z => VInt z
  | KStr s => VStr s
  end.

Definition type_name (v : value) : string :=
  match v with
  | VNone => "NoneType"
  | VBool _ => "bool"
  | VInt _ => "int"
  | VStr _ => "str"
  | VList _ => "list"
  | VDict _ => "dict"
  end.

(** [iter(v)], run to its end: the items of a list, the characters of a
    string, the keys of a dictionary. *)
Definition iterate (v : value) : result (list value) :=
  match v with
  | VList l => Ok l
  | VStr s => Ok (map (fun c => VStr (String c EmptyString)) (list_ascii_of_string s))
  | VDict d => Ok (map value_of_key (dict_keys d))
  | _ => Err (TypeError ("'" ++ type_name v ++ "' object is not iterable"))
  end.

(** [enumerate(l)] *)
Definition enumerate {A} (l : list A) : list (Z * A) :=
  zip (seqZ 0 (Z.of_nat (List.length l))) l.

(** *** [confirm_yn] *)

Definition valid_replies : list (key * bool) :=
  [(KStr "y", true); (KStr "n", false)].

Definition confirm_yn_error : string :=
  tab ++ "ERROR: Please respond with something that starts with y or n.".

(** [confirm_yn(msg)]: ask for yes or no, repeat the prompt when the reply
    is neither. *)
Fixpoint confirm_yn (fuel : nat) (msg : string) : M bool :=
  match fuel with
  | O => fun _ => Running
  | S fuel' =>
      line ← raw_input msg;
      first ← lift (getitem0 (strip line));
      let reply := textfile.lower first in
      match dict_get (KStr reply) valid_replies with
      | Some confirmed => mret confirmed
      | None => _ ← eprint confirm_yn_error nl; confirm_yn fuel' msg
      end
  end.

(** *** [ask_string], [ask_string_confirm] *)

(** [ask_string(msg)]: whatever the user entered. *)
Definition ask_string (msg : string) : M string :=
  response ← raw_input msg;
  mret (str (VStr response)).

Definition entered_msg (response : string) : string :=
  "You entered '" ++ response ++ "'." ++ nl ++ tab ++ "Is this correct?: ".

(** [ask_string_confirm(msg)]: ask for a string, show it, ask whether it is
    right. The inner loop of [confirm_yn] has the same [fuel]. *)
Fixpoint ask_string_confirm (fuel : nat) (msg : string) : M string :=
  match fuel with
  | O => fun _ => Running
  | S fuel' =>
      response ← ask_string msg;
      confirmed ← confirm_yn fuel (entered_msg response);
      if confirmed : bool then mret response else ask_string_confirm fuel' msg
  end.

(** *** [pick_one], [pick_many] *)

(** The numbered menu: [options[str(x+1)] = y] for [x, y] of
    [enumerate(item_list)]. *)
Definition make_options (items : list value) : list (key * value) :=
  dict_of (map (fun xy => (KStr (str (VInt (xy.1 + 1))), xy.2)) (enumerate items)).

(** One line on [stderr] for each option. *)
Fixpoint show_options (options : list (key * value)) : M unit :=
  match options with
  | [] => mret tt
  | (item_num, item) :: rest =>
      _ ← eprint (str_key item_num ++ ". " ++ str item) nl;
      show_options rest
  end.

Definition pick_one_prompt : string := nl ++ "Enter the item number you want: ".

Definition pick_one_error : string :=
  nl ++ tab ++ "ERROR: That is not a valid selection!" ++ nl.

(** The [while not chosen] loop of [pick_one]. *)
Fixpoint pick_one_loop (fuel : nat) (options : list (key * value)) (msg : string) : M value :=
  match fuel with
  | O => fun _ => Running
  | S fuel' =>
      _ ← eprint (nl ++ msg ++ nl) nl;
      _ ← show_options options;
      line ← raw_input pick_one_prompt;
      let user_num := strip line in
      let chosen := default VNone (dict_get (KStr user_num) options) in
      if falsy chosen
      then _ ← eprint pick_one_error nl; pick_one_loop fuel' options msg
      else mret chosen
  end.

(** [pick_one(item_list, msg)]: the iterator that [iter] returns is always
    true, so that the assertion fails only where [iter] itself raises. *)
Definition pick_one (fuel : nat) (item_list : value) (msg : string) : M value :=
  items ← lift (iterate item_list);
  pick_one_loop fuel (make_options items) msg.

Definition pick_many_prompt : string :=
  nl ++ "Enter the item number(s) you want, separated by SPACE.  Or enter 'all' or 'none': ".

Definition pick_many_error (selection : value) (user_choice : string) : string :=
  nl ++ tab ++ "ERROR: There is no [ " ++ str selection ++ " ] on this list! You typed: '"
     ++ user_choice ++ "'".

(** [for selection in selections]: the items chosen so far and the last
    selection looked at; a selection that names no item empties the choice
    and ends the loop. *)
Fixpoint for_selections (options : list (key * value)) (selections : list string)
    (chosen : list value) (selection : value) : list value * value :=
  match selections with
  | [] => (chosen, selection)
  | s :: rest =>
      match default VNone (dict_get (KStr s) options) with
      | VNone => ([], VStr s)
      | item => for_selections options rest (chosen ++ [item]) (VStr s)
      end
  end.

(** The [while not chosen] loop of [pick_many]; [chosen] is empty at the
    start of every turn. *)
Fixpoint pick_many_loop (fuel : nat) (items : list value) (options : list (key * value))
    (msg : string) : M value :=
  match fuel with
  | O => fun _ => Running
  | S fuel' =>
      _ ← eprint (nl ++ msg ++ nl) nl;
      _ ← show_options options;
      line ← raw_input pick_many_prompt;
      let user_choice := textfile.lower line in
      if contains "all" user_choice then mret (VList items)
      else if contains "none" user_choice then mret (VList [])
      else
        let '(chosen, selection) :=
          for_selections options (split " "%char user_choice) [] (VList []) in
        if bool_decide (chosen = [])
        then _ ← eprint (pick_many_error selection user_choice) nl;
             pick_many_loop fuel' items options msg
        else mret (VList chosen)
  end.

(** [pick_many(item_list, msg)] *)
Definition pick_many (fuel : nat) (item_list : value) (msg : string) : M value :=
  match item_list with
  | VList items => pick_many_loop fuel items (make_options items) msg
  | _ => raise (AssertionError "ERROR: This function only accepts a list.")
  end.

End prompt.
(** * Properties *)

Import textfile.

(** ** Vocabulary of the statements *)

(** The replies that end the confirmation loop. *)
Definition is_yes (s : string) : bool := in_tuple s ["y"; "Y"].
Definition is_no (s : string) : bool := in_tuple s ["n"; "N"; EmptyString].
Definition is_reply (s : string) : bool := is_yes s || is_no s.

(** The console after one more reply was read at the prompt [msg] and
    turned down with the diagnostic. *)
Definition rejected1 (msg : string) (w : world) : world :=
  World (files w) (stdin w) (S (stdin_pos w)) (stdout w ++ [msg])
        (stderr w ++ ["Invalid input. Try again." ++ nl]).

(** ... after [k] such replies ... *)
Fixpoint rejected (k : nat) (msg : string) (w : world) : world :=
  match k with
  | O => w
  | S k' => rejected k' msg (rejected1 msg w)
  end.

(** ... and after a reply was read at the prompt and accepted. *)
Definition answered (msg : string) (w : world) : world :=
  World (files w) (stdin w) (S (stdin_pos w)) (stdout w ++ [msg]) (stderr w).

(** The next [k] lines of the console exist and none of them is a reply. *)
Definition only_other_replies (k : nat) (w : world) : Prop :=
  forall j, (j < k)%nat ->
    exists r, stdin w (stdin_pos w + j)%nat = Some r /\ is_reply r = false.

(** A console that holds the lines [lines] and then ends. *)
Definition console (lines : list string) : world :=
  World ∅ (fun i => lines !! i) 0 [] [].

(** [c] finishes, having read no line and shown no prompt. *)
Definition quiet {A} (c : M A) : Prop :=
  forall w,
    match c w with
    | Return _ w' | Raise _ w' =>
        stdin w' = stdin w /\ stdin_pos w' = stdin_pos w /\ stdout w' = stdout w
    | Running => False
    end.

(** The spec's name for the assertion failure of the constructor. *)
Definition UnsupportedFormatError (ftype : string) : exn :=
  AssertionError ("Unsupported file type: " ++ ftype).

(** Python's [FileNotFoundError]: the [OSError] with which [open] refuses a
    path that names nothing. *)
Definition FileNotFoundError (fname : string) : exn :=
  IOError ("No such file or directory: " ++ fname).

(** [path] names a regular file. *)
Definition is_regular_file (w : world) (path : string) : Prop :=
  exists content, files w !! path = Some (File content).


(** ** A stand-in for the libraries

    The closed examples below need some [PyLibs]. This one has no [json] and
    no [yaml]; its [literal_eval] knows decimal integers, the three named
    constants and the display [{[1]: 2}] of a dictionary with a list as key,
    for which [ast.literal_eval] raises [TypeError]; its [ConfigParser] reads
    bracketed section lines and [key = value] lines. *)

Module StandIn.

Definition is_digit (c : ascii) : bool :=
  let n := N_of_ascii c in (48 <=? n)%N && (n <=? 57)%N.

Definition is_ident_char (c : ascii) : bool :=
  let n := N_of_ascii c in
  is_digit c || ((65 <=? n)%N && (n <=? 90)%N) || ((97 <=? n)%N && (n <=? 122)%N)
  || (n =? 95)%N.

Definition is_space (c : ascii) : bool :=
  let n := N_of_ascii c in (n =? 32)%N || (n =? 9)%N || (n =? 10)%N || (n =? 13)%N.

Definition all_chars (p : ascii -> bool) (s : string) : bool :=
  negb (csv.str_exists (fun c => negb (p c)) s).

Fixpoint digits_value (s : string) (acc : Z) : Z :=
  match s with
  | EmptyString => acc
  | String c s' => digits_value s' (10 * acc + Z.of_N (N_of_ascii c) - 48)%Z
  end.

Definition mini_literal_eval (s : string) : result value :=
  if decide (s = "True") then Ok (VBool true)
  else if decide (s = "False") then Ok (VBool false)
  else if decide (s = "None") then Ok VNone
  else if decide (s = "{[1]: 2}") then Err (TypeError "unhashable type: 'list'")
  else if negb (bool_decide (s = EmptyString)) && all_chars is_digit s
  then Ok (VInt (digits_value s 0))
  else if negb (bool_decide (s = EmptyString)) && all_chars is_ident_char s
  then Err (ValueError "malformed string")
  else Err (SyntaxError "invalid syntax").

Fixpoint lstrip (s : string) : string :=
  match s with
  | String c s' => if is_space c then lstrip s' else s
  | EmptyString => EmptyString
  end.

Fixpoint rstrip (s : string) : string :=
  match s with
  | EmptyString => EmptyString
  | String c s' =>
      let t := rstrip s' in
      if is_space c && bool_decide (t = EmptyString) then EmptyString else String c t
  end.

Definition strip (s : string) : string := rstrip (lstrip s).

(** The text before and after the first [c]. *)
Fixpoint partition (c : ascii) (s : string) : option (string * string) :=
  match s with
  | EmptyString => None
  | String c' s' =>
      if Ascii.eqb c c' then Some (EmptyString, s')
      else match partition c s' with
           | Some (a, b) => Some (String c' a, b)
           | None => None
           end
  end.

(** A parser state: the sections in order, each with its items. *)
Definition ini_state : Type := list (string * list (string * string)).

Fixpoint set_item (section k v : string) (ini : ini_state) : option ini_state :=
  match ini with
  | [] => None
  | (s, items) :: rest =>
      if decide (s = section)
      then Some ((s, app (filter (fun kv => kv.1 ≠ k) items) [(k, v)]) :: rest)
      else match set_item section k v rest with
           | Some rest' => Some ((s, items) :: rest')
           | None => None
           end
  end.

Fixpoint read_lines (ini : ini_state) (cur : option string) (lines : list string)
  : result ini_state :=
  match lines with
  | [] => Ok ini
  | line :: rest =>
      let line := strip line in
      if decide (line = EmptyString) then read_lines ini cur rest
      else if prefix "[" line && bool_decide (partition "]" line ≠ None) then
        let name := default EmptyString (fst <$> partition "]" (substring 1 (String.length line) line)) in
        read_lines (if bool_decide (name ∈ map fst ini) then ini else app ini [(name, [])])
                   (Some name) rest
      else match cur, partition "=" line with
           | Some section, Some (k, v) =>
               match set_item section (textfile.lower (strip k)) (strip v) ini with
               | Some ini' => read_lines ini' cur rest
               | None => Err (OtherError "NoSectionError" section)
               end
           | None, _ => Err (OtherError "MissingSectionHeaderError" line)
           | _, None => Err (OtherError "ParsingError" line)
           end
  end.

Definition read (ini : ini_state) (content : string) : result ini_state :=
  read_lines ini None (csv.file_lines content).

Definition items (ini : ini_state) (section : string) : result (list (string * string)) :=
  match filter (fun s => s.1 = section) ini with
  | (_, kvs) :: _ => Ok kvs
  | [] => Err (OtherError "NoSectionError" section)
  end.

Definition add_section (ini : ini_state) (section : key) : result ini_state :=
  match section with
  | KStr name =>
      if bool_decide (name ∈ map fst ini)
      then Err (OtherError "DuplicateSectionError" name)
      else Ok (app ini [(name, [])])
  | _ => Err (TypeError "section names must be strings")
  end.

Definition set (ini : ini_state) (section k : key) (v : string) : result ini_state :=
  match section, k with
  | KStr name, KStr option =>
      match set_item name (textfile.lower option) v ini with
      | Some ini' => Ok ini'
      | None => Err (OtherError "NoSectionError" name)
      end
  | _, _ => Err (TypeError "option keys must be strings")
  end.

Definition write (ini : ini_state) : string :=
  String.concat EmptyString
    (map (fun s => "[" ++ s.1 ++ "]" ++ nl
                   ++ String.concat EmptyString (map (fun kv => kv.1 ++ " = " ++ kv.2 ++ nl) s.2)
                   ++ nl) ini).

Definition libs : PyLibs := {|
  json_load := fun _ => Err (ValueError "No JSON object could be decoded");
  json_dump := fun _ => (EmptyString, Some (TypeError "is not JSON serializable"));
  yaml_load := fun _ => raise (OtherError "YAMLError" "could not load");
  yaml_dump := fun _ => Err (OtherError "YAMLError" "could not dump");
  literal_eval := mini_literal_eval;
  ConfigParser := ini_state;
  ConfigParser_new := [];
  ConfigParser_read := read;
  ConfigParser_sections := map fst;
  ConfigParser_items := items;
  ConfigParser_add_section := add_section;
  ConfigParser_set := set;
  ConfigParser_write := write
|}.

End StandIn.

(** A world for the closed examples: the file [notes.txt] holds [old], a
    directory [data] exists, and the console holds the given lines. *)
Definition example_world (lines : list string) : world :=
  World (<["notes.txt" := File "old"]> (<["data" := Dir]> ∅))
        (fun i => lines !! i) 0 [] [].

(** ** Calendar vocabulary *)

Module calendar.
Import moratorium.
Local Open Scope Z_scope.

Definition thursday : Z := 3.

(** A [struct_time] that is a date: its fields are in the ranges of the
    calendar. *)
Definition is_date (dt : struct_time) : Prop :=
  1 <= tm_mon dt <= 12 /\ 1 <= tm_mday dt <= 31
  /\ 0 <= tm_wday dt <= 6 /\ 1 <= tm_yday dt <= 366.

(** [day] of [month] in [year] is a date and falls on the weekday numbered
    [wd], Monday being 0. *)
Definition falls_on (wd year month day : Z) : bool :=
  bool_decide (tm_wday <$> strptime year month day = Some wd).

(** [day] is the [n]-th day of its month to fall on the weekday [wd]. *)
Definition nth_weekday_of_month (n wd year month day : Z) : Prop :=
  falls_on wd year month day = true
  /\ Z.of_nat (List.length (filter (fun d => falls_on wd year month d = true) (seqZ 1 day))) = n.

(** Weekday and day-of-year of "day 0" of a month: day [d] of the month has
    weekday [(month_wday0 + d) mod 7] and day-of-year [month_yday0 + d]. *)
Definition month_wday0 (year month : Z) : Z := (ymd2ord year month 0 + 6) mod 7.
Definition month_yday0 (year month : Z) : Z := ymd2ord year month 0 - ymd2ord year 1 1 + 1.

Definition weekday_names : list string :=
  ["Monday"; "Tuesday"; "Wednesday"; "Thursday"; "Friday"; "Saturday"; "Sunday"]%string.

(** The list [days_matched] of [get_nth_day], for a month of [dim] days
    given by the weekday [a] and the day-of-year [J] of its day 0. *)
Definition days_matched_in (day_name : string) (a dim J : Z) : list Z :=
  omap (fun d =>
          if (1 <=? d) && (d <=? dim) then
            if decide (nth (Z.to_nat ((a + d) mod 7)) weekday_names EmptyString = day_name)
            then Some (J + d) else None
          else None) month_days.

(** Day [d] exists in a month of [dim] days and falls on [wd], when day 0
    of the month has weekday [a]. *)
Definition on_weekday (a dim wd d : Z) : bool :=
  (1 <=? d) && (d <=? dim) && ((a + d) mod 7 =? wd).

End calendar.

(** The table of the year 2018, and two dates 326 days into their years. *)
Definition holidays_2018 : list (key * Z) :=
  [(KStr "New Year's Day", 1); (KStr "Martin Luther King Jr Day", 15);
   (KStr "Presidents Day", 50); (KStr "Memorial Day", 148);
   (KStr "Independence Day", 185); (KStr "Labor Day", 246);
   (KStr "Thanksgiving", 326); (KStr "Thanksgiving Friday", 327);
   (KStr "Christmas", 359)]%Z.

Definition nov_22_2018 : moratorium.struct_time := moratorium.mk_time 2018 11 22 3 326.
Definition nov_22_2019 : moratorium.struct_time := moratorium.mk_time 2019 11 22 4 326.

(** ** Files and csv records *)

(** The world in which [path] is a regular file that holds [content]. *)
Definition with_file (path content : string) (w : world) : world :=
  World (<[path := File content]> (files w)) (stdin w) (stdin_pos w) (stdout w) (stderr w).

(** The payload of the package's tests. *)
Definition list_of_dicts : value :=
  VList [VDict [(KStr "a", VInt 1); (KStr "b", VInt 2); (KStr "c", VInt 3)];
         VDict [(KStr "a", VInt 11); (KStr "b", VInt 12); (KStr "c", VInt 13)]].

(** The keys of a record that are no column. *)
Definition extra_keys (fieldnames : list key) (d : list (key * value)) : list key :=
  filter (fun k => k ∉ fieldnames) (dict_keys d).

(** The cells of a record under the columns [fieldnames]: the value of the
    key, or the empty string where the record has no such key. *)
Definition row_cells (fieldnames : list key) (d : list (key * value)) : list value :=
  map (fun k => default (VStr EmptyString) (dict_get k d)) fieldnames.

Definition row_line (fieldnames : list key) (d : list (key * value)) : string :=
  csv.writerow (row_cells fieldnames d).

Definition concat_lines (lines : list string) : string :=
  fold_right String.append EmptyString lines.

(** What the csv file of [list_of_dicts] holds, and what is read back. *)
Definition list_of_dicts_csv : string :=
  "a,b,c" ++ nl ++ "1,2,3" ++ nl ++ "11,12,13" ++ nl.

Definition list_of_dicts_read : value :=
  VList [VDict [(KStr "a", VStr "1"); (KStr "b", VStr "2"); (KStr "c", VStr "3")];
         VDict [(KStr "a", VStr "11"); (KStr "b", VStr "12"); (KStr "c", VStr "13")]].

(** ** Reading ini values *)

Section Coercion.
Context `{libs : PyLibs}.




(** The items of a section, as the dictionary [read_ini] starts from. *)
Definition items_dict (items : list (string * string)) : list (key * value) :=
  dict_of (map (fun kv => (KStr kv.1, VStr kv.2)) items).

(** The dictionary [read_ini] makes of a section. *)
Definition section_dict (ini : ConfigParser) (section : string) : result (list (key * value)) :=
  match ConfigParser_items ini section with
  | Ok items => TextFile.interpret_items (items_dict items) (items_dict items)
  | Err e => Err e
  end.

End Coercion.




(** ** ASCII text *)

(** The text is ASCII: every byte of it is a character below 128. *)
Definition is_ascii (s : string) : bool :=
  negb (csv.str_exists (fun c => (128 <=? N_of_ascii c)%N) s).

Definition ascii_key (k : key) : bool :=
  match k with
  | KStr s => is_ascii s
  | _ => true
  end.

(** Every string in the value, at any depth, is ASCII. *)
Fixpoint ascii_value (v : value) : bool :=
  match v with
  | VStr s => is_ascii s
  | VList l => forallb ascii_value l
  | VDict d => forallb (fun kv => ascii_key kv.1 && ascii_value kv.2) d
  | _ => true
  end.

(** The values whose [str] the model has exactly: [None], booleans, integers
    and strings, whose text is written as it is, and the lists and
    dictionaries that hold ASCII strings only, whose text is their [repr]. *)
Definition exact_text (v : value) : bool :=
  match v with
  | VList _ | VDict _ => ascii_value v
  | _ => true
  end.



(** ** What a write puts into the file *)

Section Rendering.
Context `{libs : PyLibs}.


End Rendering.

(** ** Further vocabulary *)

(** [c] finishes, and the part [f] of the world is afterwards what it was. *)
Definition keeps {A B} (f : world -> B) (c : M A) : Prop :=
  forall w,
    match c w with
    | Return _ w' | Raise _ w' => f w' = f w
    | Running => False
    end.

(** The console after the prompt [msg] was answered and the overwrite was
    announced for [fname]. *)
Definition overwriting (msg fname : string) (w : world) : world :=
  World (files w) (stdin w) (S (stdin_pos w)) (stdout w ++ [msg])
        (stderr w ++ ["Overwriting file: " ++ fname ++ nl]).

(** None of the next [n] lines of the console is y or Y. *)
Definition no_yes_within (n : nat) (w : world) : Prop :=
  forall j s, (j < n)%nat -> stdin w (stdin_pos w + j)%nat = Some s -> is_yes s = false.

(** The string has no carriage return. *)
Definition no_cr (s : string) : bool :=
  negb (csv.str_exists (fun c => Ascii.eqb c "013"%char) s).

(** A payload that [write_csv] takes: a list that starts with a dictionary. *)
Definition csv_payload (fdata : value) : bool :=
  match fdata with
  | VList (VDict _ :: _) => true
  | _ => false
  end.

(** ** Calendar vocabulary, continued *)

Module calendar2.
Import moratorium calendar.
Local Open Scope Z_scope.

(** The name of the weekday numbered [wd]. *)
Definition day_name (wd : Z) : string :=
  nth (Z.to_nat wd) weekday_names EmptyString.

(** [day] is the last day of its month to fall on the weekday [wd]. *)
Definition last_weekday_of_month (wd year month day : Z) : Prop :=
  falls_on wd year month day = true
  /\ forall later, day < later -> falls_on wd year month later = false.

(** Where the slice [jcal[-end_days:]] starts in a list of [len] items. *)
Definition slice_start (len end_days : Z) : Z :=
  if 0 <? end_days then Z.max (len - end_days) 0 else Z.min (- end_days) len.

(** The names of the table, in the order of the source. *)
Definition holiday_names : list key :=
  [KStr "New Year's Day"; KStr "Martin Luther King Jr Day"; KStr "Presidents Day";
   KStr "Memorial Day"; KStr "Independence Day"; KStr "Labor Day";
   KStr "Thanksgiving"; KStr "Thanksgiving Friday"; KStr "Christmas"].

(** [(m1, d1)] comes before [(m2, d2)] in the year. *)
Definition earlier (m1 d1 m2 d2 : Z) : Prop := m1 < m2 \/ (m1 = m2 /\ d1 < d2).

End calendar2.

(** ** Paths *)

(** The string has no character [c]. *)
Definition lacks (c : ascii) (s : string) : bool := negb (str_mem c s).

(** The string is made of dots only. *)
Definition only_dots (s : string) : bool :=
  negb (csv.str_exists (fun c => negb (is_dot c)) s).

(** What the constructor makes of a path whose format token is [ft]. *)
Definition resolved (fname ft : string) : result TextFile.t :=
  if in_tuple ft TextFile.supported then Ok (TextFile.mk fname ft)
  else Err (UnsupportedFormatError ft).

(** ** Plain csv fields *)

(** A character that the csv writer never quotes and the reader takes as a
    character of the field: not the delimiter, the quote character, a line
    end or NUL. *)
Definition plain_char (c : ascii) : bool :=
  negb (Ascii.eqb c csv.delimiter || Ascii.eqb c csv.quotechar || csv.is_newline c
        || Ascii.eqb c "000"%char).

Definition plain_chars (s : string) : bool :=
  negb (csv.str_exists (fun c => negb (plain_char c)) s).

(** A field of plain characters within the field size limit. *)
Definition plain (s : string) : bool :=
  plain_chars s && (N.of_nat (String.length s) <=? csv.field_limit)%N.

(** The name of a column and the text of a cell, as they are written. *)
Definition column_name (k : key) : string := csv.cell_text (csv.key_value k).

Definition cell (d : list (key * value)) (k : key) : string :=
  csv.cell_text (default (VStr EmptyString) (dict_get k d)).

(** The text of a row of fields: the fields joined by commas, or two quote
    characters for the row of one empty field. *)
Definition row_text (fields : list string) : string :=
  let line := join (String csv.delimiter EmptyString) fields in
  if bool_decide (fields ≠ []) && bool_decide (line = EmptyString)
  then String csv.quotechar (String csv.quotechar EmptyString) else line.

(** A record as it is read back: every column with the text of its cell. *)
Definition read_back (keys : list key) (d : list (key * value)) : value :=
  VDict (map (fun k => (KStr (column_name k), VStr (cell d k))) keys).

(** ** Vocabulary for the prompts *)

Module prompting.
Import prompt.

(** The console after one more line was read at the prompt [msg], with the
    lines [shown] added to [stderr]. *)
Definition asked (msg : string) (shown : list string) (w : world) : world :=
  World (files w) (stdin w) (S (stdin_pos w)) (stdout w ++ [msg]) (stderr w ++ shown).

(** ... after [k] turns [turn] of a loop ... *)
Fixpoint repeated (k : nat) (turn : world -> world) (w : world) : world :=
  match k with
  | O => w
  | S k' => repeated k' turn (turn w)
  end.

(** The reply, white space removed, starts with the letter [c] in either
    case. *)
Definition starts_with (c : ascii) (line : string) : Prop :=
  exists c' rest, strip line = String c' rest /\ lower_char c' = c.

(** The reply is ASCII text and starts, white space removed, with something
    other than y or n. *)
Definition starts_otherwise (line : string) : Prop :=
  is_ascii line = true
  /\ exists c' rest, strip line = String c' rest
       /\ lower_char c' <> "y"%char /\ lower_char c' <> "n"%char.

(** The reply is empty or made of ASCII white space only. *)
Definition blank (line : string) : Prop := strip line = EmptyString.

(** The next [k] lines of the console exist and all satisfy [P]. *)
Definition next_replies (k : nat) (P : string -> Prop) (w : world) : Prop :=
  forall j, (j < k)%nat -> exists r, stdin w (stdin_pos w + j)%nat = Some r /\ P r.

(** What a menu shows on [stderr]: the message, then one numbered line for
    each item. *)
Definition menu (msg : string) (items : list value) : list string :=
  ((nl ++ msg ++ nl) ++ nl)
  :: map (fun xy => (pretty (xy.1 + 1)%Z ++ ". " ++ str xy.2) ++ nl) (enumerate items).

(** [s] is the number that the menu shows for [item]. *)
Definition numbered (items : list value) (s : string) (item : value) : Prop :=
  exists i : nat, s = pretty (Z.of_nat i + 1)%Z /\ items !! i = Some item.

(** The reply is ASCII text and not the number of an item that counts as
    true. *)
Definition not_a_choice (items : list value) (line : string) : Prop :=
  is_ascii line = true
  /\ forall item, numbered items (strip line) item -> falsy item = true.

(** The words [all] and [none] are looked for anywhere in the reply and in
    either case. *)
Definition mentions (word line : string) : Prop :=
  exists pre mid post, line = pre ++ mid ++ post /\ lower mid = word.

(** The numbers of the items [idxs], as they are typed with one space
    between them. *)
Definition typed (idxs : list nat) : string :=
  join " " (map (fun i : nat => pretty (Z.of_nat i + 1)%Z) idxs).

(** An option of the menu, as [make_options] stores it. *)
Definition option_of (xy : Z * value) : key * value :=
  (KStr (str (VInt (xy.1 + 1))), xy.2).

Fixpoint every (p : ascii -> bool) (s : string) : bool :=
  match s with
  | EmptyString => true
  | String c s' => p c && every p s'
  end.

Definition digit (c : ascii) : bool :=
  ((48 <=? N_of_ascii c) && (N_of_ascii c <=? 57))%N.

Definition digit_or_space (c : ascii) : bool := digit c || Ascii.eqb c " "%char.

End prompting.
(** ** The monad *)

Lemma bind_Return {A B} (c : M A) (k : A -> M B) (w w' : world) (a : A) :
  c w = Return a w' -> (c ≫= k) w = k a w'.
Proof. intros Hc. unfold mbind, M_bind, bind. by rewrite Hc. Qed.

Lemma bind_Raise {A B} (c : M A) (k : A -> M B) (w w' : world) (e : exn) :
  c w = Raise e w' -> (c ≫= k) w = Raise e w'.
Proof. intros Hc. unfold mbind, M_bind, bind. by rewrite Hc. Qed.

Lemma bind_Running {A B} (c : M A) (k : A -> M B) (w : world) :
  c w = Running -> (c ≫= k) w = Running.
Proof. intros Hc. unfold mbind, M_bind, bind. by rewrite Hc. Qed.

Ltac run :=
  unfold mbind, M_bind, mret, M_ret, bind, ret, raise, Sys.assert, lift,
    eprint, stderr_write, isfile in *.

(** ** The confirmation loop *)

(** One turn of the loop. *)
Lemma confirm_yn_n_turn (fuel : nat) (msg : string) (w : world) :
  TextFile.confirm_yn_n (S fuel) msg w =
    match stdin w (stdin_pos w) with
    | None =>
        Raise EOFError (World (files w) (stdin w) (stdin_pos w) (stdout w ++ [msg]) (stderr w))
    | Some s =>
        if is_yes s then Return true (answered msg w)
        else if is_no s then Return false (answered msg w)
        else TextFile.confirm_yn_n fuel msg (rejected1 msg w)
    end.
Proof.
  cbn [TextFile.confirm_yn_n]. run. unfold raw_input.
  destruct (stdin w (stdin_pos w)) as [s|]; [|done].
  unfold is_yes, is_no. destruct (in_tuple s ["y"; "Y"]); [done|].
  destruct (in_tuple s ["n"; "N"; EmptyString]); done.
Qed.

Lemma only_other_replies_S (k : nat) (msg : string) (w : world) :
  only_other_replies (S k) w ->
  (exists r, stdin w (stdin_pos w) = Some r /\ is_reply r = false)
  /\ only_other_replies k (rejected1 msg w).
Proof.
  intros Hk. split.
  - destruct (Hk 0%nat) as (r & Hr & Hn); [lia|].
    exists r. by rewrite Nat.add_0_r in Hr.
  - intros j Hj. destruct (Hk (S j)) as (r & Hr & Hn); [lia|].
    exists r. split; [|done]. cbn. by rewrite <- Nat.add_succ_r.
Qed.

Lemma rejected_stdin (k : nat) (msg : string) (w : world) :
  stdin (rejected k msg w) = stdin w
  /\ stdin_pos (rejected k msg w) = (stdin_pos w + k)%nat
  /\ files (rejected k msg w) = files w.
Proof.
  revert w. induction k as [|k IH]; intros w; cbn.
  - by rewrite Nat.add_0_r.
  - destruct (IH (rejected1 msg w)) as (-> & -> & ->). cbn.
    repeat split. lia.
Qed.

Lemma is_reply_false (r : string) :
  is_reply r = false -> is_yes r = false /\ is_no r = false.
Proof. unfold is_reply. by intros [??]%orb_false_iff. Qed.

(** While only other replies are read, the loop keeps running. *)
Lemma confirm_yn_n_running (k : nat) (msg : string) :
  forall (w : world) (fuel : nat),
    only_other_replies k w -> (fuel <= k)%nat ->
    TextFile.confirm_yn_n fuel msg w = Running.
Proof.
  induction k as [|k IH]; intros w fuel Hk Hf.
  - by replace fuel with 0%nat by lia.
  - destruct fuel as [|fuel]; [done|].
    rewrite confirm_yn_n_turn.
    destruct (only_other_replies_S k msg w Hk) as ((r & -> & Hr) & Hk').
    destruct (is_reply_false r Hr) as [-> ->].
    apply IH; [done | lia].
Qed.

(** The first reply decides. *)
Lemma confirm_yn_n_decides (k : nat) (msg : string) :
  forall (w : world) (fuel : nat) (s : string),
    only_other_replies k w ->
    stdin w (stdin_pos w + k)%nat = Some s ->
    is_reply s = true -> (k < fuel)%nat ->
    TextFile.confirm_yn_n fuel msg w = Return (is_yes s) (answered msg (rejected k msg w)).
Proof.
  induction k as [|k IH]; intros w fuel s Hk Hs Hr Hf;
    (destruct fuel as [|fuel]; [lia|]); rewrite confirm_yn_n_turn.
  - rewrite Nat.add_0_r in Hs. rewrite Hs. cbn.
    unfold is_reply in Hr. destruct (is_yes s); [done|].
    cbn in Hr. by rewrite Hr.
  - destruct (only_other_replies_S k msg w Hk) as ((r & -> & Hr') & Hk').
    destruct (is_reply_false r Hr') as [-> ->].
    cbn [rejected]. apply IH; [done | | done | lia].
    cbn. by rewrite Nat.add_succ_r in Hs.
Qed.

(** A result of the loop comes from a first reply. *)
Lemma confirm_yn_n_returned (fuel : nat) (msg : string) :
  forall (w w' : world) (b : bool),
    TextFile.confirm_yn_n fuel msg w = Return b w' ->
    exists (k : nat) (s : string),
      (k < fuel)%nat /\ only_other_replies k w
      /\ stdin w (stdin_pos w + k)%nat = Some s
      /\ is_reply s = true /\ b = is_yes s.
Proof.
  induction fuel as [|fuel IH]; intros w w' b Hret; [done|].
  rewrite confirm_yn_n_turn in Hret.
  destruct (stdin w (stdin_pos w)) as [s|] eqn:Hs; [|done].
  destruct (is_yes s) eqn:Hy; [|destruct (is_no s) eqn:Hn].
  - exists 0%nat, s. rewrite Nat.add_0_r. unfold is_reply. rewrite Hy.
    repeat split; [lia | intros j; lia | done | congruence].
  - exists 0%nat, s. rewrite Nat.add_0_r. unfold is_reply. rewrite Hy, Hn.
    repeat split; [lia | intros j; lia | done | congruence].
  - destruct (IH _ _ _ Hret) as (k & s' & Hk & Hot & Hs' & Hr & Hb).
    exists (S k), s'. cbn in Hs'. rewrite <- Nat.add_succ_r in Hs'.
    repeat split; [lia | | done | done | done].
    intros [|j] Hj.
    + exists s. rewrite Nat.add_0_r. unfold is_reply. by rewrite Hy, Hn.
    + destruct (Hot j) as (r & Hr1 & Hr2); [lia|]. exists r. split; [|done].
      cbn in Hr1. by rewrite <- Nat.add_succ_r in Hr1.
Qed.

(** C3: whatever lines the console holds, [confirm_yn_n] keeps running while
    only replies outside y, Y, n, N and the empty line have been read (each
    is answered by the diagnostic and a new prompt); the first line among
    those five ends the loop, with true for y and Y and false for n, N and
    the empty line; and the loop returns a value in no other way. *)
Theorem confirm_yn_n_first_reply (msg : string) (w : world) :
  (forall k : nat, only_other_replies k w ->
     (forall fuel, (fuel <= k)%nat -> TextFile.confirm_yn_n fuel msg w = Running)
     /\ (forall s fuel, stdin w (stdin_pos w + k)%nat = Some s -> (k < fuel)%nat ->
           (s ∈ ["y"; "Y"] ->
              TextFile.confirm_yn_n fuel msg w = Return true (answered msg (rejected k msg w)))
           /\ (s ∈ ["n"; "N"; EmptyString] ->
              TextFile.confirm_yn_n fuel msg w = Return false (answered msg (rejected k msg w)))))
  /\ (forall fuel b w', TextFile.confirm_yn_n fuel msg w = Return b w' ->
        exists (k : nat) (s : string),
          (k < fuel)%nat /\ only_other_replies k w
          /\ stdin w (stdin_pos w + k)%nat = Some s
          /\ (if b then s ∈ ["y"; "Y"] else s ∈ ["n"; "N"; EmptyString])).
Proof.
  split.
  - intros k Hk. split; [intros fuel Hf; by apply confirm_yn_n_running with k|].
    intros s fuel Hs Hf. split; intros Hin.
    + assert (Hy : is_yes s = true) by (by apply bool_decide_eq_true).
      rewrite <- Hy. apply confirm_yn_n_decides; [done | done | | done].
      unfold is_reply. by rewrite Hy.
    + assert (Hn : is_no s = true) by (by apply bool_decide_eq_true).
      assert (Hy : is_yes s = false).
      { rewrite !elem_of_cons, elem_of_nil in Hin.
        by destruct Hin as [-> | [-> | [-> | []]]]. }
      rewrite <- Hy. apply confirm_yn_n_decides; [done | done | | done].
      unfold is_reply. by rewrite Hn, orb_true_r.
  - intros fuel b w' Hret.
    destruct (confirm_yn_n_returned fuel msg w w' b Hret) as (k & s & Hk & Hot & Hs & Hr & Hb).
    exists k, s. repeat split; [done | done | done |].
    destruct b.
    + symmetry in Hb. by apply bool_decide_eq_true in Hb.
    + unfold is_reply in Hr. rewrite <- Hb in Hr. cbn in Hr.
      by apply bool_decide_eq_true in Hr.
Qed.

(** On the console that holds "maybe", "Y", "n", the loop turns down the
    first line and confirms on the second. *)
Lemma confirm_yn_n_first_reply_witness :
  TextFile.confirm_yn_n 5 TextFile.confirm_msg (console ["maybe"; "Y"; "n"])
  = Return true (World ∅ (fun i => ["maybe"; "Y"; "n"] !! i) 2
                       [TextFile.confirm_msg; TextFile.confirm_msg]
                       ["Invalid input. Try again." ++ nl]).
Proof.
  refine (proj1 (proj2 (proj1 (confirm_yn_n_first_reply TextFile.confirm_msg
           (console ["maybe"; "Y"; "n"])) 1%nat _) "Y" 5%nat _ _) _).
  - intros j Hj. exists "maybe". destruct j; [done | lia].
  - reflexivity.
  - lia.
  - set_solver.
Defined.

(** ** Computations that leave the console alone *)


Create HintDb quiet.

Lemma quiet_ret {A} (a : A) : quiet (mret a).
Proof. by intros w. Qed.

Lemma quiet_raise {A} (e : exn) : quiet (raise (A:=A) e).
Proof. by intros w. Qed.

Lemma quiet_bind {A B} (c : M A) (k : A -> M B) :
  quiet c -> (forall a, quiet (k a)) -> quiet (c ≫= k).
Proof.
  intros Hc Hk w. specialize (Hc w). unfold mbind, M_bind, bind.
  destruct (c w) as [a w1|e w1|]; [|done..].
  specialize (Hk a w1). destruct Hc as (Hc1 & Hc2 & Hc3).
  destruct (k a w1) as [b w2|e w2|]; [| |done];
    destruct Hk as (-> & -> & ->); done.
Qed.

Lemma quiet_lift {A} (r : result A) : quiet (lift r).
Proof. by destruct r. Qed.

Lemma quiet_assert (cond : bool) (msg : string) : quiet (Sys.assert cond msg).
Proof. by destruct cond. Qed.

Lemma quiet_isfile (fname : string) : quiet (isfile fname).
Proof. by intros w. Qed.

Lemma quiet_getsize (fname : string) : quiet (getsize fname).
Proof. intros w. unfold getsize. by destruct (files w !! fname) as [[]|]. Qed.

Lemma quiet_read_file (fname : string) : quiet (read_file fname).
Proof. intros w. unfold read_file. by destruct (files w !! fname) as [[]|]. Qed.

Lemma quiet_open_w (fname : string) : quiet (open_w fname).
Proof. intros w. unfold open_w. by destruct (files w !! fname) as [[]|]. Qed.

Lemma quiet_write_file (fname s : string) : quiet (write_file fname s).
Proof. intros w. unfold write_file. by destruct (files w !! fname) as [[]|]. Qed.

Lemma quiet_eprint (msg newline : string) : quiet (eprint msg newline).
Proof. by intros w. Qed.

#[global] Hint Resolve quiet_ret quiet_raise quiet_lift quiet_assert quiet_isfile
  quiet_getsize quiet_read_file quiet_open_w quiet_write_file quiet_eprint : quiet.

Ltac quiet_steps :=
  repeat first
    [ progress eauto with quiet
    | apply quiet_bind; [|intros ?]
    | match goal with
      | |- quiet (if ?b then _ else _) => destruct b
      | |- quiet (match ?x with _ => _ end) => destruct x
      end ].

Lemma quiet_writerows (fname : string) (fieldnames : list key) (rowdicts : list value) :
  quiet (TextFile.writerows fname fieldnames rowdicts).
Proof.
  induction rowdicts as [|rowdict rest IH]; cbn [TextFile.writerows]; quiet_steps.
Qed.

#[global] Hint Resolve quiet_writerows : quiet.

Section WithLibs.
Context `{libs : PyLibs}.


End WithLibs.

(** ** Construction, reading and the overwrite protocol *)


Lemma isfile_false (w : world) (path : string) :
  ~ is_regular_file w path ->
  isfile path w = Return false w.
Proof.
  intros Hno. unfold isfile. destruct (files w !! path) as [[c|]|] eqn:E; [|done..].
  destruct Hno. by exists c.
Qed.

(** Without an override, the format is the lowered extension, and an
    extension outside the supported ones is refused. *)
Lemma init_by_extension (fname : string) :
  TextFile.__init__ fname None =
    let ft := lower (strip_dots (splitext fname).2) in
    if in_tuple ft TextFile.supported then Ok (TextFile.mk fname ft)
    else Err (UnsupportedFormatError ft).
Proof. reflexivity. Qed.

(** C2, on the code: a format override never reaches the handle. With any
    override at all, supported or not, [__init__] leaves the attribute
    [ftype] unassigned and the assertion that reads it raises
    [AttributeError]. *)
Theorem init_override_never_assigned (fname override : string) :
  TextFile.__init__ fname (Some override)
  = Err (AttributeError "'TextFile' object has no attribute 'ftype'").
Proof. reflexivity. Qed.

Section WithLibs.
Context `{libs : PyLibs}.

(** C1: on an existing file, a write without [force] that is answered with
    n, N or the empty line returns 0; the files are what they were, the
    content of the file included, and the cancellation is reported on
    standard error. *)
Theorem write_declined_is_noop (fuel : nat) (self : TextFile.t) (fdata : value)
    (force : option bool) (w : world) (content reply : string) :
  files w !! TextFile.fname self = Some (File content) ->
  TextFile.truthy force = false ->
  stdin w (stdin_pos w) = Some reply ->
  reply ∈ ["n"; "N"; EmptyString] ->
  (0 < fuel)%nat ->
  exists w',
    TextFile.write fuel self fdata force w = Return 0%Z w'
    /\ files w' = files w
    /\ files w' !! TextFile.fname self = Some (File content)
    /\ stderr w' = app (stderr w) ["Write cancelled: " ++ TextFile.fname self ++ nl].
Proof.
  intros Hfile Hforce Hreply Hin Hfuel.
  destruct fuel as [|fuel]; [lia|].
  assert (Hn : is_no reply = true) by (by apply bool_decide_eq_true).
  assert (Hy : is_yes reply = false).
  { rewrite !elem_of_cons, elem_of_nil in Hin.
    by destruct Hin as [-> | [-> | [-> | []]]]. }
  eexists. unfold TextFile.write.
  rewrite (bind_Return _ _ w w true) by (unfold isfile; by rewrite Hfile).
  rewrite Hforce. cbn [negb andb].
  erewrite bind_Return; last first.
  { rewrite confirm_yn_n_turn, Hreply, Hy, Hn. reflexivity. }
  cbn. by repeat split.
Qed.

(** C4, as the code has it: when the path names no regular file, [read]
    fails with the assertion [File not found: <path>], an [AssertionError],
    for every format of the handle and whatever the parsers of the formats
    would do: no file is opened and the world is left as it was. *)
Theorem read_missing_file_fails (self : TextFile.t) (w : world) :
  ~ is_regular_file w (TextFile.fname self) ->
  TextFile.read self w
  = Raise (AssertionError ("File not found: " ++ TextFile.fname self)) w.
Proof.
  intros Hno. unfold TextFile.read.
  rewrite (bind_Return _ _ w w false) by (by apply isfile_false).
  reflexivity.
Qed.

End WithLibs.

(** [notes.txt] holds "old"; a write of "new" that is answered "n" returns 0
    and leaves "old" in place. *)
Lemma write_declined_is_noop_witness :
  exists w',
    TextFile.write (libs:=StandIn.libs) 1 (TextFile.mk "notes.txt" "txt") (VStr "new") None
      (example_world ["n"]) = Return 0%Z w'
    /\ files w' = files (example_world ["n"])
    /\ files w' !! "notes.txt" = Some (File "old")
    /\ stderr w' = ["Write cancelled: notes.txt" ++ nl].
Proof.
  apply (write_declined_is_noop (libs:=StandIn.libs) 1 (TextFile.mk "notes.txt" "txt")
           (VStr "new") None (example_world ["n"]) "old" "n").
  - reflexivity.
  - reflexivity.
  - reflexivity.
  - apply list_elem_of_here.
  - lia.
Defined.

(** [data] is a directory, not a regular file: reading it as csv fails
    with the file-not-found assertion. *)
Lemma read_missing_file_fails_witness :
  TextFile.read (libs:=StandIn.libs) (TextFile.mk "data" "csv") (example_world [])
  = Raise (AssertionError "File not found: data") (example_world []).
Proof.
  apply (read_missing_file_fails (libs:=StandIn.libs) (TextFile.mk "data" "csv") (example_world [])).
  intros [content Hc]. vm_compute in Hc. discriminate Hc.
Defined.

(** The failure is not a [FileNotFoundError]: nothing is called
    [missing.csv], and what [read] raises for it is the assertion's
    exception, which is no [IOError] whatever its message. *)
Lemma read_missing_file_counterexample :
  TextFile.read (libs:=StandIn.libs) (TextFile.mk "missing.csv" "csv") (example_world [])
  <> Raise (FileNotFoundError "missing.csv") (example_world [])
  /\ exists e,
       TextFile.read (libs:=StandIn.libs) (TextFile.mk "missing.csv" "csv") (example_world [])
       = Raise e (example_world [])
       /\ e = AssertionError "File not found: missing.csv"
       /\ forall msg, e <> IOError msg.
Proof.
  assert (Hraise :
    TextFile.read (libs:=StandIn.libs) (TextFile.mk "missing.csv" "csv") (example_world [])
    = Raise (AssertionError "File not found: missing.csv") (example_world []))
    by (vm_compute; reflexivity).
  split.
  - rewrite Hraise. discriminate.
  - eexists. split; [exact Hraise|]. split; [reflexivity | discriminate].
Qed.

(** ** The calendar *)

Section Calendar.
Import moratorium calendar.
Local Open Scope Z_scope.

Lemma omap_ext_all {A B} (f g : A -> option B) (l : list A) :
  (forall x, f x = g x) -> omap f l = omap g l.
Proof.
  intros Hfg. induction l as [|x l IH]; [done|].
  cbn. rewrite Hfg, IH. done.
Qed.

Lemma ymd2ord_day (year month day : Z) :
  ymd2ord year month day = ymd2ord year month 0 + day.
Proof. unfold ymd2ord. lia. Qed.

(** A date of a month, by the weekday and day-of-year of the month's day 0. *)
Lemma strptime_month (year month day : Z) :
  1000 <= year <= 9999 -> 1 <= month <= 12 ->
  strptime year month day =
    if (1 <=? day) && (day <=? days_in_month year month)
    then Some (mk_time year month day
                 ((month_wday0 year month + day) mod 7)
                 (month_yday0 year month + day))
    else None.
Proof.
  intros Hy Hm. unfold strptime.
  replace (1000 <=? year) with true by (symmetry; apply Z.leb_le; lia).
  replace (year <=? 9999) with true by (symmetry; apply Z.leb_le; lia).
  replace (1 <=? month) with true by (symmetry; apply Z.leb_le; lia).
  replace (month <=? 12) with true by (symmetry; apply Z.leb_le; lia).
  cbn [andb].
  destruct ((1 <=? day) && (day <=? days_in_month year month)); [|done].
  f_equal. f_equal.
  - unfold month_wday0. rewrite Zplus_mod_idemp_l, (ymd2ord_day year month day).
    f_equal. lia.
  - unfold month_yday0. rewrite (ymd2ord_day year month day). lia.
Qed.

Lemma get_nth_day_month (day_name : string) (n year month : Z) :
  1000 <= year <= 9999 -> 1 <= month <= 12 ->
  get_nth_day day_name n year month =
    let days_matched :=
      days_matched_in day_name (month_wday0 year month) (days_in_month year month)
        (month_yday0 year month) in
    if n =? -1 then getitem days_matched (-1) else getitem days_matched (n - 1).
Proof.
  intros Hy Hm. unfold get_nth_day, days_matched_in. cbv zeta.
  rewrite (omap_ext_all _
    (fun d : Z =>
       if (1 <=? d) && (d <=? days_in_month year month) then
         if decide (nth (Z.to_nat ((month_wday0 year month + d) mod 7))
                      weekday_names EmptyString = day_name)
         then Some (month_yday0 year month + d) else None
       else None)); [done|].
  intros d. rewrite strptime_month by done.
  destruct ((1 <=? d) && (d <=? days_in_month year month)); done.
Qed.

Lemma month_wday0_range (year month : Z) : 0 <= month_wday0 year month < 7.
Proof. unfold month_wday0. apply Z.mod_pos_bound. lia. Qed.

Lemma days_in_month_cases (year month : Z) :
  days_in_month year month = 28 \/ days_in_month year month = 29
  \/ days_in_month year month = 30 \/ days_in_month year month = 31.
Proof.
  unfold days_in_month.
  destruct (month =? 2); [destruct (is_leap year); auto|].
  destruct ((month =? 4) || (month =? 6) || (month =? 9) || (month =? 11)); auto.
Qed.

Lemma days_before_month_bound (year month day : Z) :
  1 <= month <= 12 -> 1 <= day <= days_in_month year month ->
  1 <= days_before_month year month + day <= 366.
Proof.
  intros Hm Hd. unfold days_before_month, days_in_month in *.
  assert (Hcases : month = 1 \/ month = 2 \/ month = 3 \/ month = 4 \/ month = 5
                   \/ month = 6 \/ month = 7 \/ month = 8 \/ month = 9 \/ month = 10
                   \/ month = 11 \/ month = 12) by lia.
  destruct (is_leap year);
    destruct Hcases as [-> | [-> | [-> | [-> | [-> | [-> | [-> | [-> | [-> | [-> | [-> | ->]]]]]]]]]]];
    match type of Hd with
    | _ <= _ <= ?dim => let r := eval vm_compute in dim in change dim with r in Hd
    end;
    match goal with
    | |- _ <= ?before + _ <= _ => let r := eval vm_compute in before in change before with r
    end;
    lia.
Qed.

(** What [strptime] returns is a date. *)
Lemma strptime_is_date (year month day : Z) (dt : struct_time) :
  strptime year month day = Some dt -> is_date dt.
Proof.
  unfold strptime. intros Hdt.
  destruct ((1000 <=? year) && (year <=? 9999) && (1 <=? month) && (month <=? 12)
            && (1 <=? day) && (day <=? days_in_month year month)) eqn:Hok; [|done].
  injection Hdt as <-.
  repeat (apply andb_prop in Hok as [Hok ?]).
  assert (Hm : 1 <= month <= 12) by lia.
  assert (Hd : 1 <= day <= days_in_month year month) by lia.
  unfold is_date. cbn. split; [done|]. split.
  - destruct (days_in_month_cases year month) as [? | [? | [? | ?]]]; lia.
  - split; [pose proof (Z.mod_pos_bound (ymd2ord year month day + 6) 7); lia|].
    pose proof (days_before_month_bound year month day Hm Hd).
    unfold ymd2ord. change (days_before_month year 1) with 0. lia.
Qed.

Ltac weekday_cases a :=
  let Ha := fresh in
  match goal with
  | H : 0 <= a < 7 |- _ =>
      assert (Ha : a = 0 \/ a = 1 \/ a = 2 \/ a = 3 \/ a = 4 \/ a = 5 \/ a = 6) by lia;
      clear H;
      destruct Ha as [-> | [-> | [-> | [-> | [-> | [-> | ->]]]]]]
  end.

Ltac eval_getitem :=
  match goal with
  | |- context [getitem ?l ?i] =>
      let r := eval vm_compute in (getitem l i) in
      change (getitem l i) with r
  end.

(** The fourth Thursday of a month of 30 days. *)
Lemma fourth_thursday_30 (a J : Z) :
  0 <= a < 7 ->
  exists d, 22 <= d <= 28
    /\ on_weekday a 30 thursday d = true
    /\ List.length (filter (fun x => on_weekday a 30 thursday x = true) (seqZ 1 d)) = 4%nat
    /\ getitem (days_matched_in "Thursday" a 30 J) (4 - 1) = Ok (J + d).
Proof.
  intros Ha. weekday_cases a; eval_getitem;
    [exists 24 | exists 23 | exists 22 | exists 28 | exists 27 | exists 26 | exists 25];
    (split; [lia | split; [reflexivity | split; [vm_compute; reflexivity | reflexivity]]]).
Qed.

Lemma falls_on_weekday (wd year month d : Z) :
  1000 <= year <= 9999 -> 1 <= month <= 12 ->
  falls_on wd year month d
  = on_weekday (month_wday0 year month) (days_in_month year month) wd d.
Proof.
  intros Hy Hm. unfold falls_on, on_weekday. rewrite strptime_month by done.
  destruct ((1 <=? d) && (d <=? days_in_month year month)); cbn.
  - destruct (Z.eqb_spec ((month_wday0 year month + d) mod 7) wd) as [->|Hne].
    + by apply bool_decide_eq_true.
    + apply bool_decide_eq_false. congruence.
  - by apply bool_decide_eq_false.
Qed.

(** The entries of the table that are found by weekday exist in every month. *)
Lemma monday_entries (a dim J : Z) :
  0 <= a < 7 -> dim = 28 \/ dim = 29 \/ dim = 30 \/ dim = 31 ->
  (exists j, getitem (days_matched_in "Monday" a dim J) (3 - 1) = Ok j)
  /\ (exists j, getitem (days_matched_in "Monday" a dim J) (1 - 1) = Ok j)
  /\ (exists j, getitem (days_matched_in "Monday" a dim J) (-1) = Ok j).
Proof.
  intros Ha Hdim.
  destruct Hdim as [-> | [-> | [-> | ->]]]; weekday_cases a;
    (split; [|split]); eval_getitem; eauto.
Qed.

Lemma make_day_julian_fixed (year month day : Z) :
  1000 <= year <= 9999 -> 1 <= month <= 12 -> 1 <= day <= 28 ->
  make_day_julian (year, month, day) = Ok (month_yday0 year month + day).
Proof.
  intros Hy Hm Hd. unfold make_day_julian. cbn [fst snd].
  rewrite strptime_month by done.
  replace (1 <=? day) with true by (symmetry; apply Z.leb_le; lia).
  replace (day <=? days_in_month year month) with true; [done|].
  symmetry. apply Z.leb_le.
  destruct (days_in_month_cases year month) as [-> | [-> | [-> | ->]]]; lia.
Qed.

Lemma get_nth_day_nth (day_name : string) (n year month : Z) :
  1000 <= year <= 9999 -> 1 <= month <= 12 -> n <> -1 ->
  get_nth_day day_name n year month =
    getitem (days_matched_in day_name (month_wday0 year month)
               (days_in_month year month) (month_yday0 year month)) (n - 1).
Proof.
  intros Hy Hm Hn. rewrite get_nth_day_month by done. cbv zeta.
  by destruct (Z.eqb_spec n (-1)).
Qed.

Lemma get_nth_day_last (day_name : string) (year month : Z) :
  1000 <= year <= 9999 -> 1 <= month <= 12 ->
  get_nth_day day_name (-1) year month =
    getitem (days_matched_in day_name (month_wday0 year month)
               (days_in_month year month) (month_yday0 year month)) (-1).
Proof. intros Hy Hm. by rewrite get_nth_day_month by done. Qed.

(** The table loads in every year that [strptime] can read, and its
    Thanksgiving is the fourth Thursday of November. *)
Lemma holidays_loaded (this_year : Z) :
  1000 <= this_year <= 9999 ->
  exists d j1 j2 j3 j4,
    22 <= d <= 28
    /\ on_weekday (month_wday0 this_year 11) 30 thursday d = true
    /\ List.length (filter (fun x => on_weekday (month_wday0 this_year 11) 30 thursday x = true)
                      (seqZ 1 d)) = 4%nat
    /\ holidays this_year = Ok
         [(KStr "New Year's Day", month_yday0 this_year 1 + 1);
          (KStr "Martin Luther King Jr Day", j1);
          (KStr "Presidents Day", j2);
          (KStr "Memorial Day", j3);
          (KStr "Independence Day", month_yday0 this_year 7 + 4);
          (KStr "Labor Day", j4);
          (KStr "Thanksgiving", month_yday0 this_year 11 + d);
          (KStr "Thanksgiving Friday", month_yday0 this_year 11 + d + 1);
          (KStr "Christmas", month_yday0 this_year 12 + 25)].
Proof.
  intros Hy.
  destruct (fourth_thursday_30 (month_wday0 this_year 11) (month_yday0 this_year 11)
              (month_wday0_range _ _)) as (d & Hd & Hon & Hcount & Hthx).
  destruct (monday_entries _ _ (month_yday0 this_year 1) (month_wday0_range this_year 1)
              (days_in_month_cases this_year 1)) as ((j1 & H1) & _ & _).
  destruct (monday_entries _ _ (month_yday0 this_year 2) (month_wday0_range this_year 2)
              (days_in_month_cases this_year 2)) as ((j2 & H2) & _ & _).
  destruct (monday_entries _ _ (month_yday0 this_year 5) (month_wday0_range this_year 5)
              (days_in_month_cases this_year 5)) as (_ & _ & (j3 & H3)).
  destruct (monday_entries _ _ (month_yday0 this_year 9) (month_wday0_range this_year 9)
              (days_in_month_cases this_year 9)) as (_ & (j4 & H4) & _).
  exists d, j1, j2, j3, j4. repeat split; [lia | lia | done | done |].
  unfold holidays.
  rewrite !make_day_julian_fixed by lia.
  rewrite get_nth_day_last by lia.
  rewrite !get_nth_day_nth by lia.
  rewrite H1, H2, H3, H4.
  change (days_in_month this_year 11) with 30. rewrite Hthx.
  reflexivity.
Qed.

End Calendar.

Section Moratorium.
Import moratorium calendar.
Local Open Scope Z_scope.

Lemma december_after_november (year : Z) :
  month_yday0 year 12 = month_yday0 year 11 + 30.
Proof.
  unfold month_yday0, ymd2ord, days_before_month. cbn [Z.sub Z.to_nat nth].
  change (Z.to_nat (12 - 1)) with 11%nat. change (Z.to_nat (11 - 1)) with 10%nat.
  cbn [nth]. change (2 <? 12) with true. change (2 <? 11) with true. lia.
Qed.

(** C8: in every year the module can load, the table has a Thanksgiving
    entry, the day-of-year of the fourth Thursday of November of that year,
    and [is_eoy] is true exactly for the dates whose day-of-year is at least
    that number: false before Thanksgiving, true from Thanksgiving through
    December 31. *)
Theorem is_eoy_from_thanksgiving (this_year : Z) :
  1000 <= this_year <= 9999 ->
  exists (table : list (key * Z)) (day thx : Z),
    holidays this_year = Ok table
    /\ dict_get (KStr "Thanksgiving") table = Some thx
    /\ nth_weekday_of_month 4 thursday this_year 11 day
    /\ tm_yday <$> strptime this_year 11 day = Some thx
    /\ (forall gmtime dtuple,
          is_date (default gmtime dtuple) ->
          is_eoy table gmtime dtuple
          = Ok (bool_decide (thx <= tm_yday (default gmtime dtuple))))
    /\ (forall gmtime dt,
          strptime this_year 12 31 = Some dt -> is_eoy table gmtime (Some dt) = Ok true).
Proof.
  intros Hy.
  destruct (holidays_loaded this_year Hy)
    as (d & j1 & j2 & j3 & j4 & Hd & Hon & Hcount & Htable).
  match type of Htable with _ = Ok ?t => set (table := t) in * end.
  assert (Hget : dict_get (KStr "Thanksgiving") table
                 = Some (month_yday0 this_year 11 + d)) by reflexivity.
  clearbody table.
  assert (Heoy : forall gmtime dtuple,
            is_eoy table gmtime dtuple
            = Ok (bool_decide (month_yday0 this_year 11 + d
                               <= tm_yday (default gmtime dtuple)))).
  { intros gmtime dtuple. unfold is_eoy. rewrite Hget. unfold strftime_j.
    destruct (Z.leb_spec (month_yday0 this_year 11 + d) (tm_yday (default gmtime dtuple))).
    - by rewrite bool_decide_eq_true_2.
    - rewrite bool_decide_eq_false_2; [done | lia]. }
  exists table, d, (month_yday0 this_year 11 + d).
  split; [exact Htable|]. split; [exact Hget|].
  split; [|split; [|split; [intros gmtime dtuple _; apply Heoy|]]].
  - split.
    + rewrite falls_on_weekday by lia. exact Hon.
    + rewrite (list_filter_iff _
        (fun x => on_weekday (month_wday0 this_year 11) 30 thursday x = true)).
      * by rewrite Hcount.
      * intros x. by rewrite falls_on_weekday by lia.
  - rewrite strptime_month by lia. change (days_in_month this_year 11) with 30.
    replace ((1 <=? d) && (d <=? 30)) with true; [done|].
    symmetry. apply andb_true_intro. split; apply Z.leb_le; lia.
  - intros gmtime dt Hdt. rewrite Heoy. f_equal. apply bool_decide_eq_true_2.
    rewrite strptime_month in Hdt by lia. cbn in Hdt. injection Hdt as <-. cbn.
    rewrite december_after_november. lia.
Qed.

(** In 2018 the table loads, and its Thanksgiving is day 326, November 22. *)
Lemma is_eoy_from_thanksgiving_witness :
  exists (table : list (key * Z)) (day thx : Z),
    holidays 2018 = Ok table
    /\ dict_get (KStr "Thanksgiving") table = Some thx
    /\ nth_weekday_of_month 4 thursday 2018 11 day
    /\ tm_yday <$> strptime 2018 11 day = Some thx
    /\ (forall gmtime dtuple,
          is_date (default gmtime dtuple) ->
          is_eoy table gmtime dtuple
          = Ok (bool_decide (thx <= tm_yday (default gmtime dtuple))))
    /\ (forall gmtime dt,
          strptime 2018 12 31 = Some dt -> is_eoy table gmtime (Some dt) = Ok true).
Proof. apply (is_eoy_from_thanksgiving 2018). lia. Defined.

(** C10: [is_holiday] looks up the day-of-year of the date among the numbers
    of the table and reads nothing else of the date: two dates with the same
    day-of-year get the same answer, whatever their years. *)
Theorem is_holiday_ignores_year (table : list (key * Z)) (gmtime : struct_time) :
  (forall d, is_date d ->
     is_holiday table gmtime (Some d) = bool_decide (tm_yday d ∈ map snd table))
  /\ (forall d1 d2, is_date d1 -> is_date d2 -> tm_yday d1 = tm_yday d2 ->
        is_holiday table gmtime (Some d1) = is_holiday table gmtime (Some d2)).
Proof.
  assert (Hone : forall d,
            is_holiday table gmtime (Some d) = bool_decide (tm_yday d ∈ map snd table)).
  { intros d. unfold is_holiday, strftime_j. cbn [from_option id].
    by case_bool_decide. }
  split; [intros d _; apply Hone|]. intros d1 d2 _ _ Heq. by rewrite !Hone, Heq.
Qed.

(** With the table of 2018, November 22 of 2019 counts as a holiday like
    November 22 of 2018, the Thanksgiving of that year. *)
Lemma is_holiday_ignores_year_witness :
  holidays 2018 = Ok holidays_2018
  /\ strptime 2018 11 22 = Some nov_22_2018
  /\ strptime 2019 11 22 = Some nov_22_2019
  /\ is_holiday holidays_2018 nov_22_2018 (Some nov_22_2018)
     = is_holiday holidays_2018 nov_22_2018 (Some nov_22_2019).
Proof.
  split; [reflexivity|]. split; [reflexivity|]. split; [reflexivity|].
  apply (proj2 (is_holiday_ignores_year holidays_2018 nov_22_2018) nov_22_2018 nov_22_2019).
  - unfold is_date. cbn. lia.
  - unfold is_date. cbn. lia.
  - reflexivity.
Defined.

End Moratorium.

(** ** Files *)

Lemma append_assoc (a b c : string) : (a ++ b) ++ c = a ++ (b ++ c).
Proof.
  induction a as [|x a IH]; [done|].
  change (String x ((a ++ b) ++ c) = String x (a ++ b ++ c)). by f_equal.
Qed.

Lemma append_nil_r (a : string) : a ++ EmptyString = a.
Proof.
  induction a as [|x a IH]; [done|].
  change (String x (a ++ EmptyString) = String x a). by f_equal.
Qed.

Lemma with_file_twice (path c1 c2 : string) (w : world) :
  with_file path c2 (with_file path c1 w) = with_file path c2 w.
Proof. unfold with_file. cbn. by rewrite insert_insert_eq. Qed.

Lemma open_w_ok (path : string) (w : world) :
  files w !! path ≠ Some Dir ->
  open_w path w = Return tt (with_file path EmptyString w).
Proof. intros Hno. unfold open_w. by destruct (files w !! path) as [[c|]|]. Qed.

Lemma write_file_ok (path c s : string) (w : world) :
  write_file path s (with_file path c w) = Return tt (with_file path (c ++ s) w).
Proof.
  unfold write_file. cbn. rewrite lookup_insert_eq.
  by rewrite <- (with_file_twice path c (c ++ s) w).
Qed.

Lemma read_file_ok (path c : string) (w : world) :
  read_file path (with_file path c w) = Return (universal_newlines c) (with_file path c w).
Proof. unfold read_file. cbn. by rewrite lookup_insert_eq. Qed.

Lemma isfile_ok (path c : string) (w : world) :
  isfile path (with_file path c w) = Return true (with_file path c w).
Proof. unfold isfile. cbn. by rewrite lookup_insert_eq. Qed.

Lemma getsize_ok (path c : string) (w : world) :
  getsize path (with_file path c w)
  = Return (Z.of_nat (String.length c)) (with_file path c w).
Proof. unfold getsize. cbn. by rewrite lookup_insert_eq. Qed.

(** ** Writing csv *)

Lemma extra_keys_nil (fieldnames : list key) (d : list (key * value)) :
  extra_keys fieldnames d = [] ->
  csv.dict_to_list fieldnames (VDict d) = Ok (row_cells fieldnames d).
Proof.
  intros Hnil. unfold csv.dict_to_list. fold (extra_keys fieldnames d).
  by rewrite Hnil.
Qed.

Lemma extra_keys_cons (fieldnames : list key) (d : list (key * value)) :
  extra_keys fieldnames d ≠ [] ->
  exists msg, csv.dict_to_list fieldnames (VDict d) = Err (ValueError msg).
Proof.
  intros Hne. unfold csv.dict_to_list. fold (extra_keys fieldnames d).
  rewrite bool_decide_eq_false_2 by done. eauto.
Qed.

Lemma extra_keys_self (d : list (key * value)) : extra_keys (dict_keys d) d = [].
Proof.
  unfold extra_keys. generalize (dict_keys d). intros l.
  assert (Hall : forall l', (forall k, k ∈ l' -> k ∈ l) -> filter (fun k => k ∉ l) l' = []).
  { induction l' as [|k l' IH]; intros Hsub; [done|].
    rewrite filter_cons_False by (intros Hk; apply Hk, Hsub; left).
    apply IH. intros k' Hk'. apply Hsub. by right. }
  by apply Hall.
Qed.

(** Rows without extra keys are appended to the file, one line each. *)
Lemma writerows_ok (path : string) (fieldnames : list key) (rows : list (list (key * value))) :
  forall (c : string) (w : world),
    Forall (fun d => extra_keys fieldnames d = []) rows ->
    TextFile.writerows path fieldnames (map VDict rows) (with_file path c w)
    = Return tt (with_file path (c ++ concat_lines (map (row_line fieldnames) rows)) w).
Proof.
  induction rows as [|d rows IH]; intros c w Hall; cbn [map TextFile.writerows].
  - cbn. by rewrite append_nil_r.
  - inversion Hall as [|? ? Hd Hrows]; subst.
    rewrite extra_keys_nil by done. cbn [lift].
    rewrite (bind_Return _ _ _ (with_file path c w) (row_cells fieldnames d)) by done.
    erewrite bind_Return by apply write_file_ok.
    rewrite IH by done. cbn. by rewrite append_assoc.
Qed.

(** A row with an extra key stops the write with a [ValueError]; the rows
    before it have reached the file. *)
Lemma writerows_extra (path : string) (fieldnames : list key) (rows : list (list (key * value))) :
  forall (c : string) (w : world),
    Exists (fun d => extra_keys fieldnames d ≠ []) rows ->
    exists msg c',
      TextFile.writerows path fieldnames (map VDict rows) (with_file path c w)
      = Raise (ValueError msg) (with_file path (c ++ c') w).
Proof.
  induction rows as [|d rows IH]; intros c w Hex; [by inversion Hex|].
  cbn [map TextFile.writerows].
  destruct (decide (extra_keys fieldnames d = [])) as [Hnil|Hne].
  - inversion Hex as [? ? Hd|? ? Hrows]; subst; [done|].
    rewrite extra_keys_nil by done. cbn [lift].
    rewrite (bind_Return _ _ _ (with_file path c w) (row_cells fieldnames d)) by done.
    erewrite bind_Return by apply write_file_ok.
    destruct (IH (c ++ csv.writerow (row_cells fieldnames d)) w Hrows) as (msg & c' & ->).
    exists msg, (csv.writerow (row_cells fieldnames d) ++ c'). by rewrite append_assoc.
  - destruct (extra_keys_cons fieldnames d Hne) as (msg & ->).
    exists msg, EmptyString. rewrite append_nil_r. reflexivity.
Qed.

Lemma write_csv_ok (path : string) (first : list (key * value))
    (rest : list (list (key * value))) (w : world) :
  files w !! path ≠ Some Dir ->
  Forall (fun d => extra_keys (dict_keys first) d = []) rest ->
  TextFile.write_csv path (VList (map VDict (first :: rest))) w
  = Return path
      (with_file path
         (csv.header_line (dict_keys first)
          ++ concat_lines (map (row_line (dict_keys first)) (first :: rest))) w).
Proof.
  intros Hno Hrest. unfold TextFile.write_csv. cbn [map].
  erewrite bind_Return by (by apply open_w_ok).
  erewrite bind_Return by apply write_file_ok.
  erewrite bind_Return; [reflexivity|].
  apply (writerows_ok path (dict_keys first) (first :: rest)).
  constructor; [apply extra_keys_self | done].
Qed.

Lemma write_csv_extra (path : string) (first : list (key * value))
    (rest : list (list (key * value))) (w : world) :
  files w !! path ≠ Some Dir ->
  Exists (fun d => extra_keys (dict_keys first) d ≠ []) rest ->
  exists msg c,
    TextFile.write_csv path (VList (map VDict (first :: rest))) w
    = Raise (ValueError msg) (with_file path (csv.header_line (dict_keys first) ++ c) w).
Proof.
  intros Hno Hrest. unfold TextFile.write_csv. cbn [map].
  destruct (writerows_extra path (dict_keys first) (first :: rest)
              (EmptyString ++ csv.header_line (dict_keys first)) w) as (msg & c & Hrows).
  { by right. }
  exists msg, c.
  erewrite bind_Return by (by apply open_w_ok).
  erewrite bind_Return by apply write_file_ok.
  by erewrite bind_Raise by apply Hrows.
Qed.

(** C7, as the code has it: the header line is made of the keys of the first
    record in their insertion order. When no later record has a key that the
    first one lacks, the write completes, and a key that a record lacks
    gives an empty cell. When some later record has a key that the first one
    lacks, the write stops with a [ValueError]. *)
Theorem write_csv_columns (fname : string) (first : list (key * value))
    (rest : list (list (key * value))) (w : world) :
  files w !! fname ≠ Some Dir ->
  (Forall (fun d => extra_keys (dict_keys first) d = []) rest ->
     TextFile.write_csv fname (VList (map VDict (first :: rest))) w
     = Return fname
         (with_file fname
            (csv.writerow (map csv.key_value (map fst first))
             ++ concat_lines (map (row_line (map fst first)) (first :: rest))) w))
  /\ (forall d k, dict_get k d = None ->
        row_cells [k] d = [VStr EmptyString]
        /\ csv.join_append (csv.cell_text (VStr EmptyString)) = EmptyString)
  /\ (Exists (fun d => extra_keys (dict_keys first) d ≠ []) rest ->
      exists msg w',
        TextFile.write_csv fname (VList (map VDict (first :: rest))) w
        = Raise (ValueError msg) w').
Proof.
  intros Hno. split; [|split].
  - intros Hrest. by apply write_csv_ok.
  - intros d k Hk. unfold row_cells. cbn. by rewrite Hk.
  - intros Hrest.
    destruct (write_csv_extra fname first rest w Hno Hrest) as (msg & c & Hw).
    eauto.
Qed.

(** The second record lacks the key [b]: its line ends in an empty cell. *)
Lemma write_csv_columns_witness :
  TextFile.write_csv "t.csv"
    (VList [VDict [(KStr "a", VInt 1); (KStr "b", VInt 2)]; VDict [(KStr "a", VInt 3)]])
    (example_world [])
  = Return "t.csv"
      (with_file "t.csv" ("a,b" ++ nl ++ "1,2" ++ nl ++ "3," ++ nl) (example_world [])).
Proof.
  refine (proj1 (write_csv_columns "t.csv" [(KStr "a", VInt 1); (KStr "b", VInt 2)]
                   [[(KStr "a", VInt 3)]] (example_world []) _) _).
  - vm_compute. discriminate.
  - constructor; [reflexivity | constructor].
Defined.

(** Not every mismatch of keys is tolerated: a second record with a key of
    its own does not give partial cells; the write raises and returns
    nothing. *)
Lemma write_csv_mismatch_counterexample :
  (exists w',
     TextFile.write_csv "t.csv"
       (VList [VDict [(KStr "a", VInt 1)]; VDict [(KStr "b", VInt 2)]])
       (example_world [])
     = Raise (ValueError "dict contains fields not in fieldnames: 'b'") w')
  /\ ~ (exists r w',
          TextFile.write_csv "t.csv"
            (VList [VDict [(KStr "a", VInt 1)]; VDict [(KStr "b", VInt 2)]])
            (example_world [])
          = Return r w').
Proof.
  assert (Hraise :
    TextFile.write_csv "t.csv"
      (VList [VDict [(KStr "a", VInt 1)]; VDict [(KStr "b", VInt 2)]])
      (example_world [])
    = Raise (ValueError "dict contains fields not in fieldnames: 'b'")
        (with_file "t.csv" ("a" ++ nl ++ "1" ++ nl) (example_world [])))
    by (vm_compute; reflexivity).
  split; [eauto|]. intros (r & w' & Hret). rewrite Hraise in Hret. discriminate.
Qed.

Section WithLibs.
Context `{libs : PyLibs}.

(** With [force], [write] is the write itself. *)
Lemma write_forced (fuel : nat) (self : TextFile.t) (fdata : value) (w : world) :
  TextFile.write fuel self fdata (Some true) w = TextFile.write_dispatch self fdata w.
Proof.
  unfold TextFile.write, mbind, M_bind, bind, isfile. cbn.
  by rewrite andb_false_r.
Qed.


(** C5: the list of the two records a=1, b=2, c=3 and a=11, b=12, c=13,
    written through a csv handle (with [force], as the tests do) and read
    back through it, comes back as two records in the same order, each with
    the keys a, b, c in that order and with every value as its decimal
    string. *)
Theorem csv_round_trip (fuel : nat) (fname : string) (w : world) :
  files w !! fname ≠ Some Dir ->
  TextFile.write fuel (TextFile.mk fname "csv") list_of_dicts (Some true) w
  = Return 21%Z (with_file fname list_of_dicts_csv w)
  /\ TextFile.read (TextFile.mk fname "csv") (with_file fname list_of_dicts_csv w)
     = Return list_of_dicts_read (with_file fname list_of_dicts_csv w).
Proof.
  intros Hno. split.
  - rewrite write_forced. unfold TextFile.write_dispatch.
    cbn [TextFile.ftype TextFile.fname]. rewrite decide_True by done.
    erewrite bind_Return; last first.
    { apply (write_csv_ok fname
               [(KStr "a", VInt 1); (KStr "b", VInt 2); (KStr "c", VInt 3)]
               [[(KStr "a", VInt 11); (KStr "b", VInt 12); (KStr "c", VInt 13)]] w Hno).
      constructor; [reflexivity | constructor]. }
    apply getsize_ok.
  - unfold TextFile.read. cbn [TextFile.ftype TextFile.fname].
    erewrite bind_Return by apply isfile_ok.
    cbn [Sys.assert]. erewrite bind_Return by reflexivity.
    rewrite decide_True by done. unfold TextFile.read_csv.
    erewrite bind_Return by apply read_file_ok.
    erewrite bind_Return by reflexivity.
    reflexivity.
Qed.

End WithLibs.


(** In the example world, on the new file [t.csv]. *)
Lemma csv_round_trip_witness :
  TextFile.write (libs:=StandIn.libs) 0 (TextFile.mk "t.csv" "csv") list_of_dicts (Some true)
    (example_world [])
  = Return 21%Z (with_file "t.csv" list_of_dicts_csv (example_world []))
  /\ TextFile.read (libs:=StandIn.libs) (TextFile.mk "t.csv" "csv")
       (with_file "t.csv" list_of_dicts_csv (example_world []))
     = Return list_of_dicts_read (with_file "t.csv" list_of_dicts_csv (example_world [])).
Proof.
  apply (csv_round_trip (libs:=StandIn.libs) 0 "t.csv" (example_world [])).
  vm_compute. discriminate.
Defined.

(** ** Dictionaries *)

Section DictFacts.
Context {V : Type}.
Implicit Types (d : list (key * V)) (k : key) (v : V).




Lemma dict_get_elem k v d : dict_get k d = Some v -> (k, v) ∈ d.
Proof.
  induction d as [|[k' v'] d IH]; [done|]. cbn.
  destruct (decide (k = k')) as [->|Hne].
  - intros [= ->]. left.
  - intros Hget. right. by apply IH.
Qed.

Lemma dict_elem_get k v d : NoDup (dict_keys d) -> (k, v) ∈ d -> dict_get k d = Some v.
Proof.
  induction d as [|[k' v'] d IH]; intros Hnd Hin; [by apply elem_of_nil in Hin|].
  cbn in Hnd. apply NoDup_cons in Hnd as [Hk' Hnd]. cbn.
  apply elem_of_cons in Hin as [[= -> ->]|Hin].
  - by rewrite decide_True.
  - rewrite decide_False; [by apply IH|].
    intros ->. apply Hk'. unfold dict_keys.
    apply list_elem_of_fmap. by exists (k', v).
Qed.

Lemma dict_keys_set k v d :
  dict_keys (dict_set k v d)
  = if decide (k ∈ dict_keys d) then dict_keys d else app (dict_keys d) [k].
Proof.
  unfold dict_keys. induction d as [|[k' v'] d IH]; cbn.
  - rewrite decide_False; [done | apply not_elem_of_nil].
  - destruct (decide (k = k')) as [->|Hne]; cbn.
    + rewrite decide_True; [done | left].
    + rewrite IH. destruct (decide (k ∈ map fst d)) as [Hin|Hnin].
      * rewrite decide_True; [done | by right].
      * rewrite decide_False; [done|]. by intros [?|?]%elem_of_cons.
Qed.

Lemma dict_set_NoDup k v d : NoDup (dict_keys d) -> NoDup (dict_keys (dict_set k v d)).
Proof.
  intros Hnd. rewrite dict_keys_set. destruct (decide (k ∈ dict_keys d)); [done|].
  apply NoDup_app. repeat split; [done | | apply NoDup_singleton].
  intros x Hx Hx'. apply list_elem_of_singleton in Hx'. by subst.
Qed.

Lemma dict_set_elem k v k' v' d :
  (k', v') ∈ dict_set k v d -> (k', v') = (k, v) \/ (k', v') ∈ d.
Proof.
  induction d as [|[k0 v0] d IH]; cbn.
  - intros Hin. apply list_elem_of_singleton in Hin. by left.
  - destruct (decide (k = k0)) as [->|Hne].
    + intros [->|Hin]%elem_of_cons; [by left | right; by right].
    + intros [->|Hin]%elem_of_cons; [right; left|].
      destruct (IH Hin) as [?|?]; [by left | right; by right].
Qed.

Lemma dict_of_acc (pairs acc : list (key * V)) :
  NoDup (dict_keys acc) ->
  let d := fold_left (fun d kv => dict_set kv.1 kv.2 d) pairs acc in
  NoDup (dict_keys d) /\ forall kv, kv ∈ d -> kv ∈ acc \/ kv ∈ pairs.
Proof.
  revert acc. induction pairs as [|[k v] pairs IH]; intros acc Hnd; cbn.
  - split; [done | by left].
  - destruct (IH (dict_set k v acc)) as [Hnd' Hsub]; [by apply dict_set_NoDup|].
    split; [done|]. intros [k' v'] Hin.
    destruct (Hsub _ Hin) as [Hacc|Hp]; [|right; by right].
    destruct (dict_set_elem _ _ _ _ _ Hacc) as [->|?]; [right; left | by left].
Qed.

Lemma dict_of_NoDup (pairs : list (key * V)) : NoDup (dict_keys (dict_of pairs)).
Proof. apply (dict_of_acc pairs []). constructor. Qed.




End DictFacts.

(** ** Reading ini files *)

#[local] Instance KStr_inj : Inj (=) (=) KStr.
Proof. by intros s1 s2 [= ->]. Qed.

Section ReadIni.
Context `{libs : PyLibs}.


(** Any other exception of the literal parser leaves the loop. *)
Lemma interpret_other_exception (d : list (key * value)) (k : key) (s : string) (e : exn) :
  literal_eval s = Err e ->
  (forall msg, e ≠ SyntaxError msg) -> (forall msg, e ≠ ValueError msg) ->
  TextFile.interpret d (k, VStr s) = Err e.
Proof.
  intros He Hs Hv. unfold TextFile.interpret. cbn. rewrite He.
  destruct e; try done; [by destruct (Hv msg) | by destruct (Hs msg)].
Qed.








End ReadIni.



(** * Further properties *)

(** ** Frames *)

Lemma keeps_ret {A B} (f : world -> B) (a : A) : keeps f (mret a).
Proof. by intros w. Qed.

Lemma keeps_raise {A B} (f : world -> B) (e : exn) : keeps f (raise (A:=A) e).
Proof. by intros w. Qed.

Lemma keeps_bind {A A' B} (f : world -> B) (c : M A) (k : A -> M A') :
  keeps f c -> (forall a, keeps f (k a)) -> keeps f (c ≫= k).
Proof.
  intros Hc Hk w. specialize (Hc w). unfold mbind, M_bind, bind.
  destruct (c w) as [a w1|e w1|]; [|done..].
  specialize (Hk a w1).
  destruct (k a w1) as [b w2|e w2|]; [| |done]; congruence.
Qed.

Lemma keeps_lift {A B} (f : world -> B) (r : result A) : keeps f (lift r).
Proof. by destruct r. Qed.

Lemma keeps_getsize {B} (f : world -> B) (fname : string) : keeps f (getsize fname).
Proof. intros w. unfold getsize. by destruct (files w !! fname) as [[]|]. Qed.

Lemma keeps_stderr_open_w (fname : string) : keeps stderr (open_w fname).
Proof. intros w. unfold open_w. by destruct (files w !! fname) as [[]|]. Qed.

Lemma keeps_stderr_write_file (fname s : string) : keeps stderr (write_file fname s).
Proof. intros w. unfold write_file. by destruct (files w !! fname) as [[]|]. Qed.

Create HintDb keeps.

#[global] Hint Resolve keeps_ret keeps_raise keeps_lift keeps_getsize
  keeps_stderr_open_w keeps_stderr_write_file : keeps.

Ltac keeps_steps :=
  repeat first
    [ progress eauto with keeps
    | apply keeps_bind; [|intros ?]
    | match goal with
      | |- keeps _ (if ?b then _ else _) => destruct b
      | |- keeps _ (match ?x with _ => _ end) => destruct x
      end ].

Lemma keeps_stderr_writerows (fname : string) (fieldnames : list key) (rowdicts : list value) :
  keeps stderr (TextFile.writerows fname fieldnames rowdicts).
Proof.
  induction rowdicts as [|rowdict rest IH]; cbn [TextFile.writerows]; keeps_steps.
Qed.

#[global] Hint Resolve keeps_stderr_writerows : keeps.

Section Handles.
Context `{libs : PyLibs}.

(** X2. A handle that the constructor returns has one of the supported formats
    (and was built without an override), so that [write] never falls back to
    the unknown-filetype branch for it: whatever the payload and the outcome,
    nothing is added to the error stream by the write itself. *)
Theorem constructed_handle_is_supported (fname : string) (ftype : option string)
    (self : TextFile.t) :
  TextFile.__init__ fname ftype = Ok self ->
  ftype = None
  /\ TextFile.fname self = fname
  /\ TextFile.ftype self ∈ TextFile.supported
  /\ forall fdata w,
       match TextFile.write_dispatch self fdata w with
       | Return _ w' | Raise _ w' => stderr w' = stderr w
       | Running => False
       end.
Proof.
  intros Hinit. destruct ftype as [override|]; [done|].
  rewrite init_by_extension in Hinit. cbv zeta in Hinit.
  destruct (in_tuple _ TextFile.supported) eqn:Hsup; [|done].
  injection Hinit as <-. cbn [TextFile.fname TextFile.ftype].
  apply bool_decide_eq_true in Hsup.
  split; [done|]. split; [done|]. split; [done|].
  intros fdata.
  assert (Hkeeps : keeps stderr
            (TextFile.write_dispatch
               (TextFile.mk fname (lower (strip_dots (splitext fname).2))) fdata));
    [|exact Hkeeps].
  unfold TextFile.write_dispatch. cbn [TextFile.fname TextFile.ftype].
  set (ft := lower (strip_dots (splitext fname).2)) in *.
  unfold TextFile.supported in Hsup. rewrite !elem_of_cons, elem_of_nil in Hsup.
  unfold TextFile.write_csv, TextFile.write_ini, TextFile.write_json,
    TextFile.write_text, TextFile.write_yaml.
  destruct Hsup as [-> | [-> | [-> | [-> | [-> | [-> | []]]]]]];
    cbn; keeps_steps; congruence.
Qed.

End Handles.

(** [notes.txt] gives a handle of format [txt]. *)
Lemma constructed_handle_is_supported_witness :
  @None string = None
  /\ TextFile.fname (TextFile.mk "notes.txt" "txt") = "notes.txt"
  /\ TextFile.ftype (TextFile.mk "notes.txt" "txt") ∈ TextFile.supported
  /\ forall fdata w,
       match TextFile.write_dispatch (libs:=StandIn.libs) (TextFile.mk "notes.txt" "txt") fdata w with
       | Return _ w' | Raise _ w' => stderr w' = stderr w
       | Running => False
       end.
Proof.
  apply (constructed_handle_is_supported (libs:=StandIn.libs) "notes.txt" None
           (TextFile.mk "notes.txt" "txt")).
  reflexivity.
Defined.

(** ** The overwrite protocol, continued *)

(** Without a y or Y among the lines it reads, the loop answers no, or meets
    the end of the input, or is still asking; the files are untouched. *)
Lemma confirm_yn_n_without_yes (fuel : nat) (msg : string) :
  forall w : world,
    no_yes_within fuel w ->
    match TextFile.confirm_yn_n fuel msg w with
    | Return b w' => b = false /\ files w' = files w
    | Raise e w' => e = EOFError /\ files w' = files w
    | Running => True
    end.
Proof.
  induction fuel as [|fuel IH]; intros w Hno; [done|].
  rewrite confirm_yn_n_turn.
  destruct (stdin w (stdin_pos w)) as [s|] eqn:Hs; [|done].
  assert (Hy : is_yes s = false).
  { apply (Hno 0%nat); [lia | by rewrite Nat.add_0_r]. }
  rewrite Hy. destruct (is_no s); [done|].
  apply (IH (rejected1 msg w)).
  intros j s' Hj Hs'. apply (Hno (S j)); [lia|].
  cbn in Hs'. by rewrite Nat.add_succ_r.
Qed.

Section Overwrite.
Context `{libs : PyLibs}.

(** X3. Without [force], an existing file is modified only after a reply y or Y:
    as long as no such reply is among the lines read, [write] returns 0
    (cancelled), or raises [EOFError] at the end of the input, or is still
    asking, and the files are what they were. *)
Theorem write_needs_yes (fuel : nat) (self : TextFile.t) (fdata : value)
    (force : option bool) (w : world) :
  is_regular_file w (TextFile.fname self) ->
  TextFile.truthy force = false ->
  no_yes_within fuel w ->
  match TextFile.write fuel self fdata force w with
  | Return size w' => size = 0%Z /\ files w' = files w
  | Raise e w' => e = EOFError /\ files w' = files w
  | Running => True
  end.
Proof.
  intros [content Hfile] Hforce Hno. unfold TextFile.write.
  rewrite (bind_Return _ _ w w true) by (unfold isfile; by rewrite Hfile).
  rewrite Hforce. cbn [negb andb].
  pose proof (confirm_yn_n_without_yes fuel TextFile.confirm_msg w Hno) as Hloop.
  unfold mbind at 1, M_bind, bind.
  destruct (TextFile.confirm_yn_n fuel TextFile.confirm_msg w) as [b w1|e w1|]; [| |done].
  - destruct Hloop as [-> Hfiles]. cbn. done.
  - done.
Qed.

(** X4. On an existing file and without [force], once the first reply among
    y, Y, n, N and the empty line is y or Y, the overwrite is announced on
    the error stream and the write is the write itself. *)
Theorem write_accepted_overwrites (fuel k : nat) (self : TextFile.t) (fdata : value)
    (force : option bool) (w : world) (reply : string) :
  is_regular_file w (TextFile.fname self) ->
  TextFile.truthy force = false ->
  only_other_replies k w ->
  stdin w (stdin_pos w + k)%nat = Some reply ->
  reply ∈ ["y"; "Y"] ->
  (k < fuel)%nat ->
  TextFile.write fuel self fdata force w
  = TextFile.write_dispatch self fdata
      (overwriting TextFile.confirm_msg (TextFile.fname self)
         (rejected k TextFile.confirm_msg w)).
Proof.
  intros [content Hfile] Hforce Hother Hreply Hin Hfuel. unfold TextFile.write.
  rewrite (bind_Return _ _ w w true) by (unfold isfile; by rewrite Hfile).
  rewrite Hforce. cbn [negb andb].
  assert (Hy : is_yes reply = true) by (by apply bool_decide_eq_true).
  erewrite bind_Return; last first.
  { rewrite (confirm_yn_n_decides k _ w fuel reply); [by rewrite Hy | done | done | | done].
    unfold is_reply. by rewrite Hy. }
  cbn. unfold mbind, M_bind, bind, eprint, stderr_write. reflexivity.
Qed.

End Overwrite.

(** The console holds "maybe" and "n": [notes.txt] keeps its content. *)
Lemma write_needs_yes_witness :
  match TextFile.write (libs:=StandIn.libs) 5 (TextFile.mk "notes.txt" "txt") (VStr "new") None
          (example_world ["maybe"; "n"]) with
  | Return size w' => size = 0%Z /\ files w' = files (example_world ["maybe"; "n"])
  | Raise e w' => e = EOFError /\ files w' = files (example_world ["maybe"; "n"])
  | Running => True
  end.
Proof.
  apply (write_needs_yes (libs:=StandIn.libs) 5 (TextFile.mk "notes.txt" "txt") (VStr "new")
           None (example_world ["maybe"; "n"])).
  - exists "old". reflexivity.
  - reflexivity.
  - intros j s Hj Hs. cbn in Hs.
    destruct j as [|[|j]]; [by injection Hs as <- | by injection Hs as <- | done].
Defined.

(** The console holds "maybe" and "y": [notes.txt] is overwritten. *)
Lemma write_accepted_overwrites_witness :
  TextFile.write (libs:=StandIn.libs) 5 (TextFile.mk "notes.txt" "txt") (VStr "new") None
    (example_world ["maybe"; "y"])
  = TextFile.write_dispatch (libs:=StandIn.libs) (TextFile.mk "notes.txt" "txt") (VStr "new")
      (overwriting TextFile.confirm_msg "notes.txt"
         (rejected 1 TextFile.confirm_msg (example_world ["maybe"; "y"]))).
Proof.
  apply (write_accepted_overwrites (libs:=StandIn.libs) 5 1 (TextFile.mk "notes.txt" "txt")
           (VStr "new") None (example_world ["maybe"; "y"]) "y").
  - exists "old". reflexivity.
  - reflexivity.
  - intros j Hj. exists "maybe". destruct j; [done | lia].
  - reflexivity.
  - apply list_elem_of_here.
  - lia.
Defined.

(** ** Failed writes *)

Section FailedWrites.
Context `{libs : PyLibs}.

(** X5. A csv payload that is not a list starting with a dictionary is refused
    before the file is opened: the write raises (an [IndexError] for the
    empty list, an [AssertionError] otherwise) and the world, an existing file
    of that name included, is unchanged. *)
Theorem write_csv_refuses_before_opening (fuel : nat) (fname : string) (fdata : value)
    (w : world) :
  csv_payload fdata = false ->
  TextFile.write fuel (TextFile.mk fname "csv") fdata (Some true) w
  = Raise (match fdata with
           | VList [] => IndexError "list index out of range"
           | VList _ => AssertionError "Each list element must be a dictionary."
           | _ => AssertionError "Input data must be a list."
           end) w.
Proof.
  intros Hbad. rewrite write_forced. unfold TextFile.write_dispatch.
  cbn [TextFile.ftype TextFile.fname]. rewrite decide_True by done.
  apply bind_Raise. unfold TextFile.write_csv.
  destruct fdata as [| | | |l|]; try done.
  destruct l as [|[] l]; done.
Qed.

(** X6. An ini write is all or nothing: whenever it raises, for a payload that is
    no dictionary of dictionaries or that the parser object refuses, or for a
    path that cannot be opened, the world is unchanged. *)
Theorem write_ini_all_or_nothing (fuel : nat) (fname : string) (fdata : value)
    (w w' : world) (e : exn) :
  TextFile.write fuel (TextFile.mk fname "ini") fdata (Some true) w = Raise e w' ->
  w' = w.
Proof.
  rewrite write_forced. unfold TextFile.write_dispatch.
  cbn [TextFile.ftype TextFile.fname].
  rewrite decide_False by done. rewrite decide_True by done.
  unfold TextFile.write_ini. unfold mbind at 1, M_bind, bind.
  destruct fdata as [| | | | |d]; cbn; try (by intros [= _ <-]).
  unfold mbind, M_bind, bind, lift.
  destruct (TextFile.write_ini_sections ConfigParser_new d) as [ini|e0]; cbn;
    [|by intros [= _ <-]].
  unfold open_w. destruct (files w !! fname) as [[c|]|] eqn:Hfile; cbn;
    try (by intros [= _ <-]).
  - unfold write_file, getsize. cbn. rewrite !lookup_insert_eq. cbn.
    rewrite lookup_insert_eq. done.
  - unfold write_file, getsize. cbn. rewrite !lookup_insert_eq. cbn.
    rewrite lookup_insert_eq. done.
Qed.

(** X7. A json or yaml write opens the file before it serializes: when the
    serializer fails, the file has been truncated, and holds what the json
    serializer produced up to the failure, nothing for yaml. *)
Theorem failed_dump_truncates (fuel : nat) (fname : string) (fdata : value)
    (w : world) (e : exn) :
  files w !! fname ≠ Some Dir ->
  (yaml_dump fdata = Err e ->
     TextFile.write fuel (TextFile.mk fname "yaml") fdata (Some true) w
     = Raise e (with_file fname EmptyString w))
  /\ (forall text, json_dump fdata = (text, Some e) ->
        TextFile.write fuel (TextFile.mk fname "json") fdata (Some true) w
        = Raise e (with_file fname text w)).
Proof.
  intros Hno. split.
  - intros Hdump. rewrite write_forced. unfold TextFile.write_dispatch.
    cbn [TextFile.ftype TextFile.fname].
    rewrite !(decide_False (P := "yaml" = _)) by done.
    change (in_tuple "yaml" ["txt"; EmptyString]) with false. cbv iota.
    rewrite decide_True by done.
    apply bind_Raise. unfold TextFile.write_yaml.
    erewrite bind_Return by (by apply open_w_ok).
    apply bind_Raise. by rewrite Hdump.
  - intros text Hdump. rewrite write_forced. unfold TextFile.write_dispatch.
    cbn [TextFile.ftype TextFile.fname].
    rewrite !(decide_False (P := "json" = "csv")) by done.
    rewrite !(decide_False (P := "json" = "ini")) by done.
    rewrite decide_True by done.
    apply bind_Raise. unfold TextFile.write_json.
    erewrite bind_Return by (by apply open_w_ok).
    rewrite Hdump. cbn [fst snd].
    erewrite bind_Return by apply write_file_ok.
    reflexivity.
Qed.

End FailedWrites.

(** The empty list is refused with an [IndexError]; [notes.txt] is as before. *)
Lemma write_csv_refuses_before_opening_witness :
  TextFile.write (libs:=StandIn.libs) 0 (TextFile.mk "notes.txt" "csv") (VList []) (Some true)
    (example_world [])
  = Raise (IndexError "list index out of range") (example_world []).
Proof.
  apply (write_csv_refuses_before_opening (libs:=StandIn.libs) 0 "notes.txt" (VList [])
           (example_world [])).
  reflexivity.
Defined.

(** A string is no ini payload: the write raises and changes nothing. *)
Lemma write_ini_all_or_nothing_witness :
  TextFile.write (libs:=StandIn.libs) 0 (TextFile.mk "notes.txt" "ini") (VStr "x") (Some true)
    (example_world [])
  = Raise (AssertionError "Input data must be a dictionary.") (example_world [])
  /\ example_world [] = example_world [].
Proof.
  split; [reflexivity|].
  apply (write_ini_all_or_nothing (libs:=StandIn.libs) 0 "notes.txt" (VStr "x")
           (example_world []) (example_world [])
           (AssertionError "Input data must be a dictionary.")).
  reflexivity.
Defined.

(** The stand-in has no yaml: the write fails and [notes.txt] is left empty. *)
Lemma failed_dump_truncates_witness :
  TextFile.write (libs:=StandIn.libs) 0 (TextFile.mk "notes.txt" "yaml") (VStr "x") (Some true)
    (example_world [])
  = Raise (OtherError "YAMLError" "could not dump")
      (with_file "notes.txt" EmptyString (example_world [])).
Proof.
  refine (proj1 (failed_dump_truncates (libs:=StandIn.libs) 0 "notes.txt" (VStr "x")
                   (example_world []) (OtherError "YAMLError" "could not dump") _) _).
  - vm_compute. discriminate.
  - reflexivity.
Defined.

(** ** Text files *)

Lemma universal_newlines_no_cr (s : string) :
  no_cr s = true -> universal_newlines s = s.
Proof.
  unfold no_cr. induction s as [|c s IH]; [done|].
  cbn [csv.str_exists]. rewrite negb_orb. intros [Hc Hs]%andb_prop.
  apply negb_true_iff in Hc. cbn [universal_newlines]. rewrite Hc.
  f_equal. by apply IH.
Qed.

Section TextRoundTrip.
Context `{libs : PyLibs}.

(** X8. Text round trip: a handle of format [txt], or of no extension, writes the
    [str] of the payload and returns its length in bytes; reading the file
    back gives that text as a string, provided it has no carriage return
    (which reading in text mode would turn into a line feed). The payload is
    a string, an integer, a boolean or [None], or a list or dictionary in
    which every string is ASCII. A string payload comes back as it was. *)
Theorem text_round_trip (fuel : nat) (fname ftype : string) (fdata : value) (w : world) :
  ftype ∈ ["txt"; EmptyString] ->
  files w !! fname ≠ Some Dir ->
  exact_text fdata = true ->
  no_cr (str fdata) = true ->
  TextFile.write fuel (TextFile.mk fname ftype) fdata (Some true) w
  = Return (Z.of_nat (String.length (str fdata))) (with_file fname (str fdata) w)
  /\ TextFile.read (TextFile.mk fname ftype) (with_file fname (str fdata) w)
     = Return (VStr (str fdata)) (with_file fname (str fdata) w).
Proof.
  intros Hft Hno _ Hcr.
  assert (Hdisp : forall (A : Type) (a b c d e : M A),
            (if decide (ftype = "csv") then a
             else if decide (ftype = "ini") then b
             else if decide (ftype = "json") then c
             else if in_tuple ftype ["txt"; EmptyString] then d
             else e) = d).
  { intros A a b c d e. rewrite !elem_of_cons, elem_of_nil in Hft.
    destruct Hft as [-> | [-> | []]]; reflexivity. }
  split.
  - rewrite write_forced. unfold TextFile.write_dispatch.
    cbn [TextFile.ftype TextFile.fname]. rewrite Hdisp.
    unfold TextFile.write_text.
    erewrite bind_Return; last first.
    { erewrite bind_Return by (by apply open_w_ok).
      erewrite bind_Return by apply write_file_ok.
      reflexivity. }
    apply getsize_ok.
  - unfold TextFile.read. cbn [TextFile.ftype TextFile.fname].
    erewrite bind_Return by apply isfile_ok.
    cbn [Sys.assert]. erewrite bind_Return by reflexivity.
    rewrite Hdisp. unfold TextFile.read_text.
    erewrite bind_Return by apply read_file_ok.
    by rewrite universal_newlines_no_cr.
Qed.

End TextRoundTrip.

(** "new" replaces "old" in [notes.txt] and is read back. *)
Lemma text_round_trip_witness :
  TextFile.write (libs:=StandIn.libs) 0 (TextFile.mk "notes.txt" "txt") (VStr "new") (Some true)
    (example_world [])
  = Return 3%Z (with_file "notes.txt" "new" (example_world []))
  /\ TextFile.read (libs:=StandIn.libs) (TextFile.mk "notes.txt" "txt")
       (with_file "notes.txt" "new" (example_world []))
     = Return (VStr "new") (with_file "notes.txt" "new" (example_world [])).
Proof.
  apply (text_round_trip (libs:=StandIn.libs) 0 "notes.txt" "txt" (VStr "new") (example_world [])).
  - apply list_elem_of_here.
  - vm_compute. discriminate.
  - reflexivity.
  - reflexivity.
Defined.

(** ** The calendar, continued *)

Section Calendar2.
Import moratorium calendar calendar2.
Local Open Scope Z_scope.

Ltac weekday_cases a :=
  let Ha := fresh in
  match goal with
  | H : 0 <= a < 7 |- _ =>
      assert (Ha : a = 0 \/ a = 1 \/ a = 2 \/ a = 3 \/ a = 4 \/ a = 5 \/ a = 6) by lia;
      clear H;
      destruct Ha as [-> | [-> | [-> | [-> | [-> | [-> | ->]]]]]]
  end.

Ltac eval_getitem :=
  match goal with
  | |- context [getitem ?l ?i] =>
      let r := eval vm_compute in (getitem l i) in
      change (getitem l i) with r
  end.

Lemma month_yday0_eq (year month : Z) :
  month_yday0 year month = days_before_month year month.
Proof. unfold month_yday0, ymd2ord. change (days_before_month year 1) with 0. lia. Qed.

Lemma days_in_month_pos (year month : Z) : 28 <= days_in_month year month <= 31.
Proof. destruct (days_in_month_cases year month) as [? | [? | [? | ?]]]; lia. Qed.

(** A date that exists has a day-of-year; any other raises [ValueError]. *)
Lemma make_day_julian_valid (year month day : Z) :
  1000 <= year <= 9999 -> 1 <= month <= 12 -> 1 <= day <= days_in_month year month ->
  make_day_julian (year, month, day) = Ok (days_before_month year month + day).
Proof.
  intros Hy Hm Hd. unfold make_day_julian. cbn [fst snd].
  rewrite strptime_month by done.
  replace (1 <=? day) with true by (symmetry; apply Z.leb_le; lia).
  replace (day <=? days_in_month year month) with true by (symmetry; apply Z.leb_le; lia).
  cbn. unfold strftime_j. cbn. by rewrite month_yday0_eq.
Qed.

(** The list of a month, by the month's length. *)
Lemma month_days_omap (dim J : Z) :
  dim = 28 \/ dim = 29 \/ dim = 30 \/ dim = 31 ->
  omap (fun d => if (1 <=? d) && (d <=? dim) then Some (J + d) else None) month_days
  = Z.add J <$> seqZ 1 dim.
Proof. intros [-> | [-> | [-> | ->]]]; reflexivity. Qed.

Lemma omap_none {A B} (f : A -> option B) (l : list A) :
  (forall x, f x = None) -> omap f l = [].
Proof. intros Hf. induction l as [|x l IH]; [done|]. cbn. by rewrite Hf. Qed.

Lemma make_month_julian_valid (year month : Z) :
  1000 <= year <= 9999 -> 1 <= month <= 12 ->
  make_month_julian year month
  = seqZ (days_before_month year month + 1) (days_in_month year month).
Proof.
  intros Hy Hm. unfold make_month_julian.
  rewrite (omap_ext_all _
    (fun d => if (1 <=? d) && (d <=? days_in_month year month)
              then Some (days_before_month year month + d) else None)).
  - rewrite month_days_omap by apply days_in_month_cases.
    by rewrite fmap_add_seqZ.
  - intros d. rewrite strptime_month by done.
    destruct ((1 <=? d) && (d <=? days_in_month year month)); [|done].
    cbn. unfold strftime_j. cbn. by rewrite month_yday0_eq.
Qed.

(** X9. [make_month_julian]: for a month that exists, the list has one entry per
    day of the month, and these are consecutive day-of-year numbers that
    start with the number of the first of the month. For a year outside
    1000..9999 or a month outside 1..12 every [ValueError] is swallowed and
    the list is empty. *)
Theorem make_month_julian_consecutive (year month : Z) :
  (1000 <= year <= 9999 -> 1 <= month <= 12 ->
     exists first,
       make_day_julian (year, month, 1) = Ok first
       /\ make_month_julian year month = seqZ first (days_in_month year month)
       /\ List.length (make_month_julian year month) = Z.to_nat (days_in_month year month))
  /\ (~ (1000 <= year <= 9999 /\ 1 <= month <= 12) -> make_month_julian year month = []).
Proof.
  split.
  - intros Hy Hm. exists (days_before_month year month + 1).
    pose proof (days_in_month_pos year month).
    split; [apply make_day_julian_valid; lia|].
    rewrite make_month_julian_valid by done. split; [done|]. apply length_seqZ.
  - intros Hbad. unfold make_month_julian. apply omap_none. intros d.
    unfold strptime.
    destruct ((1000 <=? year) && (year <=? 9999) && (1 <=? month) && (month <=? 12)) eqn:Hok.
    + exfalso. apply Hbad. repeat (apply andb_prop in Hok as [Hok ?]). lia.
    + done.
Qed.

Lemma elem_of_drop_seqZ (x m n : Z) (k : nat) :
  x ∈ drop k (seqZ m n) <-> m + Z.of_nat k <= x < m + n.
Proof.
  rewrite list_elem_of_lookup. setoid_rewrite lookup_drop. setoid_rewrite lookup_seqZ.
  split.
  - intros (i & -> & Hi). lia.
  - intros Hx. exists (Z.to_nat (x - m - Z.of_nat k)). lia.
Qed.

(** X10. [is_eom]: for the date [day] of a month of [dim] days, the answer is
    whether [day] lies behind the start of the slice [jcal[-end_days:]]. So
    with [end_days] from 1 to [dim] it is true exactly on the last
    [end_days] days of the month (the last three by default); with
    [end_days = 0] the slice is the whole month and it is true on every day;
    with a negative [end_days] it is true on all but the first [-end_days]
    days. *)
Theorem is_eom_slice (gmtime : struct_time) (year month day end_days : Z) (dt : struct_time) :
  strptime year month day = Some dt ->
  is_eom gmtime (Some dt) end_days
  = bool_decide (slice_start (days_in_month year month) end_days < day)
  /\ (1 <= end_days <= days_in_month year month ->
        is_eom gmtime (Some dt) end_days
        = bool_decide (days_in_month year month - end_days < day))
  /\ (end_days = 0 -> is_eom gmtime (Some dt) end_days = true).
Proof.
  intros Hdt.
  assert (Hvalid : (1000 <= year <= 9999) /\ (1 <= month <= 12)
                   /\ 1 <= day <= days_in_month year month).
  { unfold strptime in Hdt.
    destruct ((1000 <=? year) && (year <=? 9999) && (1 <=? month) && (month <=? 12)
              && (1 <=? day) && (day <=? days_in_month year month)) eqn:Hok; [|done].
    repeat (apply andb_prop in Hok as [Hok ?]). lia. }
  destruct Hvalid as (Hy & Hm & Hd).
  pose proof (days_in_month_pos year month) as Hdim.
  assert (Hmain : is_eom gmtime (Some dt) end_days
                  = bool_decide (slice_start (days_in_month year month) end_days < day)).
  { rewrite strptime_month in Hdt by done.
    replace ((1 <=? day) && (day <=? days_in_month year month)) with true in Hdt
      by (symmetry; apply andb_true_intro; split; apply Z.leb_le; lia).
    injection Hdt as <-. unfold is_eom. cbn [from_option id tm_year tm_mon].
    unfold strftime_j. cbn [tm_yday]. rewrite make_month_julian_valid by done.
    rewrite month_yday0_eq.
    match goal with |- (if ?b then true else false) = _ => destruct b eqn:Hb end.
    - symmetry. apply bool_decide_eq_true. apply bool_decide_eq_true in Hb.
      unfold last_slice in Hb. rewrite length_seqZ in Hb.
      rewrite Z2Nat.id in Hb by lia. apply elem_of_drop_seqZ in Hb.
      unfold slice_start.
      destruct (- end_days <? 0) eqn:H1; destruct (0 <? end_days) eqn:H2; lia.
    - symmetry. apply bool_decide_eq_false. apply bool_decide_eq_false in Hb.
      intros Hlt. apply Hb. unfold last_slice. rewrite length_seqZ.
      rewrite Z2Nat.id by lia. apply elem_of_drop_seqZ.
      unfold slice_start in Hlt.
      destruct (- end_days <? 0) eqn:H1; destruct (0 <? end_days) eqn:H2; lia. }
  split; [exact Hmain|]. split.
  - intros Hn. rewrite Hmain. unfold slice_start.
    replace (0 <? end_days) with true by (symmetry; apply Z.ltb_lt; lia).
    by replace (Z.max (days_in_month year month - end_days) 0)
      with (days_in_month year month - end_days) by lia.
  - intros ->. rewrite Hmain. apply bool_decide_eq_true. unfold slice_start. cbn. lia.
Qed.

(** January 30 of 2000 is within the last two days of its month. *)
Lemma is_eom_slice_witness :
  is_eom nov_22_2018 (Some (mk_time 2000 1 30 6 30)) 2
  = bool_decide (slice_start (days_in_month 2000 1) 2 < 30)
  /\ (1 <= 2 <= days_in_month 2000 1 ->
        is_eom nov_22_2018 (Some (mk_time 2000 1 30 6 30)) 2
        = bool_decide (days_in_month 2000 1 - 2 < 30))
  /\ (2 = 0 -> is_eom nov_22_2018 (Some (mk_time 2000 1 30 6 30)) 2 = true).
Proof.
  apply (is_eom_slice nov_22_2018 2000 1 30 2 (mk_time 2000 1 30 6 30)).
  reflexivity.
Defined.

(** January of 2000 has 31 days, numbered 1 to 31 in the year. *)
Lemma make_month_julian_consecutive_witness :
  exists first,
    make_day_julian (2000, 1, 1) = Ok first
    /\ make_month_julian 2000 1 = seqZ first (days_in_month 2000 1)
    /\ List.length (make_month_julian 2000 1) = Z.to_nat (days_in_month 2000 1).
Proof.
  apply (proj1 (make_month_julian_consecutive 2000 1)); lia.
Defined.

(** The occurrences of a weekday in a month, over the weekdays of the
    month's day 0 and the lengths of a month. *)
Lemma nth_weekday_cases (a dim J wd n : Z) :
  0 <= a < 7 -> dim = 28 \/ dim = 29 \/ dim = 30 \/ dim = 31 ->
  0 <= wd < 7 -> 1 <= n <= 4 ->
  exists d,
    7 * (n - 1) < d <= 7 * n
    /\ on_weekday a dim wd d = true
    /\ List.length (filter (fun x => on_weekday a dim wd x = true) (seqZ 1 d)) = Z.to_nat n
    /\ getitem (days_matched_in (day_name wd) a dim J) (n - 1) = Ok (J + d).
Proof.
  intros Ha Hdim Hwd Hn.
  exists (7 * (n - 1) + (wd - a - 1) mod 7 + 1).
  assert (Hn' : n = 1 \/ n = 2 \/ n = 3 \/ n = 4) by lia. clear Hn.
  destruct Hdim as [-> | [-> | [-> | ->]]];
    destruct Hn' as [-> | [-> | [-> | ->]]];
    weekday_cases a; weekday_cases wd;
    (split; [vm_compute; split; [reflexivity | discriminate]|];
     split; [reflexivity|]; split; [vm_compute; reflexivity|];
     eval_getitem; reflexivity).
Qed.

Lemma last_weekday_cases (a dim J wd : Z) :
  0 <= a < 7 -> dim = 28 \/ dim = 29 \/ dim = 30 \/ dim = 31 -> 0 <= wd < 7 ->
  exists d,
    dim - 7 < d <= dim
    /\ on_weekday a dim wd d = true
    /\ getitem (days_matched_in (day_name wd) a dim J) (-1) = Ok (J + d).
Proof.
  intros Ha Hdim Hwd.
  exists (dim - (a + dim - wd) mod 7).
  destruct Hdim as [-> | [-> | [-> | ->]]]; weekday_cases a; weekday_cases wd;
    (split; [vm_compute; split; [reflexivity | discriminate]|];
     split; [reflexivity|]; eval_getitem; reflexivity).
Qed.

Lemma on_weekday_spec (a dim wd d : Z) :
  on_weekday a dim wd d = true <-> 1 <= d <= dim /\ (a + d) mod 7 = wd.
Proof.
  unfold on_weekday. rewrite !andb_true_iff, !Z.leb_le, Z.eqb_eq. tauto.
Qed.

(** X11. [get_nth_day]: in a month that exists and for a weekday name, the result
    for [n] from 1 to 4 is the day-of-year of the [n]-th day of the month that
    falls on that weekday, and never fails; the result for [n = -1] is that of
    the last such day of the month, and [n = 0] is not refused but selects
    the last one as well. *)
Theorem get_nth_day_occurrence (wd year month : Z) :
  1000 <= year <= 9999 -> 1 <= month <= 12 -> 0 <= wd <= 6 ->
  (forall n, 1 <= n <= 4 ->
     exists d j,
       nth_weekday_of_month n wd year month d
       /\ make_day_julian (year, month, d) = Ok j
       /\ get_nth_day (day_name wd) n year month = Ok j)
  /\ (exists d j,
        last_weekday_of_month wd year month d
        /\ make_day_julian (year, month, d) = Ok j
        /\ get_nth_day (day_name wd) (-1) year month = Ok j
        /\ get_nth_day (day_name wd) 0 year month = Ok j).
Proof.
  intros Hy Hm Hwd. split.
  - intros n Hn.
    destruct (nth_weekday_cases (month_wday0 year month) (days_in_month year month)
                (month_yday0 year month) wd n)
      as (d & Hd & Hon & Hcount & Hget);
      [apply month_wday0_range | apply days_in_month_cases | lia | done |].
    exists d, (days_before_month year month + d).
    pose proof (proj1 (on_weekday_spec _ _ _ _) Hon) as [Hrange _].
    split; [|split].
    + split; [by rewrite falls_on_weekday|].
      rewrite (list_filter_iff _
        (fun x => on_weekday (month_wday0 year month) (days_in_month year month) wd x = true)).
      * rewrite Hcount. lia.
      * intros x. by rewrite falls_on_weekday.
    + by apply make_day_julian_valid.
    + rewrite get_nth_day_nth by (done || lia). rewrite Hget.
      by rewrite month_yday0_eq.
  - destruct (last_weekday_cases (month_wday0 year month) (days_in_month year month)
                (month_yday0 year month) wd)
      as (d & Hd & Hon & Hget);
      [apply month_wday0_range | apply days_in_month_cases | lia |].
    exists d, (days_before_month year month + d).
    pose proof (proj1 (on_weekday_spec _ _ _ _) Hon) as [Hrange Hmod].
    split; [|split; [|split]].
    + split; [by rewrite falls_on_weekday|].
      intros later Hlater. rewrite falls_on_weekday by done.
      destruct (on_weekday (month_wday0 year month) (days_in_month year month) wd later)
        eqn:Hl; [|done].
      apply on_weekday_spec in Hl as [Hlr Hlm]. exfalso.
      clear -Hd Hlater Hlr Hmod Hlm. Z.div_mod_to_equations. lia.
    + by apply make_day_julian_valid.
    + rewrite get_nth_day_last by done. rewrite Hget. by rewrite month_yday0_eq.
    + rewrite get_nth_day_nth by (done || lia). change (0 - 1) with (-1).
      rewrite Hget. by rewrite month_yday0_eq.
Qed.

(** The Mondays of January 2018: the third is the 15th, the last the 29th. *)
Lemma get_nth_day_occurrence_witness :
  (forall n, 1 <= n <= 4 ->
     exists d j,
       nth_weekday_of_month n 0 2018 1 d
       /\ make_day_julian (2018, 1, d) = Ok j
       /\ get_nth_day (day_name 0) n 2018 1 = Ok j)
  /\ (exists d j,
        last_weekday_of_month 0 2018 1 d
        /\ make_day_julian (2018, 1, d) = Ok j
        /\ get_nth_day (day_name 0) (-1) 2018 1 = Ok j
        /\ get_nth_day (day_name 0) 0 2018 1 = Ok j).
Proof. apply (get_nth_day_occurrence 0 2018 1); lia. Defined.

(** *** Day-of-year numbers *)

Lemma make_day_julian_inv (year month day j : Z) :
  make_day_julian (year, month, day) = Ok j ->
  1000 <= year <= 9999 /\ 1 <= month <= 12 /\ 1 <= day <= days_in_month year month
  /\ j = days_before_month year month + day.
Proof.
  intros Hj.
  assert (Hvalid : 1000 <= year <= 9999 /\ 1 <= month <= 12
                   /\ 1 <= day <= days_in_month year month).
  { unfold make_day_julian, strptime in Hj. cbn [fst snd] in Hj.
    destruct ((1000 <=? year) && (year <=? 9999) && (1 <=? month) && (month <=? 12)
              && (1 <=? day) && (day <=? days_in_month year month)) eqn:Hok; [|done].
    repeat (apply andb_prop in Hok as [Hok ?]). lia. }
  destruct Hvalid as (Hy & Hm & Hd).
  rewrite make_day_julian_valid in Hj by done. injection Hj as <-. done.
Qed.

Ltac month_cases m :=
  let Hm := fresh in
  match goal with
  | H : 1 <= m <= 12 |- _ =>
      assert (Hm : m = 1 \/ m = 2 \/ m = 3 \/ m = 4 \/ m = 5 \/ m = 6 \/ m = 7
                   \/ m = 8 \/ m = 9 \/ m = 10 \/ m = 11 \/ m = 12) by lia;
      clear H;
      destruct Hm as [-> | [-> | [-> | [-> | [-> | [-> | [-> | [-> | [-> | [-> | [-> | ->]]]]]]]]]]]
  end.

(** A month ends before any later month begins. *)
Lemma days_before_month_mono (year m1 m2 : Z) :
  1 <= m1 <= 12 -> 1 <= m2 <= 12 -> m1 < m2 ->
  days_before_month year m1 + days_in_month year m1 <= days_before_month year m2.
Proof.
  intros H1 H2 Hlt. unfold days_before_month, days_in_month.
  destruct (is_leap year); month_cases m1; month_cases m2;
    first [lia | vm_compute; discriminate].
Qed.

(** X12. [make_day_julian] keeps the order of the dates of a year: of two
    dates of one year that exist (the year written with four digits, from
    1000 on), the earlier has the smaller day-of-year, so that different dates
    never get the same number; the numbers lie between 1 and 366. *)
Theorem make_day_julian_order (year m1 d1 m2 d2 j1 j2 : Z) :
  make_day_julian (year, m1, d1) = Ok j1 ->
  make_day_julian (year, m2, d2) = Ok j2 ->
  (j1 < j2 <-> earlier m1 d1 m2 d2)
  /\ (j1 = j2 <-> m1 = m2 /\ d1 = d2)
  /\ 1 <= j1 <= 366.
Proof.
  intros (Hy & Hm1 & Hd1 & ->)%make_day_julian_inv
         (_ & Hm2 & Hd2 & ->)%make_day_julian_inv.
  pose proof (days_before_month_bound year m1 d1 Hm1 Hd1) as Hb.
  unfold earlier.
  destruct (Z.lt_trichotomy m1 m2) as [Hlt | [-> | Hgt]].
  - pose proof (days_before_month_mono year m1 m2 Hm1 Hm2 Hlt).
    repeat split; lia.
  - repeat split; lia.
  - pose proof (days_before_month_mono year m2 m1 Hm2 Hm1 Hgt).
    repeat split; lia.
Qed.

(** November 22 comes before December 25. *)
Lemma make_day_julian_order_witness :
  (326 < 359 <-> earlier 11 22 12 25)
  /\ (326 = 359 <-> 11 = 12 /\ 22 = 25)
  /\ 1 <= 326 <= 366.
Proof.
  apply (make_day_julian_order 2018 11 22 12 25 326 359); reflexivity.
Defined.

(** *** The table of holidays *)

Lemma count_members (l : list Z) (lo n : Z) :
  NoDup l -> (forall x, x ∈ l -> lo <= x < lo + n) ->
  List.length (filter (fun j => j ∈ l) (seqZ lo n)) = List.length l.
Proof.
  intros Hnd Hin. apply Permutation_length. apply NoDup_Permutation.
  - apply NoDup_filter, NoDup_seqZ.
  - done.
  - intros x. rewrite list_elem_of_filter, elem_of_seqZ.
    split; [by intros [? _] | intros Hx; split; [done | by apply Hin]].
Qed.

(** The table with the ranges of its entries. *)
Lemma holidays_ranges (this_year : Z) :
  1000 <= this_year <= 9999 ->
  exists leap d1 d2 d3 d4 d5,
    0 <= leap <= 1 /\ 15 <= d1 <= 21 /\ 15 <= d2 <= 21 /\ 25 <= d3 <= 31
    /\ 1 <= d4 <= 7 /\ 22 <= d5 <= 28
    /\ holidays this_year = Ok
         [(KStr "New Year's Day", 1);
          (KStr "Martin Luther King Jr Day", d1);
          (KStr "Presidents Day", 31 + d2);
          (KStr "Memorial Day", 120 + leap + d3);
          (KStr "Independence Day", 181 + leap + 4);
          (KStr "Labor Day", 243 + leap + d4);
          (KStr "Thanksgiving", 304 + leap + d5);
          (KStr "Thanksgiving Friday", 304 + leap + d5 + 1);
          (KStr "Christmas", 334 + leap + 25)].
Proof.
  intros Hy.
  destruct (nth_weekday_cases (month_wday0 this_year 1) (days_in_month this_year 1)
              (month_yday0 this_year 1) 0 3)
    as (d1 & Hd1 & _ & _ & H1);
    [apply month_wday0_range | apply days_in_month_cases | lia | lia |].
  destruct (nth_weekday_cases (month_wday0 this_year 2) (days_in_month this_year 2)
              (month_yday0 this_year 2) 0 3)
    as (d2 & Hd2 & _ & _ & H2);
    [apply month_wday0_range | apply days_in_month_cases | lia | lia |].
  destruct (last_weekday_cases (month_wday0 this_year 5) (days_in_month this_year 5)
              (month_yday0 this_year 5) 0)
    as (d3 & Hd3 & _ & H3);
    [apply month_wday0_range | apply days_in_month_cases | lia |].
  destruct (nth_weekday_cases (month_wday0 this_year 9) (days_in_month this_year 9)
              (month_yday0 this_year 9) 0 1)
    as (d4 & Hd4 & _ & _ & H4);
    [apply month_wday0_range | apply days_in_month_cases | lia | lia |].
  destruct (nth_weekday_cases (month_wday0 this_year 11) (days_in_month this_year 11)
              (month_yday0 this_year 11) 3 4)
    as (d5 & Hd5 & _ & _ & H5);
    [apply month_wday0_range | apply days_in_month_cases | lia | lia |].
  change (day_name 0) with "Monday"%string in H1, H2, H3, H4.
  change (day_name 3) with "Thursday"%string in H5.
  change (days_in_month this_year 5) with 31 in Hd3.
  exists (if is_leap this_year then 1 else 0), d1, d2, d3, d4, d5.
  split; [destruct (is_leap this_year); lia|].
  split; [lia|]. split; [lia|]. split; [lia|]. split; [lia|]. split; [lia|].
  unfold holidays.
  rewrite !make_day_julian_valid by (try lia; pose proof (days_in_month_pos this_year 1);
    pose proof (days_in_month_pos this_year 7); pose proof (days_in_month_pos this_year 12); lia).
  rewrite get_nth_day_last by lia.
  rewrite !get_nth_day_nth by lia.
  rewrite H1, H2, H3, H4, H5.
  rewrite !month_yday0_eq.
  change (days_before_month this_year 1) with 0.
  change (days_before_month this_year 2) with 31.
  change (days_before_month this_year 5) with (120 + if is_leap this_year then 1 else 0).
  change (days_before_month this_year 7) with (181 + if is_leap this_year then 1 else 0).
  change (days_before_month this_year 9) with (243 + if is_leap this_year then 1 else 0).
  change (days_before_month this_year 11) with (304 + if is_leap this_year then 1 else 0).
  change (days_before_month this_year 12) with (334 + if is_leap this_year then 1 else 0).
  reflexivity.
Qed.

(** X13. The table of holidays, in every year the module can load: it has the
    nine names in the order of the source; its day-of-year numbers lie
    between 1 and 360 and no two of them are equal, so that exactly nine of
    the days 1 to 365 are holidays; New Year's Day is day 1 and Thanksgiving
    Friday is the day after Thanksgiving. *)
Theorem holidays_distinct_days (this_year : Z) :
  1000 <= this_year <= 9999 ->
  exists table thx,
    holidays this_year = Ok table
    /\ map fst table = holiday_names
    /\ NoDup (map snd table)
    /\ (forall j, j ∈ map snd table -> 1 <= j <= 360)
    /\ List.length (filter (fun j => j ∈ map snd table) (seqZ 1 365)) = 9%nat
    /\ dict_get (KStr "New Year's Day") table = Some 1
    /\ dict_get (KStr "Thanksgiving") table = Some thx
    /\ dict_get (KStr "Thanksgiving Friday") table = Some (thx + 1).
Proof.
  intros Hy.
  destruct (holidays_ranges this_year Hy)
    as (leap & d1 & d2 & d3 & d4 & d5 & Hl & H1 & H2 & H3 & H4 & H5 & Htable).
  eexists _, (304 + leap + d5). split; [exact Htable|].
  assert (Hnd : NoDup [1; d1; 31 + d2; 120 + leap + d3; 181 + leap + 4; 243 + leap + d4;
                       304 + leap + d5; 304 + leap + d5 + 1; 334 + leap + 25]).
  { repeat (apply NoDup_cons; split; [rewrite ?elem_of_cons, elem_of_nil; lia|]).
    apply NoDup_nil_2. }
  assert (Hin : forall j, j ∈ [1; d1; 31 + d2; 120 + leap + d3; 181 + leap + 4;
                               243 + leap + d4; 304 + leap + d5; 304 + leap + d5 + 1;
                               334 + leap + 25] -> 1 <= j <= 360).
  { intros j. rewrite !elem_of_cons, elem_of_nil. lia. }
  split; [reflexivity|]. split; [exact Hnd|]. split; [exact Hin|].
  split; [|split; [reflexivity | split; reflexivity]].
  cbn [map snd]. rewrite count_members; [reflexivity | exact Hnd |].
  intros x Hx. specialize (Hin x Hx). lia.
Qed.

(** In 2018: Thanksgiving is day 326 and its Friday day 327. *)
Lemma holidays_distinct_days_witness :
  exists table thx,
    holidays 2018 = Ok table
    /\ map fst table = holiday_names
    /\ NoDup (map snd table)
    /\ (forall j, j ∈ map snd table -> 1 <= j <= 360)
    /\ List.length (filter (fun j => j ∈ map snd table) (seqZ 1 365)) = 9%nat
    /\ dict_get (KStr "New Year's Day") table = Some 1
    /\ dict_get (KStr "Thanksgiving") table = Some thx
    /\ dict_get (KStr "Thanksgiving Friday") table = Some (thx + 1).
Proof. apply (holidays_distinct_days 2018). lia. Defined.

(** *** A fifth occurrence *)

Lemma fifth_weekday_cases (a dim J wd : Z) :
  0 <= a < 7 -> dim = 28 \/ dim = 29 \/ dim = 30 \/ dim = 31 -> 0 <= wd < 7 ->
  exists d,
    1 <= d <= 7
    /\ on_weekday a dim wd d = true
    /\ List.length (filter (fun x => on_weekday a dim wd x = true) (seqZ 1 d)) = 1%nat
    /\ getitem (days_matched_in (day_name wd) a dim J) (5 - 1)
       = if d + 28 <=? dim then Ok (J + (d + 28))
         else Err (IndexError "list index out of range").
Proof.
  intros Ha Hdim Hwd.
  exists ((wd - a - 1) mod 7 + 1).
  destruct Hdim as [-> | [-> | [-> | ->]]]; weekday_cases a; weekday_cases wd;
    (split; [vm_compute; split; discriminate|];
     split; [reflexivity|]; split; [vm_compute; reflexivity|];
     eval_getitem; reflexivity).
Qed.

(** X14. [get_nth_day] with [n = 5]: the fifth occurrence is 28 days after the
    first. When that day is still in the month the result is its
    day-of-year; when it is not, as for every weekday of a February of 28
    days, the call raises [IndexError]. *)
Theorem get_nth_day_fifth (wd year month : Z) :
  1000 <= year <= 9999 -> 1 <= month <= 12 -> 0 <= wd <= 6 ->
  exists first,
    nth_weekday_of_month 1 wd year month first
    /\ get_nth_day (day_name wd) 5 year month
       = (if first + 28 <=? days_in_month year month
          then make_day_julian (year, month, first + 28)
          else Err (IndexError "list index out of range"))
    /\ (days_in_month year month = 28 ->
        get_nth_day (day_name wd) 5 year month
        = Err (IndexError "list index out of range")).
Proof.
  intros Hy Hm Hwd.
  destruct (fifth_weekday_cases (month_wday0 year month) (days_in_month year month)
              (month_yday0 year month) wd)
    as (d & Hd & Hon & Hcount & Hget);
    [apply month_wday0_range | apply days_in_month_cases | lia |].
  exists d.
  assert (Hfifth : get_nth_day (day_name wd) 5 year month
                   = (if d + 28 <=? days_in_month year month
                      then make_day_julian (year, month, d + 28)
                      else Err (IndexError "list index out of range"))).
  { rewrite get_nth_day_nth by (done || lia). rewrite Hget.
    destruct (Z.leb_spec (d + 28) (days_in_month year month)); [|done].
    rewrite make_day_julian_valid by (done || lia). by rewrite month_yday0_eq. }
  split; [|split; [exact Hfifth|]].
  - split; [by rewrite falls_on_weekday|].
    rewrite (list_filter_iff _
      (fun x => on_weekday (month_wday0 year month) (days_in_month year month) wd x = true)).
    + by rewrite Hcount.
    + intros x. by rewrite falls_on_weekday.
  - intros Hdim. rewrite Hfifth, Hdim.
    destruct (Z.leb_spec (d + 28) 28); [lia | done].
Qed.

(** February 2018 has four Mondays. *)
Lemma get_nth_day_fifth_witness :
  exists first,
    nth_weekday_of_month 1 0 2018 2 first
    /\ get_nth_day (day_name 0) 5 2018 2
       = (if first + 28 <=? days_in_month 2018 2
          then make_day_julian (2018, 2, first + 28)
          else Err (IndexError "list index out of range"))
    /\ (days_in_month 2018 2 = 28 ->
        get_nth_day (day_name 0) 5 2018 2
        = Err (IndexError "list index out of range")).
Proof. apply (get_nth_day_fifth 0 2018 2); lia. Defined.

End Calendar2.

(** ** The format of a path *)

Section PathFormat.
Local Open Scope Z_scope.

Lemma length_append (a b : string) :
  String.length (a ++ b) = (String.length a + String.length b)%nat.
Proof.
  induction a as [|x a IH]; [done|].
  change (S (String.length (a ++ b)) = S (String.length a + String.length b)). by f_equal.
Qed.

Lemma append_cons (x : ascii) (a b : string) : String x a ++ b = String x (a ++ b).
Proof. reflexivity. Qed.

Lemma rfind_from_app (c : ascii) (s1 s2 : string) (i last : Z) :
  rfind_from c (s1 ++ s2) i last
  = rfind_from c s2 (i + Z.of_nat (String.length s1)) (rfind_from c s1 i last).
Proof.
  revert i last. induction s1 as [|x s1 IH]; intros i last.
  - cbn. by rewrite Z.add_0_r.
  - rewrite append_cons. cbn [rfind_from String.length]. rewrite IH. f_equal. lia.
Qed.

Lemma rfind_from_lacks (c : ascii) (s : string) (i last : Z) :
  lacks c s = true -> rfind_from c s i last = last.
Proof.
  unfold lacks. revert i last. induction s as [|x s IH]; intros i last Hs; [done|].
  cbn in Hs |- *. destruct (Ascii.eqb c x); [done|]. by apply IH.
Qed.

Lemma rfind_from_range (c : ascii) (s : string) (i last : Z) :
  last < i ->
  last <= rfind_from c s i last < i + Z.of_nat (String.length s).
Proof.
  revert i last. induction s as [|x s IH]; intros i last Hlt.
  - cbn. lia.
  - cbn [rfind_from String.length]. destruct (Ascii.eqb c x).
    + specialize (IH (i + 1) i). lia.
    + specialize (IH (i + 1) last). lia.
Qed.

Lemma substring_skip (a b : string) (m : nat) :
  substring (String.length a) m (a ++ b) = substring 0 m b.
Proof. induction a as [|x a IH]; [done|]. rewrite append_cons. exact IH. Qed.

Lemma substring_prefix (a b : string) :
  substring 0 (String.length a) (a ++ b) = a.
Proof.
  induction a as [|x a IH]; [by destruct b|].
  rewrite append_cons. cbn. by f_equal.
Qed.

Lemma substring_all (a : string) : substring 0 (String.length a) a = a.
Proof. induction a as [|x a IH]; [done|]. cbn. by f_equal. Qed.

(** A stretch of a string that covers a part with a character of the kind
    [P] has such a character. *)
Lemma str_exists_substring (P : ascii -> bool) (a b c : string) :
  forall n m : nat,
    (n <= String.length a)%nat ->
    (String.length a + String.length b <= n + m)%nat ->
    csv.str_exists P b = true ->
    csv.str_exists P (substring n m (a ++ b ++ c)) = true.
Proof.
  induction a as [|x a IH]; intros n m Hn Hm Hb.
  - cbn in Hn. assert (n = 0%nat) as -> by lia. change (EmptyString ++ b ++ c) with (b ++ c).
    cbn in Hm. clear Hn. revert m Hm.
    induction b as [|y b IHb]; intros m Hm; [done|].
    rewrite append_cons. cbn in Hm. destruct m as [|m]; [lia|].
    cbn [substring csv.str_exists] in Hb |- *.
    destruct (P y); [done|]. cbn in Hb |- *. apply IHb; [done | lia].
  - rewrite append_cons. cbn [String.length] in Hn, Hm.
    destruct n as [|n].
    + destruct m as [|m]; [lia|]. cbn [substring csv.str_exists].
      apply orb_true_intro. right. apply IH; [lia | lia | done].
    + cbn [substring]. apply IH; [lia | lia | done].
Qed.

Lemma lacks_cons (c x : ascii) (s : string) :
  lacks c (String x s) = true -> x <> c /\ lacks c s = true.
Proof.
  unfold lacks. cbn. destruct (Ascii.eqb_spec c x) as [->|Hne]; [done|].
  intros Hs. split; [congruence | done].
Qed.

Lemma lstrip_dots_lacks (s : string) : lacks "."%char s = true -> lstrip_dots s = s.
Proof.
  destruct s as [|x s]; [done|]. intros [Hx _]%lacks_cons. cbn. unfold is_dot.
  by destruct (Ascii.eqb_spec x ".").
Qed.

Lemma rstrip_dots_lacks (s : string) : lacks "."%char s = true -> rstrip_dots s = s.
Proof.
  induction s as [|x s IH]; [done|]. intros [Hx Hs]%lacks_cons. cbn. unfold is_dot.
  destruct (Ascii.eqb_spec x "."); [done|]. cbn. by rewrite IH.
Qed.

Lemma strip_dots_extension (ext : string) :
  lacks "."%char ext = true -> strip_dots ("." ++ ext) = ext.
Proof.
  intros Hext. unfold strip_dots. change ("." ++ ext) with (String "." ext).
  cbn [lstrip_dots]. change (is_dot ".") with true. cbv iota.
  by rewrite lstrip_dots_lacks, rstrip_dots_lacks.
Qed.

Lemma lacks_app (c : ascii) (a b : string) :
  lacks c (a ++ b) = lacks c a && lacks c b.
Proof.
  unfold lacks. induction a as [|x a IH]; [done|].
  rewrite append_cons. cbn [str_mem]. destruct (Ascii.eqb c x); [done | exact IH].
Qed.

Lemma only_dots_lacks_sep (s : string) : only_dots s = true -> lacks "/"%char s = true.
Proof.
  unfold only_dots, lacks. induction s as [|x s IH]; [done|].
  cbn. unfold is_dot. destruct (Ascii.eqb_spec x ".") as [->|Hne]; [|done].
  cbn. exact IH.
Qed.

(** The last dot of [base.ext] is the one before [ext]. *)
Lemma rfind_dot (base ext : string) :
  lacks "."%char ext = true ->
  rfind "."%char (base ++ "." ++ ext) = Z.of_nat (String.length base).
Proof.
  intros Hext. unfold rfind. rewrite rfind_from_app.
  change ("." ++ ext) with (String "." ext). cbn [rfind_from].
  change (Ascii.eqb "." ".") with true. cbv iota.
  rewrite rfind_from_lacks by done. lia.
Qed.

(** The last separator of [dir ++ rest], when [rest] has none. *)
Lemma rfind_sep (dir rest : string) :
  lacks "/"%char rest = true ->
  rfind "/"%char (dir ++ rest) = rfind "/"%char dir.
Proof. intros Hrest. unfold rfind. rewrite rfind_from_app. by apply rfind_from_lacks. Qed.

(** X15. The format of a path is that of its extension, whatever the case of
    its letters: for a path [dir ++ name ++ "." ++ ext] whose last component
    has a character other than a dot before the extension, and whose
    extension is ASCII, the constructor resolves the format to the lowered
    [ext], and accepts the path exactly when that is one of the supported
    formats. *)
Theorem format_from_extension (dir name ext : string) :
  lacks "/"%char name = true -> only_dots name = false ->
  lacks "."%char ext = true -> lacks "/"%char ext = true ->
  is_ascii ext = true ->
  (splitext (dir ++ name ++ "." ++ ext)).2 = "." ++ ext
  /\ TextFile.__init__ (dir ++ name ++ "." ++ ext) None
     = resolved (dir ++ name ++ "." ++ ext) (lower ext).
Proof.
  intros Hname Hdots Hext Hext' _.
  assert (Hsplit : (splitext (dir ++ name ++ "." ++ ext)).2 = "." ++ ext).
  { unfold splitext.
    rewrite rfind_sep; last first.
    { rewrite lacks_app, Hname. change ("." ++ ext) with (String "." ext).
      unfold lacks in *. cbn. exact Hext'. }
    rewrite <- (append_assoc dir name ("." ++ ext)).
    rewrite rfind_dot by done.
    pose proof (rfind_from_range "/" dir 0 (-1) ltac:(lia)) as Hsep.
    fold (rfind "/" dir) in Hsep.
    rewrite length_append.
    replace (rfind "/" dir <? Z.of_nat (String.length dir + String.length name))
      with true by (symmetry; apply Z.ltb_lt; lia).
    rewrite Nat2Z.id.
    rewrite (append_assoc dir name ("." ++ ext)).
    rewrite str_exists_substring; [| lia | lia |]; last first.
    { unfold only_dots in Hdots. by apply negb_false_iff in Hdots. }
    cbn [snd]. rewrite <- (append_assoc dir name ("." ++ ext)).
    rewrite <- length_append.
    replace (String.length ((dir ++ name) ++ "." ++ ext) - String.length (dir ++ name))%nat
      with (String.length ("." ++ ext)) by (rewrite (length_append (dir ++ name)); lia).
    rewrite substring_skip. apply substring_all. }
  split; [exact Hsplit|].
  rewrite init_by_extension. cbv zeta. rewrite Hsplit.
  by rewrite strip_dots_extension.
Qed.

(** [ledger.CSV] in a directory is a csv file. *)
Lemma format_from_extension_witness :
  (splitext ("data/" ++ "ledger" ++ "." ++ "CSV")).2 = "." ++ "CSV"
  /\ TextFile.__init__ ("data/" ++ "ledger" ++ "." ++ "CSV") None
     = resolved ("data/" ++ "ledger" ++ "." ++ "CSV") (lower "CSV").
Proof. apply (format_from_extension "data/" "ledger" "CSV"); reflexivity. Defined.

(** X16. A file name made of dots and one more part has no extension: a path
    such as [.csv] or [dir/..yaml], whose last component is
    [dots ++ "." ++ ext], is given the empty format, that of plain text,
    whatever [ext] is. *)
Theorem dot_file_is_text (dir dots ext : string) :
  dir = EmptyString \/ (exists d, dir = d ++ "/") ->
  only_dots dots = true ->
  lacks "."%char ext = true -> lacks "/"%char ext = true ->
  splitext (dir ++ dots ++ "." ++ ext) = (dir ++ dots ++ "." ++ ext, EmptyString)
  /\ TextFile.__init__ (dir ++ dots ++ "." ++ ext) None
     = Ok (TextFile.mk (dir ++ dots ++ "." ++ ext) EmptyString).
Proof.
  intros Hdir Hdots Hext Hext'.
  assert (Hsplit : splitext (dir ++ dots ++ "." ++ ext)
                   = (dir ++ dots ++ "." ++ ext, EmptyString)).
  { unfold splitext.
    rewrite rfind_sep; last first.
    { rewrite lacks_app, only_dots_lacks_sep by done.
      change ("." ++ ext) with (String "." ext). unfold lacks in *. cbn. exact Hext'. }
    rewrite <- (append_assoc dir dots ("." ++ ext)).
    rewrite rfind_dot by done.
    assert (Hsep : rfind "/" dir + 1 = Z.of_nat (String.length dir)).
    { destruct Hdir as [-> | [d ->]]; [done|].
      unfold rfind. rewrite rfind_from_app, length_append. cbn. lia. }
    rewrite length_append.
    replace (rfind "/" dir <? Z.of_nat (String.length dir + String.length dots))
      with true by (symmetry; apply Z.ltb_lt; lia).
    rewrite Hsep, !Nat2Z.id.
    replace (String.length dir + String.length dots - String.length dir)%nat
      with (String.length dots) by lia.
    rewrite (append_assoc dir dots ("." ++ ext)).
    rewrite substring_skip, substring_prefix.
    unfold only_dots in Hdots. apply negb_true_iff in Hdots. by rewrite Hdots. }
  split; [exact Hsplit|].
  rewrite init_by_extension. cbv zeta. rewrite Hsplit. reflexivity.
Qed.

(** [.csv] is read as plain text. *)
Lemma dot_file_is_text_witness :
  splitext (EmptyString ++ EmptyString ++ "." ++ "csv")
  = (EmptyString ++ EmptyString ++ "." ++ "csv", EmptyString)
  /\ TextFile.__init__ (EmptyString ++ EmptyString ++ "." ++ "csv") None
     = Ok (TextFile.mk (EmptyString ++ EmptyString ++ "." ++ "csv") EmptyString).
Proof.
  apply (dot_file_is_text EmptyString EmptyString "csv"); [by left | reflexivity..].
Defined.

End PathFormat.

(** ** The csv reader on plain fields *)

Section CsvParse.
Import csv.

Lemma plain_chars_cons (c : ascii) (s : string) :
  plain_chars (String c s) = plain_char c && plain_chars s.
Proof. unfold plain_chars. cbn [str_exists]. by destruct (plain_char c). Qed.

Lemma plain_chars_app (a b : string) :
  plain_chars (a ++ b) = plain_chars a && plain_chars b.
Proof.
  induction a as [|x a IH]; [done|].
  rewrite append_cons, !plain_chars_cons, IH. by rewrite andb_assoc.
Qed.

Lemma plain_char_not (c : ascii) :
  plain_char c = true ->
  Ascii.eqb c delimiter = false /\ Ascii.eqb c quotechar = false
  /\ is_newline c = false /\ Ascii.eqb c "000" = false.
Proof.
  unfold plain_char. intros Hc. apply negb_true_iff in Hc.
  repeat (apply orb_false_elim in Hc as [Hc ?]). done.
Qed.

(** A plain character in a field that has room is added to the field. *)
Lemma parse_plain_char (r : Reader) (c : ascii) :
  plain_char c = true ->
  (N.of_nat (String.length (field r)) < field_limit)%N ->
  (state r = START_RECORD \/ state r = START_FIELD \/ state r = IN_FIELD) ->
  parse_process_char r (Some c)
  = Ok (mkReader IN_FIELD (fields r) (field r ++ String c EmptyString)).
Proof.
  intros (Hd & Hq & Hn & _)%plain_char_not Hlen Hst.
  assert (Hadd : parse_add_char r c IN_FIELD
                 = Ok (mkReader IN_FIELD (fields r) (field r ++ String c EmptyString))).
  { unfold parse_add_char.
    by replace (field_limit <=? N.of_nat (String.length (field r)))%N with false
      by (symmetry; apply N.leb_gt; lia). }
  unfold parse_process_char.
  destruct Hst as [-> | [-> | ->]]; rewrite ?Hn, ?Hq, ?Hd; exact Hadd.
Qed.

(** Inside a field, plain characters are read one by one. *)
Lemma parse_line_in_field (f rest : string) :
  forall r : Reader,
    plain_chars f = true ->
    (N.of_nat (String.length (field r) + String.length f) <= field_limit)%N ->
    state r = IN_FIELD ->
    parse_line r (f ++ rest)
    = parse_line (mkReader IN_FIELD (fields r) (field r ++ f)) rest.
Proof.
  induction f as [|c f IH]; intros r Hplain Hlen Hst.
  - rewrite append_nil_r. destruct r as [st fs fd]. cbn in Hst. by subst st.
  - rewrite plain_chars_cons in Hplain. apply andb_prop in Hplain as [Hc Hf].
    cbn [String.length] in Hlen.
    rewrite append_cons. cbn [parse_line].
    rewrite (proj2 (proj2 (proj2 (plain_char_not c Hc)))).
    rewrite parse_plain_char; [|done | lia | by right; right].
    rewrite IH; [|done | |done].
    + cbn [fields field]. by rewrite append_assoc.
    + cbn [field]. rewrite length_append. cbn. lia.
Qed.

(** A plain field that is not empty, from the start of a record or field. *)
Lemma parse_line_start (c : ascii) (f rest : string) (r : Reader) :
  plain_chars (String c f) = true ->
  (N.of_nat (String.length (String c f)) <= field_limit)%N ->
  field r = EmptyString ->
  state r = START_RECORD \/ state r = START_FIELD ->
  parse_line r (String c f ++ rest)
  = parse_line (mkReader IN_FIELD (fields r) (String c f)) rest.
Proof.
  intros Hplain Hlen Hfield Hst.
  rewrite plain_chars_cons in Hplain. apply andb_prop in Hplain as [Hc Hf].
  cbn [String.length] in Hlen.
  rewrite append_cons. cbn [parse_line].
  rewrite (proj2 (proj2 (proj2 (plain_char_not c Hc)))).
  rewrite parse_plain_char; [|done | rewrite Hfield; cbn; lia | tauto].
  rewrite Hfield. change (EmptyString ++ String c EmptyString) with (String c EmptyString).
  rewrite parse_line_in_field; [done | done | cbn; lia | done].
Qed.

(** The delimiter ends the field. *)
Lemma parse_line_comma (r : Reader) (rest : string) :
  state r = START_RECORD \/ state r = START_FIELD \/ state r = IN_FIELD ->
  parse_line r (String delimiter rest)
  = parse_line (mkReader START_FIELD (fields r ++ [field r]) EmptyString) rest.
Proof.
  intros Hst. cbn [parse_line]. change (Ascii.eqb delimiter "000") with false. cbv iota.
  unfold parse_process_char. by destruct Hst as [-> | [-> | ->]].
Qed.

(** The line end closes the record. *)
Lemma parse_line_end (r : Reader) :
  state r = START_FIELD \/ state r = IN_FIELD ->
  parse_line r nl = Ok (mkReader START_RECORD (fields r ++ [field r]) EmptyString).
Proof.
  intros Hst. unfold nl. cbn [parse_line]. change (Ascii.eqb "010" "000") with false.
  cbv iota. unfold parse_process_char. by destruct Hst as [-> | ->].
Qed.

Lemma join_cons2 (sep f f2 : string) (fs : list string) :
  join sep (f :: f2 :: fs) = f ++ sep ++ join sep (f2 :: fs).
Proof. reflexivity. Qed.

Lemma plain_split (s : string) :
  plain s = true ->
  plain_chars s = true /\ (N.of_nat (String.length s) <= field_limit)%N.
Proof. unfold plain. intros [? ?%N.leb_le]%andb_prop. done. Qed.

(** A row of plain fields is read back field by field. *)
Lemma parse_line_fields (fs : list string) :
  forall (f : string) (r : Reader),
    Forall (fun x => plain x = true) (f :: fs) ->
    field r = EmptyString ->
    state r = START_FIELD
    \/ (state r = START_RECORD /\ ~ (f = EmptyString /\ fs = [])) ->
    parse_line r (join (String delimiter EmptyString) (f :: fs) ++ nl)
    = Ok (mkReader START_RECORD (fields r ++ f :: fs) EmptyString).
Proof.
  induction fs as [|f2 fs IH]; intros f r Hplain Hfield Hst.
  - apply Forall_cons in Hplain as [[Hf Hlen]%plain_split _]. cbn [join].
    destruct f as [|c f].
    + destruct Hst as [Hst | [_ Hno]]; [|by destruct Hno].
      change (EmptyString ++ nl) with nl. rewrite parse_line_end by tauto.
      by rewrite Hfield.
    + rewrite parse_line_start; [|done | done | done | tauto].
      by rewrite parse_line_end by (by right).
  - apply Forall_cons in Hplain as [[Hf Hlen]%plain_split Hrest].
    rewrite join_cons2, !append_assoc.
    change (String delimiter EmptyString ++ ?x) with (String delimiter x).
    destruct f as [|c f].
    + change (EmptyString ++ ?x) with x.
      rewrite parse_line_comma by tauto.
      rewrite IH; [|done | done | by left].
      cbn [fields]. by rewrite Hfield, <- app_assoc.
    + rewrite parse_line_start; [|done | done | done | tauto].
      rewrite parse_line_comma by (by right; right).
      rewrite IH; [|done | done | by left].
      cbn [fields field]. by rewrite <- app_assoc.
Qed.

Lemma join_not_empty (sep f : string) (fs : list string) :
  sep <> EmptyString -> ~ (f = EmptyString /\ fs = []) -> join sep (f :: fs) <> EmptyString.
Proof.
  intros Hsep Hno. destruct fs as [|f2 fs].
  - cbn. intros ->. by apply Hno.
  - rewrite join_cons2. destruct f as [|c f]; [|done].
    change (EmptyString ++ ?x) with x. by destruct sep.
Qed.

(** The text of a row of plain fields is read back as the row. *)
Lemma parse_row_text (fs : list string) :
  fs <> [] -> Forall (fun x => plain x = true) fs ->
  parse_line parse_reset (row_text fs ++ nl) = Ok (mkReader START_RECORD fs EmptyString).
Proof.
  intros Hne Hplain. destruct fs as [|f fs]; [done|]. unfold row_text. cbv zeta.
  rewrite bool_decide_eq_true_2 by done. cbn [andb].
  destruct (decide (f = EmptyString /\ fs = [])) as [[-> ->]|Hno].
  - reflexivity.
  - rewrite bool_decide_eq_false_2 by (by apply join_not_empty).
    by rewrite parse_line_fields; [| | |right].
Qed.

Lemma lacks_plain_chars (c : ascii) (s : string) :
  plain_char c = false -> plain_chars s = true -> lacks c s = true.
Proof.
  intros Hc. unfold lacks. induction s as [|x s IH]; [done|].
  rewrite plain_chars_cons. intros [Hx Hs]%andb_prop. cbn.
  destruct (Ascii.eqb_spec c x) as [->|_]; [congruence | by apply IH].
Qed.

Lemma lacks_join (c : ascii) (sep : string) (fs : list string) :
  lacks c sep = true -> Forall (fun x => lacks c x = true) fs ->
  lacks c (join sep fs) = true.
Proof.
  intros Hsep. induction fs as [|f fs IH]; intros Hfs; [done|].
  apply Forall_cons in Hfs as [Hf Hfs]. destruct fs as [|f2 fs]; [done|].
  rewrite join_cons2, !lacks_app, Hf, Hsep. by apply IH.
Qed.

(** The text of a row of plain fields has no character [c] that is neither
    plain nor the delimiter nor the quote character. *)
Lemma lacks_row_text (c : ascii) (fs : list string) :
  plain_char c = false -> c <> delimiter -> c <> quotechar ->
  Forall (fun x => plain x = true) fs ->
  lacks c (row_text fs) = true.
Proof.
  intros Hc Hd Hq Hplain. unfold row_text. cbv zeta.
  destruct (bool_decide (fs ≠ []) && bool_decide (_ = EmptyString)).
  - unfold lacks. cbn. by destruct (Ascii.eqb_spec c quotechar).
  - apply lacks_join.
    + unfold lacks. cbn. by destruct (Ascii.eqb_spec c delimiter).
    + eapply Forall_impl; [exact Hplain|]. intros x [Hx _]%plain_split.
      by apply lacks_plain_chars.
Qed.

(** Line splitting: a text without a line feed, followed by one, is a line. *)
Lemma splitlines_acc_line (l rest : string) :
  forall cur : string,
    lacks "010"%char l = true ->
    splitlines_acc cur (l ++ nl ++ rest) = (cur ++ l ++ nl) :: splitlines_acc EmptyString rest.
Proof.
  induction l as [|x l IH]; intros cur Hl.
  - reflexivity.
  - apply lacks_cons in Hl as [Hx Hl]. rewrite append_cons. cbn [splitlines_acc].
    destruct (Ascii.eqb_spec x "010"); [done|].
    rewrite IH by done. by rewrite append_assoc.
Qed.

Lemma file_lines_rows (rows : list (list string)) :
  Forall (fun fs => Forall (fun x => plain x = true) fs) rows ->
  file_lines (concat_lines (map (fun fs => row_text fs ++ nl) rows))
  = map (fun fs => row_text fs ++ nl) rows.
Proof.
  unfold file_lines. induction rows as [|fs rows IH]; intros Hrows; [done|].
  apply Forall_cons in Hrows as [Hfs Hrows]. cbn [map concat_lines fold_right].
  rewrite append_assoc, splitlines_acc_line.
  - fold (concat_lines (map (fun fs => row_text fs ++ nl) rows)). by rewrite IH.
  - by apply lacks_row_text.
Qed.

Lemma reader_rows_plain (rows : list (list string)) :
  Forall (fun fs => fs <> [] /\ Forall (fun x => plain x = true) fs) rows ->
  reader_rows parse_reset (map (fun fs => row_text fs ++ nl) rows) = Ok rows.
Proof.
  induction rows as [|fs rows IH]; intros Hrows; [done|].
  apply Forall_cons in Hrows as [[Hne Hfs] Hrows]. cbn [map reader_rows].
  rewrite parse_row_text by done. cbn [state fields].
  rewrite bool_decide_eq_true_2 by done. by rewrite IH.
Qed.

(** The reader undoes the row texts. *)
Lemma reader_rows_text (rows : list (list string)) :
  Forall (fun fs => fs <> [] /\ Forall (fun x => plain x = true) fs) rows ->
  reader (concat_lines (map (fun fs => row_text fs ++ nl) rows)) = Ok rows.
Proof.
  intros Hrows. unfold reader. rewrite file_lines_rows.
  - by apply reader_rows_plain.
  - eapply Forall_impl; [exact Hrows|]. by intros fs [_ ?].
Qed.

(** *** The writer on plain fields *)

Lemma join_append_plain (s : string) : plain_chars s = true -> join_append s = s.
Proof.
  intros Hs. unfold join_append.
  assert (Hq : str_exists needs_quote s = false); [|by rewrite Hq].
  induction s as [|c s IH]; [done|].
  rewrite plain_chars_cons in Hs. apply andb_prop in Hs as [Hc Hs].
  apply plain_char_not in Hc as (Hd & Hq & Hn & _). cbn [str_exists].
  rewrite IH by done. unfold needs_quote. rewrite Hd, Hq. cbn.
  unfold is_newline in Hn. apply orb_false_elim in Hn as [-> _]. done.
Qed.

Lemma writerow_plain (row : list value) :
  Forall (fun v => plain (cell_text v) = true) row ->
  writerow row = row_text (map cell_text row) ++ nl.
Proof.
  intros Hrow. unfold writerow, row_text. cbv zeta.
  assert (Hmap : map (fun v => join_append (cell_text v)) row = map cell_text row).
  { induction Hrow as [|v row [Hv _]%plain_split Hrow IH]; [done|].
    cbn. by rewrite join_append_plain, IH. }
  rewrite Hmap. by destruct row.
Qed.

Lemma no_cr_lacks (s : string) : no_cr s = lacks "013"%char s.
Proof.
  unfold no_cr, lacks. f_equal. induction s as [|c s IH]; [done|].
  cbn [str_exists str_mem]. rewrite IH.
  destruct (Ascii.eqb_spec c "013") as [->|Hne]; [done|].
  destruct (Ascii.eqb_spec "013" c); [congruence | done].
Qed.

Lemma no_cr_rows (rows : list (list string)) :
  Forall (fun fs => Forall (fun x => plain x = true) fs) rows ->
  no_cr (concat_lines (map (fun fs => row_text fs ++ nl) rows)) = true.
Proof.
  rewrite no_cr_lacks. induction rows as [|fs rows IH]; intros Hrows; [done|].
  apply Forall_cons in Hrows as [Hfs Hrows]. cbn [map concat_lines fold_right].
  rewrite !lacks_app. fold (concat_lines (map (fun fs => row_text fs ++ nl) rows)).
  rewrite IH by done. by rewrite lacks_row_text.
Qed.

(** *** Records *)

Lemma dict_set_fresh {V} (k : key) (v : V) (d : list (key * V)) :
  k ∉ dict_keys d -> dict_set k v d = app d [(k, v)].
Proof.
  induction d as [|[k' v'] d IH]; [done|]. cbn. intros Hk.
  apply not_elem_of_cons in Hk as [Hne Hk]. rewrite decide_False by done.
  f_equal. by apply IH.
Qed.

Lemma dict_of_distinct {V} (l : list (key * V)) :
  NoDup (dict_keys l) -> dict_of l = l.
Proof.
  unfold dict_of.
  assert (Hacc : forall acc, NoDup (dict_keys (app acc l)) ->
            fold_left (fun d kv => dict_set kv.1 kv.2 d) l acc = app acc l).
  { induction l as [|[k v] l IH]; intros acc Hnd; [by rewrite app_nil_r|].
    cbn. rewrite dict_set_fresh.
    - rewrite IH; rewrite <- app_assoc; [done | exact Hnd].
    - unfold dict_keys in Hnd. rewrite map_app in Hnd. cbn in Hnd.
      apply NoDup_app in Hnd as (_ & Hdisj & _). intros Hk. apply (Hdisj k Hk). left. }
  intros Hnd. by rewrite Hacc.
Qed.

Lemma DictReader_row_columns (keys : list key) (d : list (key * value)) :
  NoDup (map column_name keys) ->
  DictReader_row (map column_name keys) (map (cell d) keys)
  = map (fun k => (KStr (column_name k), VStr (cell d k))) keys.
Proof.
  intros Hnd. unfold DictReader_row. cbv zeta. rewrite !length_map.
  rewrite Nat.ltb_irrefl.
  assert (Hzip : zip (map KStr (map column_name keys)) (map VStr (map (cell d) keys))
                 = map (fun k => (KStr (column_name k), VStr (cell d k))) keys).
  { clear Hnd. induction keys as [|k keys IH]; [done|]. cbn. by rewrite IH. }
  rewrite Hzip. apply dict_of_distinct.
  unfold dict_keys. rewrite map_map. cbn. rewrite <- (map_map column_name KStr).
  by apply (NoDup_fmap_2 KStr).
Qed.

End CsvParse.

(** ** The csv round trip *)

Section CsvRoundTrip.
Context `{libs : PyLibs}.

Lemma filter_all {A} (P : A -> Prop) `{!forall x, Decision (P x)} (l : list A) :
  Forall P l -> filter P l = l.
Proof.
  induction 1 as [|x l Hx Hl IH]; [done|].
  rewrite filter_cons_True by done. by rewrite IH.
Qed.

(** What [write_csv] writes, as rows of fields. *)
Lemma csv_content_rows (keys : list key) (records : list (list (key * value))) :
  Forall (fun k => plain (column_name k) = true) keys ->
  Forall (fun d => Forall (fun k => plain (cell d k) = true) keys) records ->
  (csv.header_line keys ++ concat_lines (map (row_line keys) records))
  = concat_lines
      (map (fun fs => row_text fs ++ nl)
           (map column_name keys :: map (fun d => map (cell d) keys) records)).
Proof.
  intros Hkeys Hrecords. cbn [map concat_lines fold_right]. f_equal.
  - unfold csv.header_line. rewrite writerow_plain.
    + by rewrite map_map.
    + apply Forall_fmap. exact Hkeys.
  - fold (concat_lines (map (fun fs => row_text fs ++ nl)
                              (map (fun d => map (cell d) keys) records))).
    induction Hrecords as [|d records Hd Hrecords IH]; [done|].
    cbn [map concat_lines fold_right]. f_equal; [|exact IH].
    unfold row_line. rewrite writerow_plain.
    + unfold row_cells. by rewrite map_map.
    + unfold row_cells. apply Forall_fmap. exact Hd.
Qed.

(** X17. The csv round trip for plain records: when the first record has at
    least one key, the names of its columns are distinct, no later record has
    a key of its own, every name and every cell text is free of commas,
    quote characters, line ends and NUL and has at most 131072 bytes (the
    field size limit of the reader), and every value is a string, an integer,
    a boolean or [None], or a list or dictionary in which every string is
    ASCII, then what [write] puts into the file is read back by [read] as the
    same records in the same order, each with the columns of the first record
    in their order and each value as the text of its cell (the empty string
    where the record lacked the key). *)
Theorem csv_round_trip_plain (fuel : nat) (fname : string) (first : list (key * value))
    (rest : list (list (key * value))) (w : world) :
  files w !! fname ≠ Some Dir ->
  dict_keys first ≠ [] ->
  NoDup (map column_name (dict_keys first)) ->
  Forall (fun k => plain (column_name k) = true) (dict_keys first) ->
  Forall (fun d => extra_keys (dict_keys first) d = []) rest ->
  Forall (fun d => Forall (fun k => plain (cell d k) = true) (dict_keys first))
         (first :: rest) ->
  Forall (fun d => Forall (fun kv => exact_text kv.2 = true) d) (first :: rest) ->
  exists content,
    TextFile.write fuel (TextFile.mk fname "csv") (VList (map VDict (first :: rest)))
      (Some true) w
    = Return (Z.of_nat (String.length content)) (with_file fname content w)
    /\ TextFile.read (TextFile.mk fname "csv") (with_file fname content w)
       = Return (VList (map (read_back (dict_keys first)) (first :: rest)))
           (with_file fname content w).
Proof.
  intros Hno Hkeys Hnd Hnames Hextra Hcells _.
  set (keys := dict_keys first) in *.
  set (rows := map column_name keys :: map (fun d => map (cell d) keys) (first :: rest)).
  exists (concat_lines (map (fun fs => row_text fs ++ nl) rows)).
  assert (Hrows : Forall (fun fs => fs <> [] /\ Forall (fun x => plain x = true) fs) rows).
  { assert (Hmap : forall f : key -> string, map f keys <> []) by (by destruct keys).
    apply Forall_cons. split; [split; [apply Hmap | by apply Forall_fmap]|].
    apply Forall_fmap. eapply Forall_impl; [exact Hcells|].
    intros d Hd. split; [apply Hmap | by apply Forall_fmap]. }
  split.
  - rewrite write_forced. unfold TextFile.write_dispatch.
    cbn [TextFile.ftype TextFile.fname]. rewrite decide_True by done.
    erewrite bind_Return; last first.
    { rewrite (write_csv_ok fname first rest w Hno Hextra).
      fold keys. rewrite (csv_content_rows keys (first :: rest) Hnames Hcells).
      reflexivity. }
    apply getsize_ok.
  - unfold TextFile.read. cbn [TextFile.ftype TextFile.fname].
    erewrite bind_Return by apply isfile_ok.
    cbn [Sys.assert]. erewrite bind_Return by reflexivity.
    rewrite decide_True by done. unfold TextFile.read_csv.
    erewrite bind_Return by apply read_file_ok.
    rewrite universal_newlines_no_cr; last first.
    { apply no_cr_rows. eapply Forall_impl; [exact Hrows|]. by intros fs [_ ?]. }
    unfold csv.DictReader. rewrite reader_rows_text by done.
    unfold rows at 1.
    erewrite bind_Return by reflexivity.
    unfold mret, M_ret, ret. f_equal. f_equal.
    rewrite filter_all; last first.
    { apply Forall_fmap, Forall_forall. intros d _. cbn. by destruct keys. }
    rewrite map_map. apply map_ext. intros d.
    unfold read_back. f_equal. by apply DictReader_row_columns.
Qed.

End CsvRoundTrip.

(** Two records, the second without an age. *)
Lemma csv_round_trip_plain_witness :
  exists content,
    TextFile.write (libs:=StandIn.libs) 0 (TextFile.mk "t.csv" "csv")
      (VList (map VDict [[(KStr "name", VStr "ann"); (KStr "age", VInt 41)];
                         [(KStr "name", VStr "bob")]]))
      (Some true) (example_world [])
    = Return (Z.of_nat (String.length content)) (with_file "t.csv" content (example_world []))
    /\ TextFile.read (libs:=StandIn.libs) (TextFile.mk "t.csv" "csv")
         (with_file "t.csv" content (example_world []))
       = Return (VList (map (read_back [KStr "name"; KStr "age"])
                            [[(KStr "name", VStr "ann"); (KStr "age", VInt 41)];
                             [(KStr "name", VStr "bob")]]))
           (with_file "t.csv" content (example_world [])).
Proof.
  apply (csv_round_trip_plain (libs:=StandIn.libs) 0 "t.csv"
           [(KStr "name", VStr "ann"); (KStr "age", VInt 41)]
           [[(KStr "name", VStr "bob")]] (example_world [])).
  - vm_compute. discriminate.
  - discriminate.
  - apply (bool_decide_unpack _). reflexivity.
  - repeat (constructor; [reflexivity|]). constructor.
  - repeat (constructor; [reflexivity|]). constructor.
  - repeat (constructor; [repeat (constructor; [reflexivity|]); constructor|]). constructor.
  - repeat (constructor; [repeat (constructor; [reflexivity|]); constructor|]). constructor.
Defined.

(** ** The prompts *)

Section Prompts.
Import prompt prompting.

Lemma repeated_succ (k : nat) (turn : world -> world) (w : world) :
  repeated (S k) turn w = turn (repeated k turn w).
Proof. revert w. induction k as [|k IH]; intros w; [done|]. cbn. by rewrite <- IH. Qed.

Lemma repeated_stdin (k : nat) (msg : string) (shown : list string) (w : world) :
  stdin (repeated k (asked msg shown) w) = stdin w
  /\ stdin_pos (repeated k (asked msg shown) w) = (stdin_pos w + k)%nat
  /\ files (repeated k (asked msg shown) w) = files w.
Proof.
  revert w. induction k as [|k IH]; intros w; cbn.
  - repeat split. lia.
  - destruct (IH (asked msg shown w)) as (-> & -> & ->). cbn. repeat split. lia.
Qed.

Lemma next_replies_step (k : nat) (P : string -> Prop) (msg : string) (shown : list string)
    (w : world) :
  next_replies (S k) P w ->
  (exists r, stdin w (stdin_pos w) = Some r /\ P r)
  /\ next_replies k P (asked msg shown w).
Proof.
  intros H. split.
  - destruct (H 0%nat ltac:(lia)) as (r & Hr & HP). rewrite Nat.add_0_r in Hr. eauto.
  - intros j Hj. destruct (H (S j) ltac:(lia)) as (r & Hr & HP). exists r. split; [|done].
    cbn. rewrite <- Hr. f_equal. lia.
Qed.

(** *** [confirm_yn] *)

Lemma raw_input_line (msg line : string) (w : world) :
  stdin w (stdin_pos w) = Some line ->
  raw_input msg w = Return line (asked msg [] w).
Proof.
  intros H. unfold raw_input. rewrite H. unfold asked. by rewrite app_nil_r.
Qed.

Lemma asked_shown (msg : string) (shown : list string) (w : world) :
  World (files (asked msg [] w)) (stdin (asked msg [] w)) (stdin_pos (asked msg [] w))
        (stdout (asked msg [] w)) (stderr (asked msg [] w) ++ shown)
  = asked msg shown w.
Proof. unfold asked. cbn. by rewrite app_nil_r. Qed.

Lemma confirm_yn_turn (fuel : nat) (msg line : string) (w : world) :
  stdin w (stdin_pos w) = Some line ->
  confirm_yn (S fuel) msg w
  = match strip line with
    | EmptyString => Raise (IndexError "string index out of range") (asked msg [] w)
    | String c _ =>
        if decide (lower_char c = "y"%char) then Return true (asked msg [] w)
        else if decide (lower_char c = "n"%char) then Return false (asked msg [] w)
        else confirm_yn fuel msg (asked msg [confirm_yn_error ++ nl] w)
    end.
Proof.
  intros H. cbn [confirm_yn]. unfold mbind, M_bind, bind. rewrite (raw_input_line _ _ _ H).
  destruct (strip line) as [|c rest]; [done|]. cbn [getitem0 lift ret].
  cbn [lower dict_get valid_replies].
  destruct (decide (lower_char c = "y"%char)) as [->|Hy]; [done|].
  rewrite decide_False by congruence.
  destruct (decide (lower_char c = "n"%char)) as [->|Hn]; [done|].
  rewrite decide_False by congruence.
  unfold eprint, stderr_write. by rewrite asked_shown.
Qed.

Lemma confirm_yn_skips (k fuel : nat) (msg : string) (w : world) :
  next_replies k starts_otherwise w ->
  confirm_yn (k + fuel) msg w
  = confirm_yn fuel msg (repeated k (asked msg [confirm_yn_error ++ nl]) w).
Proof.
  revert w. induction k as [|k IH]; intros w Hk; [done|].
  apply (next_replies_step _ _ msg [confirm_yn_error ++ nl]) in Hk
    as [(r & Hr & _ & c & rest & Hs & Hy & Hn) Hk].
  cbn [Nat.add repeated]. rewrite (confirm_yn_turn _ _ _ _ Hr), Hs.
  rewrite !decide_False by done. by apply IH.
Qed.

(** X18. [confirm_yn] decides by the first letter of the first reply that
    starts with y or n, in either case and after white space: the replies
    before it, ASCII text that starts with something else, are each answered
    with the error line and the prompt is shown again. *)
Theorem confirm_yn_first_letter (k fuel : nat) (msg line : string) (b : bool) (w : world) :
  next_replies k starts_otherwise w ->
  stdin w (stdin_pos w + k)%nat = Some line ->
  starts_with (if b then "y"%char else "n"%char) line ->
  (k < fuel)%nat ->
  confirm_yn fuel msg w
  = Return b (asked msg [] (repeated k (asked msg [confirm_yn_error ++ nl]) w)).
Proof.
  intros Hk Hline (c & rest & Hs & Hc) Hfuel.
  replace fuel with (k + S (fuel - S k))%nat by lia.
  rewrite confirm_yn_skips by done.
  destruct (repeated_stdin k msg [confirm_yn_error ++ nl] w) as (Hin & Hpos & _).
  rewrite (confirm_yn_turn _ _ line); [|by rewrite Hin, Hpos].
  rewrite Hs. destruct b.
  - by rewrite decide_True.
  - rewrite decide_False by (rewrite Hc; discriminate). by rewrite decide_True.
Qed.

Lemma confirm_yn_first_letter_witness :
  confirm_yn 2 "ok? " (console ["  maybe"; " Yes please"])
  = Return true (asked "ok? " [] (repeated 1 (asked "ok? " [confirm_yn_error ++ nl])
                                  (console ["  maybe"; " Yes please"]))).
Proof.
  apply (confirm_yn_first_letter 1 2 "ok? " " Yes please" true).
  - intros j Hj. assert (j = 0%nat) as -> by lia.
    exists "  maybe". split; [reflexivity|]. split; [reflexivity|].
    exists "m"%char, "aybe". split; [reflexivity|]. split; discriminate.
  - reflexivity.
  - exists "Y"%char, "es please". split; reflexivity.
  - lia.
Defined.

(** X19. A reply that is empty or made of ASCII white space only makes
    [confirm_yn] fail with [IndexError]: the prompt is not shown again and
    nothing is said. The replies before it are ASCII text that starts with
    something other than y or n. *)
Theorem confirm_yn_blank_reply (k fuel : nat) (msg line : string) (w : world) :
  next_replies k starts_otherwise w ->
  stdin w (stdin_pos w + k)%nat = Some line ->
  blank line ->
  (k < fuel)%nat ->
  confirm_yn fuel msg w
  = Raise (IndexError "string index out of range")
          (asked msg [] (repeated k (asked msg [confirm_yn_error ++ nl]) w)).
Proof.
  intros Hk Hline Hs Hfuel.
  replace fuel with (k + S (fuel - S k))%nat by lia.
  rewrite confirm_yn_skips by done.
  destruct (repeated_stdin k msg [confirm_yn_error ++ nl] w) as (Hin & Hpos & _).
  rewrite (confirm_yn_turn _ _ line); [|by rewrite Hin, Hpos].
  by rewrite Hs.
Qed.

Lemma confirm_yn_blank_reply_witness :
  confirm_yn 1 "ok? " (console ["   "])
  = Raise (IndexError "string index out of range") (asked "ok? " [] (console ["   "])).
Proof.
  apply (confirm_yn_blank_reply 0 1 "ok? " "   ").
  - intros j Hj. lia.
  - reflexivity.
  - reflexivity.
  - lia.
Defined.

(** *** The numbered menu *)

Lemma enumerate_lookup {A} (l : list A) (i : nat) :
  enumerate l !! i = (fun x => (Z.of_nat i, x)) <$> l !! i.
Proof.
  unfold enumerate. rewrite lookup_zip_with.
  destruct (l !! i) as [x|] eqn:Hx.
  - rewrite lookup_seqZ_lt by (apply lookup_lt_Some in Hx; lia). done.
  - by destruct (seqZ 0 (Z.of_nat (List.length l)) !! i).
Qed.

Lemma enumerate_fst {A} (l : list A) :
  map fst (enumerate l) = seqZ 0 (Z.of_nat (List.length l)).
Proof.
  unfold enumerate. apply fst_zip. rewrite length_seqZ. lia.
Qed.

Lemma make_options_plain (items : list value) :
  make_options items = map option_of (enumerate items).
Proof.
  unfold make_options. apply dict_of_distinct.
  unfold dict_keys. rewrite map_map. cbn.
  rewrite <- (map_map fst (fun z : Z => KStr (pretty (z + 1)%Z))), enumerate_fst.
  assert (Inj (=) (=) (fun z : Z => KStr (pretty (z + 1)%Z))).
  { intros x y [= H]. apply (inj pretty) in H. lia. }
  apply (NoDup_fmap_2 (fun z : Z => KStr (pretty (z + 1)%Z))), NoDup_seqZ.
Qed.

Lemma options_get_numbered (items : list value) (s : string) (item : value) :
  dict_get (KStr s) (make_options items) = Some item <-> numbered items s item.
Proof.
  assert (Hnd : NoDup (dict_keys (make_options items))) by apply dict_of_NoDup.
  split.
  - intros H. apply dict_get_elem in H. rewrite make_options_plain in H.
    apply list_elem_of_fmap in H as ([z x] & [= -> ->] & Hin).
    apply list_elem_of_lookup in Hin as (i & Hi).
    rewrite enumerate_lookup in Hi. destruct (items !! i) as [y|] eqn:Hy; [|done].
    cbn in Hi. injection Hi as <- <-. by exists i.
  - intros (i & -> & Hi). apply dict_elem_get; [done|].
    rewrite make_options_plain. apply list_elem_of_fmap.
    exists (Z.of_nat i, item). split; [done|].
    apply list_elem_of_lookup. exists i. by rewrite enumerate_lookup, Hi.
Qed.

Lemma show_options_shown (l : list (Z * value)) (w : world) :
  show_options (map option_of l) w
  = Return tt (World (files w) (stdin w) (stdin_pos w) (stdout w)
                     (stderr w ++ map (fun xy => (pretty (xy.1 + 1)%Z ++ ". " ++ str xy.2) ++ nl) l)).
Proof.
  revert w. induction l as [|[z x] l IH]; intros w.
  - cbn. destruct w. by rewrite app_nil_r.
  - cbn [map show_options option_of]. unfold mbind, M_bind, bind, eprint, stderr_write.
    rewrite IH. cbn. by rewrite <- app_assoc.
Qed.

Lemma show_menu {A} (msg : string) (items : list value) (k : M A) (w : world) :
  (_ ← eprint (nl ++ msg ++ nl) nl; _ ← show_options (make_options items); k) w
  = k (World (files w) (stdin w) (stdin_pos w) (stdout w) (stderr w ++ menu msg items)).
Proof.
  unfold mbind, M_bind, bind, eprint, stderr_write.
  rewrite make_options_plain, show_options_shown. cbn. unfold menu.
  by rewrite <- app_assoc.
Qed.

(** *** [pick_one] *)

Lemma pick_one_turn (fuel : nat) (items : list value) (msg line : string) (w : world) :
  stdin w (stdin_pos w) = Some line ->
  pick_one_loop (S fuel) (make_options items) msg w
  = let chosen := default VNone (dict_get (KStr (strip line)) (make_options items)) in
    if falsy chosen
    then pick_one_loop fuel (make_options items) msg
           (asked pick_one_prompt (menu msg items ++ [pick_one_error ++ nl]) w)
    else Return chosen (asked pick_one_prompt (menu msg items) w).
Proof.
  intros H. cbn [pick_one_loop]. rewrite show_menu.
  unfold mbind, M_bind, bind, raw_input. cbn [stdin stdin_pos]. rewrite H. cbv zeta.
  destruct (falsy _); [|done].
  unfold eprint, stderr_write, asked. cbn. by rewrite <- app_assoc.
Qed.

Lemma pick_one_loop_returns (fuel : nat) (items : list value) (msg : string)
    (w w' : world) (item : value) :
  pick_one_loop fuel (make_options items) msg w = Return item w' ->
  (exists s, numbered items s item) /\ falsy item = false.
Proof.
  revert w. induction fuel as [|fuel IH]; intros w; [done|].
  destruct (stdin w (stdin_pos w)) as [line|] eqn:Hline.
  - rewrite (pick_one_turn _ _ _ _ _ Hline). cbv zeta.
    destruct (dict_get _ _) as [chosen|] eqn:Hget; cbn [from_option id].
    + destruct (falsy chosen) eqn:Hf; [apply IH|].
      intros [= <- <-]. split; [|done]. exists (strip line).
      by apply options_get_numbered.
    + cbn [falsy]. apply IH.
  - cbn [pick_one_loop]. rewrite show_menu.
    unfold mbind, M_bind, bind, raw_input. cbn [stdin stdin_pos]. by rewrite Hline.
Qed.

Lemma pick_one_skips (k fuel : nat) (items : list value) (msg : string) (w : world) :
  next_replies k (not_a_choice items) w ->
  pick_one_loop (k + fuel) (make_options items) msg w
  = pick_one_loop fuel (make_options items) msg
      (repeated k (asked pick_one_prompt (menu msg items ++ [pick_one_error ++ nl])) w).
Proof.
  revert w. induction k as [|k IH]; intros w Hk; [done|].
  apply (next_replies_step _ _ pick_one_prompt (menu msg items ++ [pick_one_error ++ nl])) in Hk
    as [(r & Hr & _ & Hno) Hk].
  cbn [Nat.add repeated]. rewrite (pick_one_turn _ _ _ _ _ Hr). cbv zeta.
  destruct (dict_get _ _) as [chosen|] eqn:Hget; cbn [from_option id].
  - apply options_get_numbered, Hno in Hget. rewrite Hget. by apply IH.
  - cbn [falsy]. by apply IH.
Qed.

(** X20. Whatever [pick_one] returns is an item of the list that counts as
    true, picked by its number: an item that is [None], [False], [0], an
    empty string or an empty collection is never returned. *)
Theorem pick_one_only_true_items (fuel : nat) (item_list : value) (msg : string)
    (w w' : world) (item : value) :
  pick_one fuel item_list msg w = Return item w' ->
  exists items,
    iterate item_list = Ok items /\ item ∈ items /\ falsy item = false.
Proof.
  unfold pick_one, mbind, M_bind, bind.
  destruct (iterate item_list) as [items|e]; [|done]. cbn [lift ret].
  intros H. apply pick_one_loop_returns in H as [(s & i & _ & Hi) Hf].
  exists items. split; [done|]. split; [|done]. by apply list_elem_of_lookup_2 in Hi.
Qed.

Lemma pick_one_only_true_items_witness :
  exists items,
    iterate (VList [VInt 0; VStr "b"]) = Ok items /\ VStr "b" ∈ items
    /\ falsy (VStr "b") = false.
Proof.
  apply (pick_one_only_true_items 2 (VList [VInt 0; VStr "b"]) "Choose." (console ["1"; "2"])
           (asked pick_one_prompt (menu "Choose." [VInt 0; VStr "b"])
              (asked pick_one_prompt (menu "Choose." [VInt 0; VStr "b"] ++ [pick_one_error ++ nl])
                 (console ["1"; "2"])))).
  reflexivity.
Defined.

(** X21. [pick_one] returns the item whose number is typed, white space
    around the number aside, provided the item counts as true; the replies
    before it, ASCII text that is no such number, are each answered with the
    error line and the menu again. *)
Theorem pick_one_numbered_item (k fuel : nat) (item_list : value) (items : list value)
    (msg line : string) (item : value) (w : world) :
  iterate item_list = Ok items ->
  next_replies k (not_a_choice items) w ->
  stdin w (stdin_pos w + k)%nat = Some line ->
  numbered items (strip line) item ->
  falsy item = false ->
  (k < fuel)%nat ->
  pick_one fuel item_list msg w
  = Return item
      (asked pick_one_prompt (menu msg items)
         (repeated k (asked pick_one_prompt (menu msg items ++ [pick_one_error ++ nl])) w)).
Proof.
  intros Hit Hk Hline Hnum Hf Hfuel.
  unfold pick_one, mbind, M_bind, bind. rewrite Hit. cbn [lift ret].
  replace fuel with (k + S (fuel - S k))%nat by lia.
  rewrite pick_one_skips by done.
  destruct (repeated_stdin k pick_one_prompt (menu msg items ++ [pick_one_error ++ nl]) w)
    as (Hin & Hpos & _).
  rewrite (pick_one_turn _ _ _ line); [|by rewrite Hin, Hpos].
  apply options_get_numbered in Hnum. rewrite Hnum. cbn [from_option id]. by rewrite Hf.
Qed.

Lemma pick_one_numbered_item_witness :
  pick_one 3 (VList [VInt 0; VStr "b"]) "Choose." (console ["1"; "7"; " 2 "])
  = Return (VStr "b")
      (asked pick_one_prompt (menu "Choose." [VInt 0; VStr "b"])
         (repeated 2 (asked pick_one_prompt
                        (menu "Choose." [VInt 0; VStr "b"] ++ [pick_one_error ++ nl]))
            (console ["1"; "7"; " 2 "]))).
Proof.
  apply (pick_one_numbered_item 2 3 (VList [VInt 0; VStr "b"]) [VInt 0; VStr "b"]
           "Choose." " 2 " (VStr "b")).
  - reflexivity.
  - intros j Hj.
    assert (j = 0 \/ j = 1)%nat as [-> | ->] by lia.
    + exists "1". split; [reflexivity|]. split; [reflexivity|].
      intros item (i & Hs & Hi). change (strip "1") with (pretty 1%Z) in Hs.
      apply (inj pretty) in Hs. assert (i = 0%nat) as -> by lia. by injection Hi as <-.
    + exists "7". split; [reflexivity|]. split; [reflexivity|].
      intros item (i & Hs & Hi). change (strip "7") with (pretty 7%Z) in Hs.
      apply (inj pretty) in Hs. assert (i = 6%nat) as -> by lia. discriminate Hi.
  - reflexivity.
  - exists 1%nat. split; reflexivity.
  - reflexivity.
  - lia.
Defined.

(** *** Strings of digits *)

Lemma every_app (p : ascii -> bool) (a b : string) :
  every p (a ++ b) = every p a && every p b.
Proof.
  induction a as [|x a IH]; [done|].
  rewrite append_cons. cbn [every]. by rewrite IH, andb_assoc.
Qed.

Lemma every_weaken (p q : ascii -> bool) (s : string) :
  (forall c, p c = true -> q c = true) -> every p s = true -> every q s = true.
Proof.
  intros Hpq. induction s as [|c s IH]; [done|]. cbn [every].
  intros [Hc Hs]%andb_true_iff. by rewrite (Hpq c Hc), IH.
Qed.

Lemma pretty_N_go_digits (x : N) (s : string) :
  every digit s = true -> every digit (pretty_N_go x s) = true.
Proof.
  revert s. induction (N.lt_wf_0 x) as [x _ IH]; intros s Hs.
  assert (x = 0 \/ 0 < x)%N as [->|Hx] by lia; [by rewrite pretty_N_go_0|].
  rewrite pretty_N_go_step by done. apply IH; [by apply N.div_lt|].
  cbn [every]. rewrite Hs, andb_true_r.
  unfold pretty_N_char. by repeat case_match.
Qed.

Lemma pretty_number_digits (i : nat) : every digit (pretty (Z.of_nat i + 1)%Z) = true.
Proof.
  destruct (Z.of_nat i + 1)%Z as [|p|p] eqn:Hp; [lia| |lia].
  change (every digit (pretty_N_go (N.pos p) EmptyString) = true).
  by apply pretty_N_go_digits.
Qed.

Lemma typed_chars (idxs : list nat) : every digit_or_space (typed idxs) = true.
Proof.
  unfold typed. induction idxs as [|i idxs IH]; [done|].
  assert (Hi : every digit_or_space (pretty (Z.of_nat i + 1)%Z) = true).
  { apply (every_weaken digit); [|apply pretty_number_digits].
    intros c Hc. unfold digit_or_space. by rewrite Hc. }
  destruct idxs as [|i2 idxs]; [exact Hi|].
  cbn [map] in *. rewrite join_cons2, !every_app, Hi, IH. done.
Qed.

Lemma digit_or_space_cases (c : ascii) :
  digit_or_space c = true ->
  lower_char c = c /\ c <> "a"%char /\ c <> "n"%char.
Proof.
  destruct c as [[] [] [] [] [] [] [] []]; vm_compute; intros H; try discriminate H;
    repeat split; discriminate.
Qed.

Lemma lower_digits (s : string) : every digit_or_space s = true -> lower s = s.
Proof.
  induction s as [|c s IH]; [done|]. cbn [every lower].
  intros [Hc Hs]%andb_true_iff. apply digit_or_space_cases in Hc as (-> & _).
  by rewrite IH.
Qed.

Lemma every_lacks (p : ascii -> bool) (c : ascii) (s : string) :
  p c = false -> every p s = true -> lacks c s = true.
Proof.
  intros Hc. unfold lacks. induction s as [|x s IH]; [done|]. cbn [every str_mem].
  intros [Hx Hs]%andb_true_iff.
  destruct (Ascii.eqb_spec c x) as [->|_]; [congruence | by apply IH].
Qed.

(** *** [in] and [split] *)

Lemma prefix_app (a b : string) : String.prefix a (a ++ b) = true.
Proof.
  induction a as [|x a IH]; [by destruct b|].
  rewrite append_cons. cbn [String.prefix].
  destruct (ascii_dec x x); [exact IH | done].
Qed.

Lemma contains_app (pre sub post : string) : contains sub (pre ++ sub ++ post) = true.
Proof.
  induction pre as [|x pre IH].
  - change (EmptyString ++ sub ++ post) with (sub ++ post).
    destruct (sub ++ post) eqn:E; cbn [contains]; rewrite <- E, prefix_app; done.
  - rewrite append_cons. cbn [contains]. rewrite IH. by destruct (String.prefix _ _).
Qed.

Lemma contains_lacks (c : ascii) (sub s : string) :
  lacks c s = true -> contains (String c sub) s = false.
Proof.
  unfold lacks. induction s as [|x s IH]; [done|]. cbn [str_mem contains String.prefix].
  destruct (Ascii.eqb_spec c x) as [->|Hne]; [done|]. intros Hs.
  destruct (ascii_dec c x); [done | by apply IH].
Qed.

Lemma split_lacks (sep : ascii) (s : string) :
  lacks sep s = true -> split sep s = [s].
Proof.
  unfold lacks. induction s as [|x s IH]; [done|]. cbn [str_mem split].
  rewrite (Ascii.eqb_sym x sep).
  destruct (Ascii.eqb sep x); [done|]. intros Hs. by rewrite IH.
Qed.

Lemma split_app (sep : ascii) (a b : string) :
  lacks sep a = true -> split sep (a ++ String sep b) = a :: split sep b.
Proof.
  unfold lacks. induction a as [|x a IH].
  - intros _. change (EmptyString ++ String sep b) with (String sep b).
    cbn [split]. by rewrite Ascii.eqb_refl.
  - rewrite append_cons. cbn [str_mem split]. rewrite (Ascii.eqb_sym x sep).
    destruct (Ascii.eqb sep x); [done|]. intros Hs. by rewrite IH.
Qed.

Lemma split_join (sep : ascii) (l : list string) :
  l <> [] -> Forall (fun x => lacks sep x = true) l ->
  split sep (join (String sep EmptyString) l) = l.
Proof.
  induction l as [|x l IH]; [done|]. intros _ Hl.
  apply Forall_cons in Hl as [Hx Hl]. destruct l as [|y l]; [by apply split_lacks|].
  rewrite join_cons2.
  change (String sep EmptyString ++ join (String sep EmptyString) (y :: l))
    with (String sep (join (String sep EmptyString) (y :: l))).
  rewrite split_app by done. f_equal. by apply IH.
Qed.

Lemma prefix_inv (a s : string) : String.prefix a s = true -> exists b, s = a ++ b.
Proof.
  revert s. induction a as [|x a IH]; intros s; [by exists s|].
  destruct s as [|y s]; [done|]. cbn [String.prefix].
  destruct (ascii_dec x y) as [->|]; [|done].
  intros [b ->]%IH. by exists b.
Qed.

Lemma contains_inv (sub s : string) :
  contains sub s = true -> exists pre post, s = pre ++ sub ++ post.
Proof.
  induction s as [|x s IH]; cbn [contains].
  - destruct (String.prefix sub EmptyString) eqn:E; [|done].
    intros _. apply prefix_inv in E as [b E]. by exists EmptyString, b.
  - destruct (String.prefix sub (String x s)) eqn:E.
    + intros _. apply prefix_inv in E as [b E]. by exists EmptyString, b.
    + intros (pre & post & ->)%IH. by exists (String x pre), post.
Qed.

Lemma lower_app (a b : string) : lower (a ++ b) = lower a ++ lower b.
Proof.
  induction a as [|x a IH]; [done|]. rewrite append_cons. cbn [lower].
  by rewrite IH.
Qed.

Lemma lower_app_inv (s a b : string) :
  lower s = a ++ b -> exists a' b', s = a' ++ b' /\ lower a' = a /\ lower b' = b.
Proof.
  revert s. induction a as [|x a IH]; intros s.
  - intros H. by exists EmptyString, s.
  - destruct s as [|y s]; [done|]. rewrite append_cons. cbn [lower].
    intros [= Hy (a' & b' & -> & Ha & Hb)%IH].
    exists (String y a'), b'. cbn [lower]. by rewrite Hy, Ha.
Qed.

Lemma contains_mentions (word line : string) :
  contains word (lower line) = true <-> mentions word line.
Proof.
  split.
  - intros (pre & post & H)%contains_inv.
    apply lower_app_inv in H as (pre' & rest & -> & _ & H).
    apply lower_app_inv in H as (mid & post' & -> & H & _).
    by exists pre', mid, post'.
  - intros (pre & mid & post & -> & <-). rewrite !lower_app. apply contains_app.
Qed.

(** *** [pick_many] *)

Lemma pick_many_turn (fuel : nat) (items : list value) (msg line : string) (w : world) :
  stdin w (stdin_pos w) = Some line ->
  pick_many_loop (S fuel) items (make_options items) msg w
  = if contains "all" (lower line)
    then Return (VList items) (asked pick_many_prompt (menu msg items) w)
    else if contains "none" (lower line)
    then Return (VList []) (asked pick_many_prompt (menu msg items) w)
    else
      let sels := for_selections (make_options items) (split " " (lower line)) [] (VList []) in
      if bool_decide (sels.1 = [])
      then pick_many_loop fuel items (make_options items) msg
             (asked pick_many_prompt
                    (menu msg items ++ [pick_many_error sels.2 (lower line) ++ nl]) w)
      else Return (VList sels.1) (asked pick_many_prompt (menu msg items) w).
Proof.
  intros H. cbn [pick_many_loop]. rewrite show_menu.
  unfold mbind, M_bind, bind, raw_input. cbn [stdin stdin_pos]. rewrite H.
  destruct (contains "all" _); [done|]. destruct (contains "none" _); [done|].
  cbv zeta. destruct (for_selections _ _ _ _) as [chosen selection]. cbn [fst snd].
  destruct (bool_decide _); [|done].
  unfold eprint, stderr_write, asked. cbn. by rewrite <- app_assoc.
Qed.

(** X22. [pick_many] looks for the words [all] and [none] anywhere in the
    reply and in either case, before it reads any number: a reply that holds
    [all], even inside another word, selects the whole list, and one that
    holds [none] and not [all] selects nothing. *)
Theorem pick_many_all_or_none (fuel : nat) (items : list value) (msg line : string)
    (w : world) :
  stdin w (stdin_pos w) = Some line ->
  (mentions "all" line ->
   pick_many (S fuel) (VList items) msg w
   = Return (VList items) (asked pick_many_prompt (menu msg items) w))
  /\ (mentions "none" line -> ~ mentions "all" line ->
      pick_many (S fuel) (VList items) msg w
      = Return (VList []) (asked pick_many_prompt (menu msg items) w)).
Proof.
  intros H. unfold pick_many. rewrite (pick_many_turn _ _ _ _ _ H). split.
  - intros Hall%contains_mentions. by rewrite Hall.
  - intros Hnone%contains_mentions Hall.
    destruct (contains "all" (lower line)) eqn:E.
    + by apply contains_mentions in E.
    + by rewrite Hnone.
Qed.

Lemma pick_many_all_or_none_witness :
  pick_many 1 (VList [VStr "a"; VStr "b"]) "Choose." (console ["1 or a sMALl one"])
  = Return (VList [VStr "a"; VStr "b"])
           (asked pick_many_prompt (menu "Choose." [VStr "a"; VStr "b"])
                  (console ["1 or a sMALl one"])).
Proof.
  apply (pick_many_all_or_none 0 [VStr "a"; VStr "b"] "Choose." "1 or a sMALl one"
           (console ["1 or a sMALl one"]) eq_refl).
  exists "1 or a sM", "ALl", " one". split; reflexivity.
Defined.

Lemma for_selections_numbers (items : list value) (idxs : list nat) (chosen : list value) :
  Forall2 (fun (i : nat) item => items !! i = Some item /\ item <> VNone) idxs chosen ->
  forall acc sel, exists sel',
    for_selections (make_options items)
      (map (fun i : nat => pretty (Z.of_nat i + 1)%Z) idxs) acc sel
    = (acc ++ chosen, sel')%list.
Proof.
  induction 1 as [|i item idxs chosen [Hi Hne] _ IH]; intros acc sel.
  - exists sel. cbn. by rewrite app_nil_r.
  - cbn [map for_selections].
    assert (Hget : dict_get (KStr (pretty (Z.of_nat i + 1)%Z)) (make_options items) = Some item).
    { apply options_get_numbered. by exists i. }
    rewrite Hget. cbn [from_option id].
    destruct (IH (acc ++ [item])%list (VStr (pretty (Z.of_nat i + 1)%Z))) as [sel' IH'].
    exists sel'. rewrite <- app_assoc in IH'. by destruct item.
Qed.

(** X23. Numbers typed with one space between them select those items, in
    the order typed and as often as typed, provided each is the number of an
    item that is not [None]. *)
Theorem pick_many_numbers (fuel : nat) (items : list value) (msg : string)
    (idxs : list nat) (chosen : list value) (w : world) :
  idxs <> [] ->
  Forall2 (fun (i : nat) item => items !! i = Some item /\ item <> VNone) idxs chosen ->
  stdin w (stdin_pos w) = Some (typed idxs) ->
  pick_many (S fuel) (VList items) msg w
  = Return (VList chosen) (asked pick_many_prompt (menu msg items) w).
Proof.
  intros Hne Hall Hline. unfold pick_many. rewrite (pick_many_turn _ _ _ _ _ Hline).
  pose proof (typed_chars idxs) as Hchars.
  rewrite (lower_digits _ Hchars).
  rewrite !contains_lacks by (by apply (every_lacks digit_or_space)).
  unfold typed. rewrite (split_join " "%char).
  - destruct (for_selections_numbers items idxs chosen Hall [] (VList [])) as [sel' ->].
    cbn [fst snd app]. rewrite bool_decide_false; [done|].
    intros ->. apply Forall2_nil_inv_r in Hall. done.
  - by destruct idxs.
  - apply Forall_fmap, Forall_forall. intros i _. cbn.
    apply (every_lacks digit); [done | apply pretty_number_digits].
Qed.

Lemma pick_many_numbers_witness :
  pick_many 1 (VList [VStr "a"; VInt 0; VStr "c"]) "Choose." (console ["3 2 3"])
  = Return (VList [VStr "c"; VInt 0; VStr "c"])
           (asked pick_many_prompt (menu "Choose." [VStr "a"; VInt 0; VStr "c"])
                  (console ["3 2 3"])).
Proof.
  apply (pick_many_numbers 0 [VStr "a"; VInt 0; VStr "c"] "Choose." [2; 1; 2]%nat
           [VStr "c"; VInt 0; VStr "c"] (console ["3 2 3"])).
  - discriminate.
  - repeat (constructor; [split; [reflexivity | discriminate]|]). constructor.
  - reflexivity.
Defined.

Lemma for_selections_items (items : list value) (sels : list string) :
  forall acc sel,
    Forall (fun x => x ∈ items /\ x <> VNone) acc ->
    Forall (fun x => x ∈ items /\ x <> VNone)
           (for_selections (make_options items) sels acc sel).1.
Proof.
  induction sels as [|s sels IH]; intros acc sel Hacc; [done|].
  cbn [for_selections].
  destruct (dict_get (KStr s) (make_options items)) as [item|] eqn:Hget;
    cbn [from_option id]; [|by constructor].
  apply options_get_numbered in Hget as (i & _ & Hi).
  apply list_elem_of_lookup_2 in Hi.
  destruct item; first [by constructor | apply IH, Forall_app; split; [done|];
    by repeat constructor].
Qed.

Lemma pick_many_loop_returns (fuel : nat) (items : list value) (msg : string)
    (w w' : world) (v : value) :
  pick_many_loop fuel items (make_options items) msg w = Return v w' ->
  exists chosen, v = VList chosen
    /\ (chosen = items \/ Forall (fun x => x ∈ items /\ x <> VNone) chosen).
Proof.
  revert w. induction fuel as [|fuel IH]; intros w; [done|].
  destruct (stdin w (stdin_pos w)) as [line|] eqn:Hline.
  - rewrite (pick_many_turn _ _ _ _ _ Hline).
    destruct (contains "all" _); [intros [= <- _]; exists items; split; [done | by left]|].
    destruct (contains "none" _); [intros [= <- _]; exists []; split; [done | by right]|].
    cbv zeta. destruct (bool_decide _); [apply IH|].
    intros [= <- _]. eexists. split; [done|]. right. by apply for_selections_items.
  - cbn [pick_many_loop]. rewrite show_menu.
    unfold mbind, M_bind, bind, raw_input. cbn [stdin stdin_pos]. by rewrite Hline.
Qed.

(** X24. [pick_many] returns only for an argument that is a list, and what it
    returns is a list: the whole list of items as it is, or items of it none
    of which is [None]. *)
Theorem pick_many_returns_items (fuel : nat) (item_list : value) (msg : string)
    (w w' : world) (v : value) :
  pick_many fuel item_list msg w = Return v w' ->
  exists items chosen,
    item_list = VList items /\ v = VList chosen
    /\ (chosen = items \/ Forall (fun x => x ∈ items /\ x <> VNone) chosen).
Proof.
  unfold pick_many. destruct item_list as [| | | |items|]; try done.
  intros (chosen & -> & H)%pick_many_loop_returns. by exists items, chosen.
Qed.

Lemma pick_many_returns_items_witness :
  exists items chosen,
    VList [VStr "a"; VNone; VStr "c"] = VList items /\ VList [VStr "c"] = VList chosen
    /\ (chosen = items \/ Forall (fun x => x ∈ items /\ x <> VNone) chosen).
Proof.
  apply (pick_many_returns_items 2 (VList [VStr "a"; VNone; VStr "c"]) "Choose."
           (console ["1 2"; "3"])
           (asked pick_many_prompt (menu "Choose." [VStr "a"; VNone; VStr "c"])
              (asked pick_many_prompt
                 (menu "Choose." [VStr "a"; VNone; VStr "c"]
                  ++ [pick_many_error (VStr "2") "1 2" ++ nl])
                 (console ["1 2"; "3"])))).
  reflexivity.
Defined.

(** *** [ask_string_confirm] *)

Lemma ask_string_confirm_turn (fuel : nat) (msg entry reply : string) (c : ascii)
    (rest : string) (w : world) :
  stdin w (stdin_pos w) = Some entry ->
  stdin w (S (stdin_pos w)) = Some reply ->
  strip reply = String c rest ->
  ask_string_confirm (S fuel) msg w
  = if decide (lower_char c = "y"%char)
    then Return entry (asked (entered_msg entry) [] (asked msg [] w))
    else if decide (lower_char c = "n"%char)
    then ask_string_confirm fuel msg (asked (entered_msg entry) [] (asked msg [] w))
    else (confirmed ← confirm_yn fuel (entered_msg entry);
          if confirmed : bool then mret entry else ask_string_confirm fuel msg)
           (asked (entered_msg entry) [confirm_yn_error ++ nl] (asked msg [] w)).
Proof.
  intros He Hr Hs. cbn [ask_string_confirm]. unfold ask_string.
  unfold mbind, M_bind, bind.
  rewrite (raw_input_line _ _ _ He). cbn [mret M_ret ret str].
  rewrite (confirm_yn_turn _ _ reply) by exact Hr. rewrite Hs.
  destruct (decide (lower_char c = "y"%char)); [done|].
  destruct (decide (lower_char c = "n"%char)); done.
Qed.

(** X25. [ask_string_confirm] returns the entry that is confirmed with a
    reply starting with y, exactly as it was typed: the entries declined
    before it with a reply starting with n are dropped, and nothing is
    written to [stderr] or to a file. *)
Theorem ask_string_confirm_entry (k fuel : nat) (msg entry reply : string) (w : world) :
  (forall j, (j < k)%nat -> exists e r,
     stdin w (stdin_pos w + 2 * j)%nat = Some e
     /\ stdin w (stdin_pos w + 2 * j + 1)%nat = Some r /\ starts_with "n"%char r) ->
  stdin w (stdin_pos w + 2 * k)%nat = Some entry ->
  stdin w (stdin_pos w + 2 * k + 1)%nat = Some reply ->
  starts_with "y"%char reply ->
  (k < fuel)%nat ->
  exists w',
    ask_string_confirm fuel msg w = Return entry w'
    /\ stdin_pos w' = (stdin_pos w + 2 * k + 2)%nat
    /\ files w' = files w /\ stderr w' = stderr w.
Proof.
  revert fuel w. induction k as [|k IH]; intros fuel w Hk He Hr (c & rest & Hs & Hc) Hfuel.
  - destruct fuel as [|fuel]; [lia|].
    rewrite Nat.add_0_r in He. cbn [Nat.mul] in Hr. rewrite Nat.add_0_r in Hr.
    replace (stdin_pos w + 1)%nat with (S (stdin_pos w)) in Hr by lia.
    rewrite (ask_string_confirm_turn _ _ _ _ _ _ _ He Hr Hs), decide_True by done.
    eexists. split; [done|]. cbn. repeat split; [lia | by rewrite !app_nil_r].
  - destruct fuel as [|fuel]; [lia|].
    destruct (Hk 0%nat ltac:(lia)) as (e & r & He0 & Hr0 & c0 & rest0 & Hs0 & Hc0).
    cbn [Nat.mul] in He0, Hr0. rewrite !Nat.add_0_r in He0, Hr0.
    replace (stdin_pos w + 1)%nat with (S (stdin_pos w)) in Hr0 by lia.
    rewrite (ask_string_confirm_turn _ _ _ _ _ _ _ He0 Hr0 Hs0).
    rewrite decide_False by (rewrite Hc0; discriminate). rewrite decide_True by done.
    destruct (IH fuel (asked (entered_msg e) [] (asked msg [] w))) as (w' & -> & Hpos & Hf & Herr).
    + intros j Hj. destruct (Hk (S j) ltac:(lia)) as (e' & r' & He' & Hr' & Hn).
      exists e', r'. cbn [asked stdin stdin_pos]. split; [|split; [|done]].
      * rewrite <- He'. f_equal. lia.
      * rewrite <- Hr'. f_equal. lia.
    + cbn [asked stdin stdin_pos]. rewrite <- He. f_equal. lia.
    + cbn [asked stdin stdin_pos]. rewrite <- Hr. f_equal. lia.
    + by exists c, rest.
    + lia.
    + exists w'. split; [done|]. cbn in Hpos, Hf, Herr.
      rewrite Hpos, Hf, Herr. repeat split; [lia | by rewrite !app_nil_r].
Qed.

Lemma ask_string_confirm_entry_witness :
  exists w',
    ask_string_confirm 2 "Name: " (console ["ann "; "no"; " Ann"; "Yes"])
    = Return " Ann" w'
    /\ stdin_pos w' = (0 + 2 * 1 + 2)%nat
    /\ files w' = ∅ /\ stderr w' = [].
Proof.
  apply (ask_string_confirm_entry 1 2 "Name: " " Ann" "Yes"
           (console ["ann "; "no"; " Ann"; "Yes"])).
  - intros j Hj. assert (j = 0%nat) as -> by lia.
    exists "ann ", "no". split; [reflexivity|]. split; [reflexivity|].
    exists "n"%char, "o". split; reflexivity.
  - reflexivity.
  - reflexivity.
  - exists "Y"%char, "es". split; reflexivity.
  - lia.
Defined.

End Prompts.
